(** * DynamicEC2Scaler: a shallow embedding of [lambda/index.py]

    The Lambda handler of the repository downsizes tagged EC2 instances
    outside business hours and restores them afterwards.  This file
    embeds the schedule engine, the pricing lookup, the savings-plan
    estimator, the retry wrapper, the per-instance workflow and the
    batch loop of the handler, and proves properties of them.

    Conventions of the embedding.
    - Python [str] values are Rocq strings of ASCII characters.
    - Python [int] is [Z].  A Python [float] is a [pyfloat]: a
      rational of [Q] with exact arithmetic when it is a number, or
      one of nan, inf and -inf.  Durations computed from two
      timestamps are numbers, and are kept in [Q].
    - A Python call that may raise returns a [result].
    - A [datetime.date] is its proleptic Gregorian ordinal, as given by
      [date.toordinal()]; a naive [datetime.datetime] is that ordinal
      together with the time-of-day fields. *)

From Stdlib Require Import ZArith QArith Qround List Ascii String Lia Lqa Bool Permutation.
From stdpp Require Import base option gmap strings list.

Local Open Scope string_scope.
Local Open Scope Z_scope.
Local Open Scope list_scope.

(** ** Exceptions and results *)

Inductive exn : Type :=
| ValueError (msg : string)
| TypeError (msg : string)
| KeyError (key : string)
| OverflowError (msg : string)
| RuntimeError (msg : string)
| TimeoutError (msg : string)
| ZeroDivisionError (msg : string)
| ClientError (code : string)
| Exception (msg : string).

(** [OutOfFuel] is not a Python outcome: it marks a loop of the source
    ([while] on the clock or on a pagination token) that was cut by the
    fuel of the model.  No [except] clause catches it. *)
Inductive result (A : Type) : Type :=
| Ok (a : A)
| Raise (e : exn)
| OutOfFuel.

Arguments Ok {A} a.
Arguments Raise {A} e.
Arguments OutOfFuel {A}.

Definition rbind {A B} (r : result A) (k : A -> result B) : result B :=
  match r with
  | Ok a => k a
  | Raise e => Raise e
  | OutOfFuel => OutOfFuel
  end.

Notation "'do' x <- r ; k" := (rbind r (fun x => k))
  (at level 10, x pattern, r at level 100, k at level 200).

Definition failed {A} (r : result A) : Prop := exists e, r = Raise e.

(** ** Python floats with their special values *)

Inductive pyfloat : Type :=
| Finite (q : Q)
| NaN
| Infinity (negative : bool).

(** Arithmetic and comparison of floats: exact on the numbers, and by
    the IEEE rules on nan and the infinities.  A comparison with nan
    is false; a division by zero raises. *)
Module Float.

Definition of_Z (n : Z) : pyfloat := Finite (inject_Z n).

Definition is_negative (q : Q) : bool := if Qlt_le_dec q 0 then true else false.

Definition is_zero (q : Q) : bool := Qeq_bool q 0.

Definition neg (a : pyfloat) : pyfloat :=
  match a with
  | Finite q => Finite (- q)
  | NaN => NaN
  | Infinity negative => Infinity (negb negative)
  end.

Definition add (a b : pyfloat) : pyfloat :=
  match a, b with
  | Finite p, Finite q => Finite (p + q)
  | NaN, _ | _, NaN => NaN
  | Infinity s, Finite _ => Infinity s
  | Finite _, Infinity s => Infinity s
  | Infinity s, Infinity s' => if Bool.eqb s s' then Infinity s else NaN
  end.

Definition sub (a b : pyfloat) : pyfloat := add a (neg b).

Definition mul (a b : pyfloat) : pyfloat :=
  match a, b with
  | Finite p, Finite q => Finite (p * q)
  | NaN, _ | _, NaN => NaN
  | Infinity s, Finite q | Finite q, Infinity s =>
      if is_zero q then NaN else Infinity (xorb s (is_negative q))
  | Infinity s, Infinity s' => Infinity (xorb s s')
  end.

Definition div (a b : pyfloat) : result pyfloat :=
  match b with
  | Finite q =>
      if is_zero q then Raise (ZeroDivisionError "float division by zero")
      else match a with
           | Finite p => Ok (Finite (p / q))
           | NaN => Ok NaN
           | Infinity s => Ok (Infinity (xorb s (is_negative q)))
           end
  | NaN => Ok NaN
  | Infinity _ =>
      match a with
      | Finite _ => Ok (Finite 0)
      | _ => Ok NaN
      end
  end.

(** [a < b]. *)
Definition ltb (a b : pyfloat) : bool :=
  match a, b with
  | Finite p, Finite q => if Qlt_le_dec p q then true else false
  | NaN, _ | _, NaN => false
  | Infinity s, Finite _ => s
  | Finite _, Infinity s => negb s
  | Infinity s, Infinity s' => s && negb s'
  end.

(** [a <= b]. *)
Definition leb (a b : pyfloat) : bool :=
  match a, b with
  | Finite p, Finite q => if Qlt_le_dec q p then false else true
  | NaN, _ | _, NaN => false
  | Infinity s, Finite _ => s
  | Finite _, Infinity s => negb s
  | Infinity s, Infinity s' => s || negb s'
  end.

(** [max(a, b)] and [min(a, b)]: the first argument wins unless the
    second is strictly better. *)
Definition max (a b : pyfloat) : pyfloat := if ltb a b then b else a.
Definition min (a b : pyfloat) : pyfloat := if ltb b a then b else a.

End Float.

(** ** Python string operations (ASCII) *)

Module PyStr.

(** [str.isspace] on one ASCII character: TAB, LF, VT, FF, CR, the four
    separators 0x1c-0x1f and the space. *)
Definition isspace (c : ascii) : bool :=
  let n := nat_of_ascii c in
  ((9 <=? n)%nat && (n <=? 13)%nat) || ((28 <=? n)%nat && (n <=? 32)%nat).

Definition isdigit (c : ascii) : bool :=
  let n := nat_of_ascii c in (48 <=? n)%nat && (n <=? 57)%nat.

Definition lower_char (c : ascii) : ascii :=
  let n := nat_of_ascii c in
  if (65 <=? n)%nat && (n <=? 90)%nat then ascii_of_nat (n + 32) else c.

Definition upper_char (c : ascii) : ascii :=
  let n := nat_of_ascii c in
  if (97 <=? n)%nat && (n <=? 122)%nat then ascii_of_nat (n - 32) else c.

Fixpoint map_chars (f : ascii -> ascii) (s : string) : string :=
  match s with
  | EmptyString => EmptyString
  | String c s' => String (f c) (map_chars f s')
  end.

Definition lower : string -> string := map_chars lower_char.
Definition upper : string -> string := map_chars upper_char.

Fixpoint lstrip (s : string) : string :=
  match s with
  | String c s' => if isspace c then lstrip s' else s
  | EmptyString => EmptyString
  end.

Fixpoint rstrip (s : string) : string :=
  match s with
  | EmptyString => EmptyString
  | String c s' =>
      match rstrip s' with
      | EmptyString => if isspace c then EmptyString else String c EmptyString
      | t => String c t
      end
  end.

Definition strip (s : string) : string := rstrip (lstrip s).

(** Truthiness of a string: [bool(s)]. *)
Definition nonempty (s : string) : bool :=
  match s with EmptyString => false | _ => true end.

Definition startswith (p s : string) : bool := String.prefix p s.

Definition endswith (p s : string) : bool :=
  String.prefix (String.rev p) (String.rev s).

(** [s[i:]] and [s[:-j]] for non-negative [i], [j] with [j > 0]. *)
Fixpoint drop (n : nat) (s : string) : string :=
  match n, s with
  | O, _ => s
  | S n', String _ s' => drop n' s'
  | S _, EmptyString => EmptyString
  end.

Definition drop_end (n : nat) (s : string) : string :=
  String.rev (drop n (String.rev s)).

(** [c in s] for a one-character needle. *)
Fixpoint contains_char (c : ascii) (s : string) : bool :=
  match s with
  | EmptyString => false
  | String d s' => if Ascii.eqb c d then true else contains_char c s'
  end.

(** [needle in s] for a string needle. *)
Fixpoint contains (needle s : string) : bool :=
  if String.prefix needle s then true
  else match s with
       | EmptyString => false
       | String _ s' => contains needle s'
       end.

(** [s.split(sep)] for a one-character separator: the pieces between
    the separators, empty pieces included; never the empty list. *)
Fixpoint split_on (sep : ascii) (s : string) : list string :=
  match s with
  | EmptyString => [EmptyString]
  | String c s' =>
      if Ascii.eqb c sep then EmptyString :: split_on sep s'
      else match split_on sep s' with
           | piece :: rest => String c piece :: rest
           | [] => [String c EmptyString]
           end
  end.

(** [s.split(sep, 1)]: cut at the first separator only. *)
Fixpoint split_once (sep : ascii) (s : string) : list string :=
  match s with
  | EmptyString => [EmptyString]
  | String c s' =>
      if Ascii.eqb c sep then [EmptyString; s']
      else match split_once sep s' with
           | piece :: rest => String c piece :: rest
           | [] => [String c EmptyString]
           end
  end.

(** [s.split()]: the maximal runs of non-space characters. *)
Fixpoint split_ws_aux (cur : string) (s : string) : list string :=
  match s with
  | EmptyString => if nonempty cur then [String.rev cur] else []
  | String c s' =>
      if isspace c
      then (if nonempty cur then String.rev cur :: split_ws_aux EmptyString s'
            else split_ws_aux EmptyString s')
      else split_ws_aux (String c cur) s'
  end.

Definition split_ws (s : string) : list string := split_ws_aux EmptyString s.

(** Digits of an [int] literal: decimal digits, single underscores
    allowed between digits. *)
Fixpoint int_digits (acc : Z) (prev_digit : bool) (s : string) : option Z :=
  match s with
  | EmptyString => if prev_digit then Some acc else None
  | String c s' =>
      if isdigit c
      then int_digits (10 * acc + Z.of_nat (nat_of_ascii c - 48)) true s'
      else if Ascii.eqb c "_" && prev_digit
           then match s' with
                | String d _ => if isdigit d then int_digits acc false s' else None
                | EmptyString => None
                end
           else None
  end.

(** [int(s)]: surrounding whitespace is skipped, one sign is allowed;
    [None] stands for [ValueError]. *)
Definition int (s : string) : option Z :=
  match strip s with
  | String "+" t => int_digits 0 false t
  | String "-" t => option_map Z.opp (int_digits 0 false t)
  | t => int_digits 0 false t
  end.

End PyStr.

(** ** Python dictionaries with string keys, in insertion order *)

Module Dict.

(** [d.get(k)]. *)
Fixpoint get {V} (k : string) (d : list (string * V)) : option V :=
  match d with
  | [] => None
  | (k', v) :: d' => if String.eqb k k' then Some v else get k d'
  end.

(** [d[k] = v]: an existing key keeps its place. *)
Fixpoint set {V} (k : string) (v : V) (d : list (string * V)) : list (string * V) :=
  match d with
  | [] => [(k, v)]
  | (k', v') :: d' =>
      if String.eqb k k' then (k, v) :: d' else (k', v') :: set k v d'
  end.

(** [{t["Key"]: t["Value"] for t in l}]. *)
Definition of_list {V} (l : list (string * V)) : list (string * V) :=
  List.fold_left (fun d kv => set (fst kv) (snd kv) d) l [].

End Dict.

(** ** Calendar values *)

(** [datetime.date] as its ordinal; [date.min] is 1 and [date.max]
    (9999-12-31) is 3652059. *)
Definition MINORDINAL : Z := 1.
Definition MAXORDINAL : Z := 3652059.

Record datetime : Type := mk_datetime {
  ordinal : Z;
  hour : Z;
  minute : Z;
  second : Z;
  microsecond : Z
}.


(** [date + timedelta(days=k)]. *)
Definition date_add_days (date : Z) (k : Z) : result Z :=
  let o := date + k in
  if (MINORDINAL <=? o) && (o <=? MAXORDINAL) then Ok o
  else Raise (OverflowError "date value out of range").

(** [datetime.combine(date, datetime.time(hour=h, minute=m))]; the
    [time] constructor checks its fields. *)
Definition combine (date : Z) (h m : Z) : result datetime :=
  if negb ((0 <=? h) && (h <=? 23)) then Raise (ValueError "hour must be in 0..23")
  else if negb ((0 <=? m) && (m <=? 59)) then Raise (ValueError "minute must be in 0..59")
  else Ok (mk_datetime date h m 0 0).

(** [date.weekday()]: Monday is 0. *)
Definition weekday (d : datetime) : Z := (ordinal d + 6) mod 7.

(** Comparison of naive datetimes: field by field, as Python compares
    the tuples (year, month, day, hour, minute, second, microsecond). *)
Definition dt_compare (a b : datetime) : comparison :=
  match ordinal a ?= ordinal b with
  | Eq => match hour a ?= hour b with
          | Eq => match minute a ?= minute b with
                  | Eq => match second a ?= second b with
                          | Eq => microsecond a ?= microsecond b
                          | c => c
                          end
                  | c => c
                  end
          | c => c
          end
  | c => c
  end.

Definition dt_leb (a b : datetime) : bool :=
  match dt_compare a b with Gt => false | _ => true end.

Definition dt_ltb (a b : datetime) : bool :=
  match dt_compare a b with Lt => true | _ => false end.

(** [dt.replace(second=0, microsecond=0)] and [dt.replace(microsecond=0)]. *)
Definition replace_second_micro (d : datetime) : datetime :=
  mk_datetime (ordinal d) (hour d) (minute d) 0 0.

Definition replace_micro (d : datetime) : datetime :=
  mk_datetime (ordinal d) (hour d) (minute d) (second d) 0.

(** ** Schedule engine *)

Module Cron.

Definition CRON_WEEKDAY_MAP : list (string * Z) :=
  [("MON", 0); ("TUE", 1); ("WED", 2); ("THU", 3);
   ("FRI", 4); ("SAT", 5); ("SUN", 6)].

Definition cron_value_to_weekday (token : string) : result Z :=
  let upper_token := PyStr.upper (PyStr.strip token) in
  if negb (PyStr.nonempty upper_token)
  then Raise (ValueError "Empty day-of-week token in cron expression")
  else match Dict.get upper_token CRON_WEEKDAY_MAP with
       | Some d => Ok d
       | None =>
           match PyStr.int token with
           | None => Raise (ValueError "Unsupported day-of-week token")
           | Some numeric =>
               if (numeric =? 0) || (numeric =? 7) then Ok 6
               else if (1 <=? numeric) && (numeric <=? 6) then Ok (numeric - 1)
               else Raise (ValueError "Day-of-week value out of range")
           end
       end.

(** [range(a, b)]. *)
Definition range (a b : Z) : list Z := seqZ a (b - a).

Definition add_all (values : list Z) (allowed : gset Z) : gset Z :=
  foldl (fun acc v => {[ v ]} ∪ acc) allowed values.

(** One turn of the loop over the comma-separated segments. *)
Definition add_segment (allowed : gset Z) (segment : string) : result (gset Z) :=
  let segment := PyStr.strip segment in
  if negb (PyStr.nonempty segment) then Ok allowed
  else if PyStr.contains_char "-" segment then
    match PyStr.split_once "-" segment with
    | [start_token; end_token] =>
        do start <- cron_value_to_weekday start_token;
        do end_ <- cron_value_to_weekday end_token;
        if start <=? end_
        then Ok (add_all (range start (end_ + 1)) allowed)
        else Ok (add_all (range start 7 ++ range 0 (end_ + 1)) allowed)
    | _ => Raise (ValueError "not enough values to unpack")
    end
  else
    do v <- cron_value_to_weekday segment;
    Ok ({[ v ]} ∪ allowed).

Fixpoint add_segments (allowed : gset Z) (segments : list string) : result (gset Z) :=
  match segments with
  | [] => Ok allowed
  | segment :: rest =>
      do allowed' <- add_segment allowed segment;
      add_segments allowed' rest
  end.

(** [None] is the unrestricted schedule. *)
Definition parse_day_of_week_field (field : string) : result (option (gset Z)) :=
  let normalized :=
    PyStr.upper (PyStr.strip (if PyStr.nonempty field then field else "*")) in
  if String.eqb normalized "*" || String.eqb normalized "?" then Ok None
  else
    do allowed <- add_segments ∅ (PyStr.split_on "," normalized);
    Ok (Some allowed).

Definition parse_single_int_field (value : string) (field_name : string)
    (minimum maximum : Z) : result Z :=
  let cleaned := PyStr.strip value in
  if String.eqb cleaned "*" || String.eqb cleaned "?"
  then Raise (ValueError (field_name +:+ " field must be a fixed numeric value in cron expression"))
  else match PyStr.int cleaned with
       | None => Raise (ValueError (field_name +:+ " field must be an integer in cron expression"))
       | Some numeric =>
           if (numeric <? minimum) || (maximum <? numeric)
           then Raise (ValueError (field_name +:+ " field value is out of the allowed range"))
           else Ok numeric
       end.

(** The fields of the expression: the optional [cron(...)] wrapper is
    removed and the rest is cut at whitespace. *)
Definition cron_parts (cron_expression : string) : list string :=
  let expression := PyStr.strip cron_expression in
  let expression :=
    if PyStr.startswith "cron(" (PyStr.lower expression) && PyStr.endswith ")" expression
    then PyStr.strip (PyStr.drop_end 1 (PyStr.drop 5 expression))
    else expression in
  PyStr.split_ws expression.

Definition parse_cron_expression (cron_expression : string)
    : result (Z * Z * option (gset Z)) :=
  if negb (PyStr.nonempty cron_expression)
  then Raise (ValueError "Cron expression is empty")
  else match cron_parts cron_expression with
       | [minute_field; hour_field; day_of_month_field; month_field;
          day_of_week_field; year_field] =>
           do minute <- parse_single_int_field minute_field "minute" 0 59;
           do hour <- parse_single_int_field hour_field "hour" 0 23;
           if negb (String.eqb day_of_month_field "*" || String.eqb day_of_month_field "?")
           then Raise (ValueError "Day-of-month field must be '*' or '?' for supported cron expressions")
           else if negb (String.eqb month_field "*")
           then Raise (ValueError "Month field must be '*' for supported cron expressions")
           else if negb (String.eqb year_field "*")
           then Raise (ValueError "Year field must be '*' for supported cron expressions")
           else
             do allowed_days <- parse_day_of_week_field day_of_week_field;
             Ok (minute, hour, allowed_days)
       | _ => Raise (ValueError "Cron expression must have 6 fields")
       end.

(** The test of one candidate day in [get_next_scheduled_time]:
    [Ok None] is [continue]. *)
Definition candidate_at (hour minute : Z) (reference_time : datetime)
    (day_offset : Z) : result datetime :=
  let baseline := replace_second_micro reference_time in
  do candidate_date <- date_add_days (ordinal baseline) day_offset;
  combine candidate_date hour minute.

Definition accepts (allowed_days : option (gset Z)) (reference_time candidate : datetime)
    : bool :=
  negb (dt_leb candidate reference_time)
  && match allowed_days with
     | None => true
     | Some allowed => bool_decide (weekday candidate ∈ allowed)
     end.

Definition NoOccurrenceFound : exn :=
  ValueError "Unable to find the next scheduled time within 14 days for cron expression".

Fixpoint scan (hour minute : Z) (allowed_days : option (gset Z))
    (reference_time : datetime) (offsets : list Z) : result datetime :=
  match offsets with
  | [] => Raise NoOccurrenceFound
  | day_offset :: rest =>
      do candidate <- candidate_at hour minute reference_time day_offset;
      if accepts allowed_days reference_time candidate then Ok candidate
      else scan hour minute allowed_days reference_time rest
  end.

Definition get_next_scheduled_time (cron_expression : string)
    (reference_time : datetime) : result datetime :=
  do parsed <- parse_cron_expression cron_expression;
  let '(minute, hour, allowed_days) := parsed in
  scan hour minute allowed_days reference_time (range 0 14).

(** The candidate of day offset [k]: that date at [hour:minute:00]. *)
Definition candidate (reference_time : datetime) (hour minute k : Z) : datetime :=
  mk_datetime (ordinal reference_time + k) hour minute 0 0.

(** The date of day offset [k] exists in the calendar. *)
Definition representable (reference_time : datetime) (k : Z) : Prop :=
  MINORDINAL <= ordinal reference_time + k <= MAXORDINAL.

(** Every day of the set is a [weekday()] value: Monday 0 to Sunday 6. *)
Definition weekdays (allowed : gset Z) : Prop :=
  forall d, d ∈ allowed -> 0 <= d <= 6.

(** A segment that the loop of [parse_day_of_week_field] skips. *)
Definition blank (segment : string) : Prop :=
  PyStr.nonempty (PyStr.strip segment) = false.

End Cron.

(** ** The world outside the function *)

(** A pricing filter [{"Type": "TERM_MATCH", "Field": f, "Value": v}]. *)
Record filter : Type := mk_filter { Field : string; Value : string }.

(** The decoded first element of a [PriceList]: [BadJson] when
    [json.loads] rejects it; otherwise the on-demand terms, each term
    being the list of its price dimensions.  [terms = None] is an item
    without the key ["terms"]; a dimension [None] has no key
    ["pricePerUnit"], [Some None] has no ["USD"] entry. *)
Definition dimension : Type := option (option string).

Inductive price_entry : Type :=
| BadJson
| PriceItem (terms : option (list (list dimension))).

(** The calls made on the boto3 clients. *)
Inductive call : Type :=
| CreateTags (instance_id : string) (tags : list (string * string))
| StopInstances (instance_id : string)
| WaitInstanceStopped (instance_id : string)
| ModifyInstanceAttribute (instance_id : string) (instance_type : string)
| DescribeInstances (instance_id : string)
| StartInstances (instance_id : string)
| WaitInstanceRunning (instance_id : string)
| GetProducts (filters : list filter)
| GetSavingsPlansCoverage (start_date end_date : Z) (next_token : option string).

(** What a call answers.  An answer of another shape than the caller
    reads is a response dictionary without the keys it looks up. *)
Inductive response : Type :=
| Fails (e : exn)
| Done
| Reservations (instance_types : list (list (option string)))
| PriceList (entries : list price_entry)
| Coverages (rows : list (option string * option string)) (next_token : option string).

(** What the process does to the outside, in order. *)
Inductive event : Type :=
| Called (c : call)
| Slept (seconds : Q)
| ReadClock.

(** Python built-ins that are not re-implemented here.
    [python_float] is [float(s)] on a string with all its values, nan
    and the infinities included, [None] for [ValueError];
    [fromisoformat] is
    [datetime.fromisoformat], giving the naive fields and the UTC
    offset in microseconds when the text has one; [isoformat] is
    [datetime.isoformat]; [format_4f] is the format [f"{x:.4f}"]. *)
Class Builtins : Type := {
  python_float : string -> option pyfloat;
  fromisoformat : string -> option (datetime * option Z);
  isoformat : datetime -> string;
  format_4f : pyfloat -> string
}.

(** The process environment and the cloud provider.  Every answer may
    depend on all that happened before. *)
Class Environment : Type := {
  environ : string -> option string;
  session_region_name : option string;
  respond : list event -> call -> response;
  time_time : list event -> Q;
  utcnow : list event -> datetime;
  today : list event -> Z
}.

Definition cache_key : Type := string * option string * option string * option string.

(** The module globals that change, and the trace of events. *)
Record world : Type := mk_world {
  trace : list event;
  PRICE_CACHE : gmap cache_key pyfloat;
  SAVINGS_PLAN_FACTOR : option pyfloat;
  SAVINGS_PLAN_FACTOR_SOURCE : option string
}.

Definition initial_world : world := mk_world [] ∅ None None.

Definition M (A : Type) : Type := world -> result A * world.

Definition ret {A} (a : A) : M A := fun w => (Ok a, w).

Definition raise {A} (e : exn) : M A := fun w => (Raise e, w).

Definition bind {A B} (m : M A) (k : A -> M B) : M B :=
  fun w => match m w with
           | (Ok a, w') => k a w'
           | (Raise e, w') => (Raise e, w')
           | (OutOfFuel, w') => (OutOfFuel, w')
           end.

Notation "'let*' x := m 'in' k" := (bind m (fun x => k))
  (at level 10, x pattern, m at level 100, k at level 200).

Notation "m ;;; k" := (bind m (fun _ => k))
  (at level 100, k at level 200, right associativity).

(** [try: m except Exception as e: handler e]. *)
Definition try_except {A} (m : M A) (handler : exn -> M A) : M A :=
  fun w => match m w with
           | (Raise e, w') => handler e w'
           | other => other
           end.

Definition lift {A} (r : result A) : M A := fun w => (r, w).

Definition emit (ev : event) : M unit :=
  fun w => (Ok tt, mk_world (trace w ++ [ev]) (PRICE_CACHE w)
                     (SAVINGS_PLAN_FACTOR w) (SAVINGS_PLAN_FACTOR_SOURCE w)).

Section Effects.
Context {env : Environment}.

(** One call on a client: the provider answers from the history, the
    call is recorded, a failure is raised. *)
Definition invoke (c : call) : M response :=
  fun w =>
    let answer := respond (trace w) c in
    match emit (Called c) w with
    | (_, w') => match answer with
                 | Fails e => (Raise e, w')
                 | _ => (Ok answer, w')
                 end
    end.

(** [time.sleep(seconds)] for a number of seconds that is not
    negative. *)
Definition sleep (seconds : Q) : M unit := emit (Slept seconds).

(** [time.sleep] first turns its argument into a signed 64-bit count
    of nanoseconds, rounded away from zero. *)
Definition sleep_nanoseconds (seconds : Q) : Z :=
  if Qlt_le_dec seconds 0
  then Qfloor (seconds * inject_Z (10 ^ 9))
  else Qceiling (seconds * inject_Z (10 ^ 9)).

(** [time.sleep(seconds)] on any float: nan is refused with
    [ValueError], a length that does not fit the count of nanoseconds
    (the infinities among them) with [OverflowError], and a negative
    length with [ValueError]. *)
Definition time_sleep (seconds : pyfloat) : M unit :=
  match seconds with
  | Finite q =>
      let nanoseconds := sleep_nanoseconds q in
      if (nanoseconds <? - 2 ^ 63) || (2 ^ 63 <=? nanoseconds)
      then raise (OverflowError "timestamp too large to convert to C _PyTime_t")
      else if Qlt_le_dec q 0
      then raise (ValueError "sleep length must be non-negative")
      else sleep q
  | NaN => raise (ValueError "Invalid value NaN (not a number)")
  | Infinity _ => raise (OverflowError "timestamp too large to convert to C _PyTime_t")
  end.

(** [time.time()]. *)
Definition clock : M Q :=
  fun w => match emit ReadClock w with (_, w') => (Ok (time_time (trace w)), w') end.

(** [datetime.datetime.utcnow()]. *)
Definition now : M datetime :=
  fun w => match emit ReadClock w with (_, w') => (Ok (utcnow (trace w)), w') end.

(** [datetime.date.today()]. *)
Definition date_today : M Z :=
  fun w => match emit ReadClock w with (_, w') => (Ok (today (trace w)), w') end.

End Effects.

(** ** Configuration read at import time *)

Section Configuration.
Context {py : Builtins} {env : Environment}.

(** [str(raw_value)] of a missing variable is ["None"], which neither
    [int] nor [float] accepts. *)
Definition parse_int_env (var_name : string) (default : Z)
    (minimum maximum : option Z) : Z :=
  match environ var_name with
  | None => default
  | Some raw_value =>
      match PyStr.int (PyStr.strip raw_value) with
      | None => default
      | Some value =>
          let value := match minimum with
                       | Some lo => if value <? lo then lo else value
                       | None => value
                       end in
          match maximum with
          | Some hi => if hi <? value then hi else value
          | None => value
          end
      end
  end.

Definition parse_float_env (var_name : string) (default : pyfloat)
    (minimum : option pyfloat) : pyfloat :=
  match environ var_name with
  | None => default
  | Some raw_value =>
      match python_float (PyStr.strip raw_value) with
      | None => default
      | Some value =>
          match minimum with
          | Some lo => if Float.ltb value lo then lo else value
          | None => value
          end
      end
  end.

Definition parse_bool_env (var_name : string) (default : bool) : bool :=
  match environ var_name with
  | None => default
  | Some raw_value => String.eqb (PyStr.lower (PyStr.strip raw_value)) "true"
  end.

Definition BATCH_SIZE : Z := parse_int_env "BATCH_SIZE" 10 (Some 1) None.
Definition MAX_RETRIES : Z := parse_int_env "MAX_RETRIES" 3 (Some 1) None.
Definition BACKOFF_SECS : pyfloat :=
  parse_float_env "BACKOFF_SECS" (Finite 5) (Some (Finite 0)).
Definition FAIL_FAST : bool := parse_bool_env "FAIL_FAST" false.

(** [a or b] on strings. *)
Definition str_or (a b : string) : string := if PyStr.nonempty a then a else b.

Definition DEFAULT_DOWNSIZE_TYPE : string :=
  str_or (PyStr.strip (default "t3.medium" (environ "DEFAULT_DOWNSIZE_TYPE"))) "t3.medium".

Definition get_downsize_type : string := DEFAULT_DOWNSIZE_TYPE.

Definition get_concurrency_limit : Z :=
  match environ "MAX_CONCURRENT_OPERATIONS" with
  | None => 4
  | Some raw_value =>
      match PyStr.int (PyStr.strip raw_value) with
      | None => 4
      | Some value =>
          if value <? 1 then 1 else if 20 <? value then 20 else value
      end
  end.

(** ** The retry wrapper *)

(** The [for attempt in range(1, MAX_RETRIES + 1)] loop of [retry]:
    [attempts] are the attempt numbers still to run, [last_error] the
    exception kept so far. *)
Fixpoint retry_loop {A} (api_call : M A) (attempts : list Z)
    (last_error : option exn) : M A :=
  match attempts with
  | [] =>
      match last_error with
      | Some e => raise e
      | None => raise (RuntimeError "Retry failed without capturing an error")
      end
  | attempt :: rest =>
      fun w =>
        match api_call w with
        | (Raise exc, w') =>
            (time_sleep (Float.mul BACKOFF_SECS (Float.of_Z attempt)) ;;;
             retry_loop api_call rest (Some exc)) w'
        | returned => returned
        end
  end.

Definition retry {A} (api_call : M A) : M A :=
  retry_loop api_call (Cron.range 1 (MAX_RETRIES + 1)) None.

End Configuration.

(** ** Pricing resolution *)

Module Pricing.

Definition REGION_NAME_MAP : list (string * string) :=
  [("ap-northeast-1", "Asia Pacific (Tokyo)");
   ("ap-northeast-2", "Asia Pacific (Seoul)");
   ("ap-northeast-3", "Asia Pacific (Osaka)");
   ("ap-south-1", "Asia Pacific (Mumbai)");
   ("ap-south-2", "Asia Pacific (Hyderabad)");
   ("ap-southeast-1", "Asia Pacific (Singapore)");
   ("ap-southeast-2", "Asia Pacific (Sydney)");
   ("ap-southeast-3", "Asia Pacific (Jakarta)");
   ("ap-southeast-4", "Asia Pacific (Melbourne)");
   ("ca-central-1", "Canada (Central)");
   ("eu-central-1", "EU (Frankfurt)");
   ("eu-north-1", "EU (Stockholm)");
   ("eu-south-1", "EU (Milan)");
   ("eu-south-2", "EU (Spain)");
   ("eu-west-1", "EU (Ireland)");
   ("eu-west-2", "EU (London)");
   ("eu-west-3", "EU (Paris)");
   ("me-south-1", "Middle East (Bahrain)");
   ("sa-east-1", "South America (São Paulo)");
   ("us-east-1", "US East (N. Virginia)");
   ("us-east-2", "US East (Ohio)");
   ("us-west-1", "US West (N. California)");
   ("us-west-2", "US West (Oregon)")].

(** A pricing profile is a dictionary with the keys
    ["operatingSystem"], ["preInstalledSw"] and ["licenseModel"]. *)
Definition profile (os sw license : string) : gmap string string :=
  <["operatingSystem" := os]> (<["preInstalledSw" := sw]> (<["licenseModel" := license]> ∅)).

Definition PLATFORM_FILTER_RULES : list (string * gmap string string) :=
  [("windows with sql server enterprise",
    profile "Windows" "SQL Server Enterprise" "License Included");
   ("windows with sql server standard",
    profile "Windows" "SQL Server Standard" "License Included");
   ("windows with sql server web",
    profile "Windows" "SQL Server Web" "License Included");
   ("windows", profile "Windows" "NA" "License Included");
   ("bring your own license", profile "Windows" "NA" "Bring your own license");
   ("byol", profile "Windows" "NA" "Bring your own license");
   ("red hat enterprise linux", profile "RHEL" "NA" "No License required");
   ("rhel", profile "RHEL" "NA" "No License required");
   ("suse", profile "SUSE" "NA" "No License required");
   ("linux", profile "Linux" "NA" "No License required")].

(** The platform fields of an instance description. *)
Record instance : Type := mk_instance {
  PlatformDetails : option string;
  Platform : option string;
  UsageOperation : option string
}.

Definition build_pricing_cache_key (instance_type : string)
    (pricing_filters : gmap string string) : cache_key :=
  (instance_type,
   pricing_filters !! "operatingSystem",
   pricing_filters !! "preInstalledSw",
   pricing_filters !! "licenseModel").

(** The filters of [build_filters]: a profile field is used when it is
    present and not empty. *)
Definition attribute_filter (pricing_filters : gmap string string)
    (field : string) : list filter :=
  match pricing_filters !! field with
  | Some value => if PyStr.nonempty value then [mk_filter field value] else []
  | None => []
  end.

Definition build_filters (instance_type location : string)
    (pricing_filters : gmap string string) : list filter :=
  [mk_filter "instanceType" instance_type; mk_filter "location" location]
  ++ (attribute_filter pricing_filters "operatingSystem"
      ++ attribute_filter pricing_filters "preInstalledSw"
      ++ attribute_filter pricing_filters "licenseModel")
  ++ [mk_filter "tenancy" "Shared"; mk_filter "capacitystatus" "Used"].

Definition remove_filter (filters : list filter) (field_name : string) : list filter :=
  List.filter (fun filter_item => negb (String.eqb (Field filter_item) field_name)) filters.

Definition update_filter (filters : list filter) (field_name value : string)
    : list filter :=
  List.map (fun filter_item =>
              if String.eqb (Field filter_item) field_name
              then mk_filter (Field filter_item) value
              else filter_item) filters.

(** Order of the pairs [(Field, Value)] under [sorted]. *)
Definition pair_leb (a b : string * string) : bool :=
  match String.compare (fst a) (fst b) with
  | Lt => true
  | Gt => false
  | Eq => match String.compare (snd a) (snd b) with Gt => false | _ => true end
  end.

Fixpoint insert_sorted (x : string * string) (l : list (string * string))
    : list (string * string) :=
  match l with
  | [] => [x]
  | y :: l' => if pair_leb x y then x :: l else y :: insert_sorted x l'
  end.

Definition serialize_filters (filters : list filter) : list (string * string) :=
  List.fold_right insert_sorted []
    (List.map (fun item => (Field item, Value item)) filters).

Definition signature_eqb (a b : list (string * string)) : bool :=
  bool_decide (a = b).

(** The loop that keeps the first variant of each signature. *)
Fixpoint unique_from (seen_variants : list (list (string * string)))
    (filter_variants : list (list filter)) : list (list filter) :=
  match filter_variants with
  | [] => []
  | candidate :: rest =>
      let signature := serialize_filters candidate in
      if existsb (signature_eqb signature) seen_variants
      then unique_from seen_variants rest
      else candidate :: unique_from (signature :: seen_variants) rest
  end.

Definition truthy (value : option string) : bool :=
  match value with Some v => PyStr.nonempty v | None => false end.

Definition filter_variants (instance_type location : string)
    (pricing_filters : gmap string string) : list (list filter) :=
  let base_filters := build_filters instance_type location pricing_filters in
  let license_value := pricing_filters !! "licenseModel" in
  let preinstalled_value := pricing_filters !! "preInstalledSw" in
  [base_filters]
  ++ (if truthy license_value
      then (if bool_decide (license_value = Some "License Included")
            then [update_filter base_filters "licenseModel" "No License required"]
            else [])
           ++ [remove_filter base_filters "licenseModel"]
      else [])
  ++ (if truthy preinstalled_value
      then [remove_filter base_filters "preInstalledSw"]
      else [])
  ++ (if truthy license_value && truthy preinstalled_value
      then [remove_filter (remove_filter base_filters "licenseModel") "preInstalledSw"]
      else []).

Definition unique_variants (instance_type location : string)
    (pricing_filters : gmap string string) : list (list filter) :=
  unique_from [] (filter_variants instance_type location pricing_filters).

Section WithRuntime.
Context {py : Builtins} {env : Environment}.

Definition DEFAULT_PRICING_FILTERS : gmap string string :=
  profile (default "Linux" (environ "DEFAULT_PRICING_OPERATING_SYSTEM"))
          (default "NA" (environ "DEFAULT_PRICING_PREINSTALLED_SOFTWARE"))
          (default "No License required" (environ "DEFAULT_PRICING_LICENSE_MODEL")).

Definition get_region : string :=
  let region_name :=
    if Pricing.truthy session_region_name then session_region_name
    else if Pricing.truthy (environ "AWS_REGION") then environ "AWS_REGION"
    else environ "AWS_DEFAULT_REGION" in
  if Pricing.truthy region_name then default "" region_name else "unknown".

Definition get_location (region_name : string) : string :=
  match Dict.get region_name REGION_NAME_MAP with
  | Some location => if PyStr.nonempty location then location else "Unknown"
  | None => "Unknown"
  end.

Fixpoint match_rule (normalized : string) (rules : list (string * gmap string string))
    : option (gmap string string) :=
  match rules with
  | [] => None
  | (pattern, filters) :: rest =>
      if PyStr.contains pattern normalized then Some filters
      else match_rule normalized rest
  end.

Fixpoint profile_from (platform_candidates : list (option string))
    : gmap string string * string :=
  match platform_candidates with
  | [] => (DEFAULT_PRICING_FILTERS, "default")
  | platform_text :: rest =>
      let normalized := PyStr.lower (PyStr.strip (default "" platform_text)) in
      if negb (PyStr.nonempty normalized) then profile_from rest
      else match match_rule normalized PLATFORM_FILTER_RULES with
           | Some filters => (filters, "platform:" +:+ default "" platform_text)
           | None => profile_from rest
           end
  end.

Definition get_instance_pricing_profile (inst : instance)
    : gmap string string * string :=
  profile_from [PlatformDetails inst; Platform inst; UsageOperation inst].

(** The two nested loops of [try_filters] over the on-demand terms:
    the first price dimension met decides. *)
Fixpoint first_price (terms : list (list dimension)) : result (option pyfloat) :=
  match terms with
  | [] => Ok None
  | [] :: rest => first_price rest
  | (d :: _) :: _ =>
      match d with
      | None => Raise (KeyError "pricePerUnit")
      | Some usd =>
          match python_float (default "0" usd) with
          | Some price => Ok (Some price)
          | None => Raise (ValueError "could not convert string to float")
          end
      end
  end.

Definition try_filters (filters_to_use : list filter) : M (option pyfloat) :=
  let* answer := invoke (GetProducts filters_to_use) in
  match answer with
  | PriceList (price_item :: _) =>
      match price_item with
      | BadJson => raise (ValueError "Expecting value")
      | PriceItem None => raise (KeyError "terms")
      | PriceItem (Some on_demand_terms) => lift (first_price on_demand_terms)
      end
  | _ => ret None
  end.

Definition cache_price (key : cache_key) (price : pyfloat) : M unit :=
  fun w => (Ok tt, mk_world (trace w) (<[key := price]> (PRICE_CACHE w))
                     (SAVINGS_PLAN_FACTOR w) (SAVINGS_PLAN_FACTOR_SOURCE w)).

Definition PricingNotFound : exn := ValueError "No pricing information found".

(** The loop [for filters_to_use in unique_variants]. *)
Fixpoint try_variants (key : cache_key) (variants : list (list filter)) : M pyfloat :=
  match variants with
  | [] => raise PricingNotFound
  | filters_to_use :: rest =>
      let* price := try_filters filters_to_use in
      match price with
      | Some p => cache_price key p ;;; ret p
      | None => try_variants key rest
      end
  end.

Definition get_hourly_rate (instance_type : string)
    (pricing_filters : gmap string string) : M pyfloat :=
  let key := build_pricing_cache_key instance_type pricing_filters in
  fun w =>
    match PRICE_CACHE w !! key with
    | Some cached_price => (Ok cached_price, w)
    | None =>
        let region_name := get_region in
        let location := get_location region_name in
        if String.eqb region_name "unknown" || String.eqb location "Unknown"
        then (Ok (Finite 0), w)
        else try_variants key (unique_variants instance_type location pricing_filters) w
    end.

End WithRuntime.

End Pricing.

(** ** Savings-plan discount estimator *)

Module SavingsPlan.

(** [max(a, b)] and [min(a, b)] as Python computes them: the first
    argument wins unless the second is strictly better. *)
Definition qmax (a b : Q) : Q := if Qlt_le_dec a b then b else a.
Definition qmin (a b : Q) : Q := if Qlt_le_dec b a then b else a.

Section WithRuntime.
Context {py : Builtins} {env : Environment}.

Definition parse_float (value : option string) (default : pyfloat) : pyfloat :=
  match value with
  | Some s => match python_float s with Some x => x | None => default end
  | None => default
  end.

Definition get_manual_discount_factor : result pyfloat :=
  let raw_value := default "0" (environ "SAVINGS_PLAN_DISCOUNT_PERCENT") in
  match python_float raw_value with
  | None =>
      Raise (ValueError "SAVINGS_PLAN_DISCOUNT_PERCENT must be a number between 0 and 100")
  | Some discount_percent =>
      if Float.ltb discount_percent (Finite 0) || Float.ltb (Finite 100) discount_percent
      then Raise (ValueError "SAVINGS_PLAN_DISCOUNT_PERCENT must be between 0 and 100")
      else
        do fraction <- Float.div discount_percent (Finite 100);
        Ok (Float.sub (Finite 1) fraction)
  end.

Definition add_coverage (totals : pyfloat * pyfloat)
    (row : option string * option string) : pyfloat * pyfloat :=
  (Float.add (fst totals) (parse_float (fst row) (Finite 0)),
   Float.add (snd totals) (parse_float (snd row) (Finite 0))).

(** The [while True] loop over the pages of coverage data. *)
Fixpoint coverage_pages (fuel : nat) (start_date end_date : Z)
    (next_token : option string) (totals : pyfloat * pyfloat)
    : M (pyfloat * pyfloat) :=
  match fuel with
  | O => lift OutOfFuel
  | S fuel' =>
      let token := if Pricing.truthy next_token then next_token else None in
      let* answer := invoke (GetSavingsPlansCoverage start_date end_date token) in
      let '(rows, next_token') :=
        match answer with
        | Coverages rows next_token' => (rows, next_token')
        | _ => ([], None)
        end in
      let totals' := List.fold_left add_coverage rows totals in
      if Pricing.truthy next_token'
      then coverage_pages fuel' start_date end_date next_token' totals'
      else ret totals'
  end.

Definition get_coverage_discount_factor (fuel : nat) : M pyfloat :=
  let raw_lookback := default "30" (environ "SAVINGS_PLAN_COVERAGE_LOOKBACK_DAYS") in
  match PyStr.int raw_lookback with
  | None =>
      raise (ValueError "SAVINGS_PLAN_COVERAGE_LOOKBACK_DAYS must be an integer between 1 and 90")
  | Some lookback_days =>
      if (lookback_days <? 1) || (90 <? lookback_days) then
        raise (ValueError "SAVINGS_PLAN_COVERAGE_LOOKBACK_DAYS must be between 1 and 90")
      else
        let* end_date := date_today in
        let* start_date := lift (date_add_days end_date (- lookback_days)) in
        let* totals :=
          coverage_pages fuel start_date end_date None (Finite 0, Finite 0) in
        let '(total_savings, total_cost) := totals in
        let denominator := Float.add total_cost total_savings in
        if Float.leb denominator (Finite 0) then
          raise (ValueError "Savings Plan coverage data is empty for the selected window")
        else
          let* ratio := lift (Float.div total_savings denominator) in
          let discount_percent :=
            Float.mul (Float.max (Float.min ratio (Finite 0.9999)) (Finite 0))
                      (Finite 100) in
          let* fraction := lift (Float.div discount_percent (Finite 100)) in
          ret (Float.sub (Finite 1) fraction)
  end.

Definition set_factor (factor : pyfloat) (source : string) : M unit :=
  fun w => (Ok tt, mk_world (trace w) (PRICE_CACHE w) (Some factor) (Some source)).

Definition get_savings_plan_factor (fuel : nat) : M pyfloat :=
  fun w =>
    match SAVINGS_PLAN_FACTOR w with
    | Some factor => (Ok factor, w)
    | None =>
        let mode :=
          PyStr.lower (PyStr.strip (default "Manual" (environ "SAVINGS_PLAN_DISCOUNT_MODE"))) in
        let manual :=
          let* factor := lift get_manual_discount_factor in
          set_factor factor "manual" ;;; ret factor in
        if String.eqb mode "coverage" then
          try_except
            (let* factor := get_coverage_discount_factor fuel in
             set_factor factor "coverage" ;;; ret factor)
            (fun coverage_error => manual) w
        else manual w
    end.

End WithRuntime.

End SavingsPlan.

(** ** Instance lifecycle controller *)

Module Lifecycle.

Definition LAST_SCALE_DOWN_TIMESTAMP_TAG : string := "DynamicScalingLastScaleDownTimestamp".
Definition LAST_SCALE_DOWN_HOURLY_TAG : string := "DynamicScalingLastScaleDownHourlySavings".
Definition LAST_SCALE_UP_TIMESTAMP_TAG : string := "DynamicScalingLastScaleUpTimestamp".

Definition US_PER_DAY : Z := 86400000000.

(** Microseconds since the start of ordinal 0. *)
Definition total_us (d : datetime) : Z :=
  (((ordinal d * 24 + hour d) * 60 + minute d) * 60 + second d) * 1000000
  + microsecond d.

Definition of_total_us (n : Z) : result datetime :=
  let o := n / US_PER_DAY in
  let r := n mod US_PER_DAY in
  if (MINORDINAL <=? o) && (o <=? MAXORDINAL)
  then Ok (mk_datetime o (r / 3600000000) ((r / 60000000) mod 60)
                       ((r / 1000000) mod 60) (r mod 1000000))
  else Raise (OverflowError "date value out of range").

(** [dt.astimezone(datetime.timezone.utc).replace(tzinfo=None)] for a
    datetime whose UTC offset is [offset] microseconds. *)
Definition to_utc_naive (dt : datetime) (offset : Z) : result datetime :=
  of_total_us (total_us dt - offset).

(** [(a - b).total_seconds()]. *)
Definition seconds_between (a b : datetime) : Q :=
  (inject_Z (total_us a - total_us b) / 1000000)%Q.

(** [round(x)] to the nearest integer, ties to even, and [round(x, 4)]. *)
Definition round_half_even (q : Q) : Z :=
  let f := Qfloor q in
  match Qcompare (q - inject_Z f) (1 # 2) with
  | Lt => f
  | Gt => f + 1
  | Eq => if Z.even f then f else f + 1
  end.

Definition round4 (q : Q) : Q := (inject_Z (round_half_even (q * 10000)) / 10000)%Q.

(** [round(x, 4)] on any float: nan and the infinities are kept. *)
Definition float_round4 (x : pyfloat) : pyfloat :=
  match x with
  | Finite q => Finite (round4 q)
  | other => other
  end.

Record savings_record : Type := mk_savings_record {
  sr_instance_id : string;
  sr_previous_type : string;
  sr_downsized_type : string;
  sr_pricing_operating_system : string;
  sr_pricing_preinstalled_software : string;
  sr_pricing_license_model : string;
  sr_pricing_profile_source : string;
  sr_hourly_savings : pyfloat;
  sr_scale_down_timestamp : string
}.

Record actual_record : Type := mk_actual_record {
  ar_instance_id : string;
  ar_off_hours_type : string;
  ar_restored_type : string;
  ar_scale_down_timestamp : string;
  ar_scale_up_timestamp : string;
  ar_downtime_hours : Q;
  ar_hourly_savings : pyfloat;
  ar_actual_savings : pyfloat;
  ar_actual_savings_source : string
}.



(** One element of [instances_to_process]. *)
Record instance_data : Type := mk_instance_data {
  id_instance : Pricing.instance;
  id_instance_id : string;
  id_current_type : string;
  id_state : string;
  id_tags : list (string * string)
}.

Section WithRuntime.
Context {py : Builtins} {env : Environment}.

Definition format_utc (dt : datetime) : string :=
  isoformat (replace_micro dt) +:+ "Z".

Definition parse_timestamp (value : option string) : result (option datetime) :=
  match value with
  | None => Ok None
  | Some value =>
      if negb (PyStr.nonempty value) then Ok None
      else
        let cleaned := PyStr.strip value in
        if negb (PyStr.nonempty cleaned) then Ok None
        else
          let cleaned :=
            if PyStr.endswith "Z" cleaned
            then PyStr.drop_end 1 cleaned +:+ "+00:00"
            else cleaned in
          match fromisoformat cleaned with
          | None => Ok None
          | Some (parsed, None) => Ok (Some parsed)
          | Some (parsed, Some offset) =>
              do utc <- to_utc_naive parsed offset;
              Ok (Some utc)
          end
  end.

Definition build_actual_savings_snapshot (instance_id : string)
    (tags : list (string * string)) (desired_type current_type : string)
    : M (option (actual_record * datetime)) :=
  let last_down_value := Dict.get LAST_SCALE_DOWN_TIMESTAMP_TAG tags in
  let hourly_value := Dict.get LAST_SCALE_DOWN_HOURLY_TAG tags in
  if negb (Pricing.truthy last_down_value) || negb (Pricing.truthy hourly_value)
  then ret None
  else
    let* scale_down_time := lift (parse_timestamp last_down_value) in
    match scale_down_time with
    | None => ret None
    | Some scale_down_time =>
        let last_scale_up_value := Dict.get LAST_SCALE_UP_TIMESTAMP_TAG tags in
        let* last_scale_up_time := lift (parse_timestamp last_scale_up_value) in
        if match last_scale_up_time with
           | Some last_scale_up_time => dt_leb scale_down_time last_scale_up_time
           | None => false
           end
        then ret None
        else
          match python_float (default "" hourly_value) with
          | None => ret None
          | Some hourly_savings =>
              let* current := now in
              let scale_up_time := replace_micro current in
              let downtime_hours :=
                SavingsPlan.qmax
                  (seconds_between scale_up_time scale_down_time / 3600)%Q 0 in
              let actual_savings_value :=
                float_round4 (Float.mul hourly_savings (Finite downtime_hours)) in
              ret (Some
                     (mk_actual_record instance_id current_type desired_type
                        (format_utc scale_down_time) (format_utc scale_up_time)
                        (round4 downtime_hours) (float_round4 hourly_savings)
                        actual_savings_value
                        ("tag:" +:+ LAST_SCALE_DOWN_HOURLY_TAG),
                      scale_up_time))
          end
    end.


(** The poll loop of [wait_for_instance_type]; each turn of the
    [while] costs one unit of fuel. *)
Fixpoint poll_instance_type (fuel : nat) (instance_id desired_type : string)
    (deadline poll_interval : Q) : M unit :=
  match fuel with
  | O => lift OutOfFuel
  | S fuel' =>
      let* t := clock in
      if Qlt_le_dec t deadline then
        let* answer := retry (invoke (DescribeInstances instance_id)) in
        let reservations :=
          match answer with Reservations rs => rs | _ => [] end in
        if existsb (existsb (fun current_type =>
                               bool_decide (current_type = Some desired_type)))
                   reservations
        then ret tt
        else
          let* t' := clock in
          let remaining := (deadline - t')%Q in
          if Qlt_le_dec 0 remaining then
            sleep (SavingsPlan.qmin poll_interval (SavingsPlan.qmax remaining 1)) ;;;
            poll_instance_type fuel' instance_id desired_type deadline poll_interval
          else raise (TimeoutError "Instance did not report the instance type in time")
      else raise (TimeoutError "Instance did not report the instance type in time")
  end.

Definition wait_for_instance_type (fuel : nat) (instance_id desired_type : string)
    : M unit :=
  let timeout_seconds := 300%Q in
  let poll_interval := 5%Q in
  let* t := clock in
  poll_instance_type fuel instance_id desired_type (t + timeout_seconds)%Q poll_interval.

Definition create_tags (instance_id : string) (tags : list (string * string))
    : M response :=
  retry (invoke (CreateTags instance_id tags)).

(** The guarded block of the scale-down path.  [savings_record] is
    assigned before the tags are written, so a failure of that write is
    swallowed by the [except] clause with the record already kept. *)
Definition savings_block (fuel : nat) (inst : Pricing.instance)
    (instance_id current_type desired_type run_start_timestamp : string)
    : M (option savings_record) :=
  try_except
    (let '(pricing_filters, pricing_source) :=
       Pricing.get_instance_pricing_profile inst in
     let* original_rate := Pricing.get_hourly_rate current_type pricing_filters in
     let* downsized_rate := Pricing.get_hourly_rate desired_type pricing_filters in
     let* factor := SavingsPlan.get_savings_plan_factor fuel in
     let hourly_savings :=
       Float.mul (Float.max (Float.sub original_rate downsized_rate) (Finite 0)) factor in
     match pricing_filters !! "operatingSystem",
           pricing_filters !! "preInstalledSw",
           pricing_filters !! "licenseModel" with
     | Some os, Some sw, Some license =>
         let record :=
           mk_savings_record instance_id current_type desired_type os sw license
             pricing_source (float_round4 hourly_savings) run_start_timestamp in
         try_except
           (create_tags instance_id
              [(LAST_SCALE_DOWN_TIMESTAMP_TAG, run_start_timestamp);
               (LAST_SCALE_DOWN_HOURLY_TAG, format_4f hourly_savings)] ;;;
            ret (Some record))
           (fun pricing_error => ret (Some record))
     | _, _, _ => raise (KeyError "pricing profile field")
     end)
    (fun pricing_error => ret None).

(** The shared stop / modify / start sequence. *)
Definition resize (fuel : nat) (instance_id state desired_type_value : string)
    : M unit :=
  (if negb (String.eqb state "stopped") then
     retry (invoke (StopInstances instance_id)) ;;;
     retry (invoke (WaitInstanceStopped instance_id)) ;;;
     ret tt
   else ret tt) ;;;
  retry (invoke (ModifyInstanceAttribute instance_id desired_type_value)) ;;;
  wait_for_instance_type fuel instance_id desired_type_value ;;;
  retry (invoke (StartInstances instance_id)) ;;;
  retry (invoke (WaitInstanceRunning instance_id)) ;;;
  ret tt.

Definition preferred_of (tags : list (string * string)) : string :=
  PyStr.strip (default "" (Dict.get "PreferredInstanceType" tags)).

Definition process_instance (fuel : nat) (data : instance_data) (action : string)
    (run_start_timestamp : string) (downsize_type : option string)
    : M (bool * option savings_record * option actual_record) :=
  let inst := id_instance data in
  let instance_id := id_instance_id data in
  let current_type := id_current_type data in
  let state := id_state data in
  let tags := id_tags data in
  if String.eqb action "scaledown" then
    let desired_type :=
      if Pricing.truthy downsize_type then default "" downsize_type
      else get_downsize_type in
    if String.eqb current_type desired_type then ret (false, None, None)
    else
      let preferred_type := preferred_of tags in
      (if PyStr.nonempty preferred_type then ret tt
       else create_tags instance_id [("PreferredInstanceType", current_type)] ;;;
            ret tt) ;;;
      let* savings := savings_block fuel inst instance_id current_type desired_type
                        run_start_timestamp in
      resize fuel instance_id state desired_type ;;;
      ret (true, savings, None)
  else
    let desired_type_value := preferred_of tags in
    if negb (PyStr.nonempty desired_type_value) then ret (false, None, None)
    else if String.eqb current_type desired_type_value then ret (false, None, None)
    else
      resize fuel instance_id state desired_type_value ;;;
      if String.eqb action "scaleup" then
        let* actual_result :=
          build_actual_savings_snapshot instance_id tags desired_type_value
            current_type in
        match actual_result with
        | Some (record, actual_snapshot_time) =>
            create_tags instance_id
              [(LAST_SCALE_UP_TIMESTAMP_TAG, format_utc actual_snapshot_time)] ;;;
            ret (true, None, Some record)
        | None => ret (true, None, None)
        end
      else ret (true, None, None).

End WithRuntime.

End Lifecycle.

(** ** Schedule matching and the handler *)

Module Handler.

Import Lifecycle.

Definition DEFAULT_SCHEDULE_NAME : string := "default".
Definition SCHEDULE_ALL_TOKEN : string := "all".
Definition VALID_ACTIONS : list string := ["scaleup"; "scaledown"].

(** One instance of a [describe_instances] page. *)
Record described_instance : Type := mk_described {
  di_platform : Pricing.instance;
  di_InstanceId : string;
  di_InstanceType : string;
  di_State : option string;
  di_Tags : list (string * string)
}.

(** The value returned by the handler. *)
Record summary : Type := mk_summary {
  processed_instances : Z;
  action_done : string;
  schedule : string;
  skipped_instances : Z;
  error : option string
}.

(** What the handler does, in order: the clock read that starts the
    run, the enumeration of the fleet, the tasks handed to the pool,
    the results read back and the run summary recorded. *)
Inductive step : Type :=
| RunStarted
| Enumerated
| Submitted (instance_id : string)
| Collected (instance_id : string)
| SavingsRecorded (records : list savings_record)
| ActualSavingsRecorded (records : list actual_record).

(** How a call of a collaborator ends. *)
Inductive completed (A : Type) : Type :=
| Returned (a : A)
| Failed (e : exn).

Arguments Returned {A} a.
Arguments Failed {A} e.

(** The collaborators of the handler.  [paginate] is the outcome of
    reading every page of [describe_instances]; [future_result] is what
    [future.result()] gives for the task of an instance, the task
    being [process_instance] run on a worker thread; [as_completed]
    is the order in which the tasks of a batch finish;
    [record_savings] and [record_actual_savings] are the outcomes of
    the two reporting functions. *)
Class Executor : Type := {
  paginate : completed (list (list described_instance));
  future_result :
    instance_data -> string -> string -> option string ->
    completed (bool * option savings_record * option actual_record);
  as_completed : list instance_data -> list instance_data;
  record_savings : list savings_record -> completed unit;
  record_actual_savings : list actual_record -> completed unit
}.

Definition normalize_schedule_name (value : option string) : string :=
  match value with
  | None => DEFAULT_SCHEDULE_NAME
  | Some value =>
      let normalized := PyStr.lower (PyStr.strip value) in
      if negb (PyStr.nonempty normalized) then DEFAULT_SCHEDULE_NAME else normalized
  end.

Definition parse_schedule_tag_value (raw_value : string) : list string :=
  if negb (PyStr.nonempty raw_value) then []
  else
    List.filter PyStr.nonempty
      (List.map (fun token => PyStr.lower (PyStr.strip token))
                (PyStr.split_on "," raw_value)).

Fixpoint first_ci (key : string) (tags : list (string * string)) : option string :=
  match tags with
  | [] => None
  | (tag_key, value) :: rest =>
      if String.eqb (PyStr.lower tag_key) (PyStr.lower key) then Some value
      else first_ci key rest
  end.

Definition get_tag_value (tags : list (string * string)) (key : string)
    : option string :=
  match Dict.get key tags with
  | Some value => Some value
  | None => first_ci key tags
  end.

Definition mem (x : string) (l : list string) : bool := existsb (String.eqb x) l.

(** [chunks(iterable, size)]: batches of [size] elements until an
    empty batch comes. *)
Fixpoint chunks_aux {A} (fuel : nat) (l : list A) (size : nat) : list (list A) :=
  match fuel with
  | O => []
  | S fuel' =>
      match take size l with
      | [] => []
      | batch => batch :: chunks_aux fuel' (drop size l) size
      end
  end.

Definition chunks {A} (l : list A) (size : nat) : list (list A) :=
  chunks_aux (length l) l size.

Record counters : Type := mk_counters {
  processed_count : Z;
  savings_records : list savings_record;
  actual_savings_records : list actual_record
}.

Definition count_result (c : counters)
    (r : bool * option savings_record * option actual_record) : counters :=
  let '(processed, savings, actual) := r in
  mk_counters
    (if processed then processed_count c + 1 else processed_count c)
    (match savings with
     | Some s => savings_records c ++ [s]
     | None => savings_records c
     end)
    (match actual with
     | Some a => actual_savings_records c ++ [a]
     | None => actual_savings_records c
     end).

Section WithRuntime.
Context {py : Builtins} {env : Environment} {pool : Executor}.

Definition get_schedule_tag_key : string :=
  let raw_key := default "DynamicScalingSchedule" (environ "SCHEDULE_TAG_KEY") in
  str_or (PyStr.strip raw_key) "DynamicScalingSchedule".

Definition instance_matches_schedule (tags : list (string * string))
    (schedule_name : string) : bool :=
  if String.eqb schedule_name SCHEDULE_ALL_TOKEN then true
  else
    let raw_value := get_tag_value tags get_schedule_tag_key in
    if negb (Pricing.truthy raw_value)
    then String.eqb schedule_name DEFAULT_SCHEDULE_NAME
    else
      let values := parse_schedule_tag_value (default "" raw_value) in
      match values with
      | [] => String.eqb schedule_name DEFAULT_SCHEDULE_NAME
      | _ => if mem SCHEDULE_ALL_TOKEN values then true else mem schedule_name values
      end.

(** The loop that builds [instances_to_process]: duplicates of an
    instance id are dropped, instances of another schedule counted. *)
Fixpoint select_instances (schedule_name : string)
    (instances : list described_instance) (seen_instance_ids : list string)
    (selected : list instance_data) (skipped_due_to_schedule : Z)
    : list instance_data * Z :=
  match instances with
  | [] => (selected, skipped_due_to_schedule)
  | inst :: rest =>
      let instance_id := di_InstanceId inst in
      let tags := Dict.of_list (di_Tags inst) in
      if mem instance_id seen_instance_ids
      then select_instances schedule_name rest seen_instance_ids selected
             skipped_due_to_schedule
      else if negb (instance_matches_schedule tags schedule_name)
      then select_instances schedule_name rest (instance_id :: seen_instance_ids)
             selected (skipped_due_to_schedule + 1)
      else select_instances schedule_name rest (instance_id :: seen_instance_ids)
             (selected ++
              [mk_instance_data (di_platform inst) instance_id (di_InstanceType inst)
                 (default "unknown" (di_State inst)) tags])
             skipped_due_to_schedule
  end.

(** The loop [for future in as_completed(future_to_instance)]. *)
Fixpoint collect (action run_start_timestamp : string) (downsize_type : option string)
    (futures : list instance_data) (c : counters) (steps : list step)
    : completed counters * list step :=
  match futures with
  | [] => (Returned c, steps)
  | data :: rest =>
      let steps' := (steps ++ [Collected (id_instance_id data)])%list in
      match future_result data action run_start_timestamp downsize_type with
      | Returned r =>
          collect action run_start_timestamp downsize_type rest (count_result c r) steps'
      | Failed exc =>
          if FAIL_FAST then (Failed exc, steps')
          else collect action run_start_timestamp downsize_type rest c steps'
      end
  end.

(** The loop [for batch in chunks(instances_to_process, batch_size)]:
    every task of the batch is submitted before a result is read. *)
Fixpoint run_batches (action run_start_timestamp : string)
    (downsize_type : option string) (batches : list (list instance_data))
    (c : counters) (steps : list step) : completed counters * list step :=
  match batches with
  | [] => (Returned c, steps)
  | batch :: rest =>
      let submitted :=
        (steps ++ List.map (fun d => Submitted (id_instance_id d)) batch)%list in
      match collect action run_start_timestamp downsize_type (as_completed batch)
              c submitted with
      | (Returned c', steps') =>
          run_batches action run_start_timestamp downsize_type rest c' steps'
      | stopped => stopped
      end
  end.

Definition batch_size : nat := Z.to_nat (if 0 <? BATCH_SIZE then BATCH_SIZE else 1).

(** The handler from the batch loop to its [return]. *)
Definition orchestrate (action schedule_name run_start_timestamp : string)
    (instances_to_process : list instance_data) (skipped_due_to_schedule : Z)
    (steps : list step) : completed summary * list step :=
  let downsize_type :=
    if String.eqb action "scaledown" then Some get_downsize_type else None in
  match run_batches action run_start_timestamp downsize_type
          (chunks instances_to_process batch_size) (mk_counters 0 [] []) steps with
  | (Returned c, steps') =>
      let recorded :=
        if String.eqb action "scaledown"
        then (record_savings (savings_records c),
              (steps' ++ [SavingsRecorded (savings_records c)])%list)
        else (record_actual_savings (actual_savings_records c),
              (steps' ++ [ActualSavingsRecorded (actual_savings_records c)])%list) in
      match recorded with
      | (Returned _, steps'') =>
          (Returned (mk_summary (processed_count c) action schedule_name
                       skipped_due_to_schedule None), steps'')
      | (Failed e, steps'') => (Failed e, steps'')
      end
  | (Failed e, steps') => (Failed e, steps')
  end.

Definition InvalidAction : exn := ValueError "Invalid or missing 'action'".

Definition ManualExecutionBlocked : exn :=
  Exception "Manual execution is blocked. Use EventBridge scheduled rules.".

Definition lambda_handler (event : list (string * string))
    : completed summary * list step :=
  let action := Dict.get "action" event in
  let source := default "manual" (Dict.get "source" event) in
  let schedule_name := normalize_schedule_name (Dict.get "schedule" event) in
  match action with
  | None => (Failed InvalidAction, [])
  | Some action =>
      if negb (mem action VALID_ACTIONS) then (Failed InvalidAction, [])
      else if String.eqb source "manual" then (Failed ManualExecutionBlocked, [])
      else
        let run_start_timestamp := format_utc (replace_micro (utcnow [])) in
        let steps := [RunStarted; Enumerated] in
        match paginate with
        | Failed (ClientError _) =>
            (Returned (mk_summary 0 action schedule_name 0
                         (Some "describe_instances_failed")), steps)
        | Failed other => (Failed other, steps)
        | Returned [] => (Returned (mk_summary 0 action schedule_name 0 None), steps)
        | Returned reservations =>
            let '(instances_to_process, skipped_due_to_schedule) :=
              select_instances schedule_name (List.concat reservations) [] [] 0 in
            match instances_to_process with
            | [] =>
                (Returned (mk_summary 0 action schedule_name skipped_due_to_schedule None),
                 steps)
            | _ =>
                orchestrate action schedule_name run_start_timestamp
                  instances_to_process skipped_due_to_schedule steps
            end
        end
  end.

End WithRuntime.

End Handler.

(** ** Sample runtimes

    Concrete built-ins, environments and executors on which the
    definitions above can be run. *)

Module Samples.

Import Lifecycle Handler.

(** [float(s)] on plain decimal literals: sign, digits, fraction. *)
Definition decimal_float (s : string) : option Q :=
  let s := PyStr.strip s in
  let '(negative, body) :=
    match s with
    | String "-" t => (true, t)
    | String "+" t => (false, t)
    | t => (false, t)
    end in
  let magnitude :=
    match PyStr.split_once "." body with
    | [whole] => option_map inject_Z (PyStr.int_digits 0 false whole)
    | [whole; frac] =>
        match PyStr.int_digits 0 false whole, PyStr.int_digits 0 false frac with
        | Some a, Some b =>
            Some (Qred (inject_Z a + inject_Z b / inject_Z (10 ^ Z.of_nat (String.length frac))))
        | _, _ => None
        end
    | _ => None
    end in
  option_map (fun q => if negative then Qopp q else q) magnitude.

(** [float(s)] with the spellings of nan and of the infinities. *)
Definition special_float (s : string) : option pyfloat :=
  let text := PyStr.lower (PyStr.strip s) in
  if Handler.mem text ["nan"; "+nan"; "-nan"] then Some NaN
  else if Handler.mem text ["inf"; "+inf"; "infinity"; "+infinity"]
  then Some (Infinity false)
  else if Handler.mem text ["-inf"; "-infinity"] then Some (Infinity true)
  else None.

Definition decimal_or_special_float (s : string) : option pyfloat :=
  match special_float s with
  | Some x => Some x
  | None => option_map Finite (decimal_float s)
  end.

(** A few timestamps with their fields: 2024-01-01 is ordinal 738886. *)
Definition known_timestamps : list (string * (datetime * option Z)) :=
  [("2024-01-01T18:00:00+00:00", (mk_datetime 738886 18 0 0 0, Some 0));
   ("2024-01-02T06:00:00+00:00", (mk_datetime 738887 6 0 0 0, Some 0));
   ("2024-01-02T06:00:00", (mk_datetime 738887 6 0 0 0, None))].

Definition builtins : Builtins := {|
  python_float := decimal_or_special_float;
  fromisoformat := fun s => Dict.get s known_timestamps;
  isoformat := fun d =>
    if (ordinal d =? 738886) && (hour d =? 18) then "2024-01-01T18:00:00"
    else if (ordinal d =? 738887) && (hour d =? 6) then "2024-01-02T06:00:00"
    else "2024-01-03T00:00:00";
  format_4f := fun x =>
    match x with
    | Finite _ => "0.0000"
    | NaN => "nan"
    | Infinity negative => if negative then "-inf" else "inf"
    end
|}.

(** An environment with the given variables, in region us-east-1,
    whose provider answers each call by [answers] and whose clock
    advances by one second per event. *)
Definition environment (vars : list (string * string)) (answers : call -> response)
    : Environment := {|
  environ := fun k => Dict.get k vars;
  session_region_name := Some "us-east-1";
  respond := fun _ c => answers c;
  time_time := fun history => inject_Z (Z.of_nat (length history));
  utcnow := fun _ => mk_datetime 738887 6 0 0 500;
  today := fun _ => 738887
|}.

Definition always_throttled (c : call) : response :=
  Fails (ClientError "RequestLimitExceeded").

Definition has_filter (field value : string) (filters : list filter) : bool :=
  existsb (fun f => String.eqb (Field f) field && String.eqb (Value f) value) filters.

(** A provider on which every call succeeds: instances report the type
    [reported_type], and the catalog has one price, for products that
    need no license. *)
Definition cooperative (reported_type : string) (c : call) : response :=
  match c with
  | DescribeInstances _ => Reservations [[Some reported_type]]
  | GetProducts filters =>
      if has_filter "licenseModel" "No License required" filters
      then PriceList [PriceItem (Some [[Some (Some "0.192")]])]
      else PriceList []
  | _ => Done
  end.

Definition quiet_environment : Environment := environment [] (cooperative "t3.medium").

Definition data (instance_type : string) (tags : list (string * string))
    : instance_data :=
  mk_instance_data (Pricing.mk_instance (Some "Windows") None None)
    "i-0abc" instance_type "running" tags.

(** An executor whose tasks fail for the instance ids in [failing] and
    are processed otherwise; the tasks of a batch finish in reverse
    order of submission. *)
Definition executor (failing : list string) : Executor := {|
  paginate := Returned [];
  future_result := fun d _ _ _ =>
    if mem (id_instance_id d) failing then Failed (RuntimeError "task failed")
    else Returned (true, None, None);
  as_completed := @List.rev instance_data;
  record_savings := fun _ => Returned tt;
  record_actual_savings := fun _ => Returned tt
|}.

Definition fleet (ids : list string) : list instance_data :=
  List.map (fun i => mk_instance_data (Pricing.mk_instance None None None) i
                       "m5.large" "running" []) ids.

End Samples.

(** ** What a run leaves behind *)

Module Observed.


(** The world [w] after [events] more have happened. *)
Definition after (w : world) (events : list event) : world :=
  mk_world (trace w ++ events) (PRICE_CACHE w)
    (SAVINGS_PLAN_FACTOR w) (SAVINGS_PLAN_FACTOR_SOURCE w).

(** The number of provider calls among [events]. *)
Definition is_invocation (ev : event) : bool :=
  match ev with Called _ => true | _ => false end.

Definition invocations (events : list event) : Z :=
  Z.of_nat (length (List.filter is_invocation events)).

Section WithRuntime.
Context {py : Builtins} {env : Environment}.

(** The events of one failed attempt of [retry] on the call [c], the
    backoff being the number [backoff]. *)
Definition failed_attempt (backoff : Q) (c : call) (attempt : Z) : list event :=
  [Called c; Slept (backoff * inject_Z attempt)].

(** The tags from which [build_actual_savings_snapshot] makes no
    record: the scale-down timestamp or the hourly savings is missing
    or empty, the timestamp or the hourly savings cannot be parsed, or
    the last scale-up recorded is not before the scale-down. *)
Definition scale_down_metadata_unusable (tags : list (string * string)) : Prop :=
  Pricing.truthy (Dict.get Lifecycle.LAST_SCALE_DOWN_TIMESTAMP_TAG tags) = false
  \/ Pricing.truthy (Dict.get Lifecycle.LAST_SCALE_DOWN_HOURLY_TAG tags) = false
  \/ Lifecycle.parse_timestamp (Dict.get Lifecycle.LAST_SCALE_DOWN_TIMESTAMP_TAG tags)
     = Ok None
  \/ python_float (default "" (Dict.get Lifecycle.LAST_SCALE_DOWN_HOURLY_TAG tags))
     = None
  \/ exists scale_down_time last_scale_up_time,
       Lifecycle.parse_timestamp (Dict.get Lifecycle.LAST_SCALE_DOWN_TIMESTAMP_TAG tags)
       = Ok (Some scale_down_time)
       /\ Lifecycle.parse_timestamp (Dict.get Lifecycle.LAST_SCALE_UP_TIMESTAMP_TAG tags)
          = Ok (Some last_scale_up_time)
       /\ dt_leb scale_down_time last_scale_up_time = true.

(** The [desired_type] of the scale-down path. *)
Definition desired_downsize_type (downsize_type : option string) : string :=
  if Pricing.truthy downsize_type then default "" downsize_type
  else get_downsize_type.

End WithRuntime.

(** The events that running [m] from [w] adds to the trace. *)
Definition events_of {A} (m : M A) (w : world) : list event :=
  drop (length (trace w)) (trace (snd (m w))).

(** [m] only adds events, and every event it adds satisfies [P]. *)
Definition only {A} (P : event -> Prop) (m : M A) : Prop :=
  forall w, exists extra,
    trace (snd (m w)) = trace w ++ extra /\ Forall P extra.

(** The event is a [create_tags] call that writes the tag [key]. *)
Definition writes_tag (key : string) (ev : event) : bool :=
  match ev with
  | Called (CreateTags _ tags) => existsb (fun kv => String.eqb (fst kv) key) tags
  | _ => false
  end.

Definition quiet (key : string) (ev : event) : Prop := writes_tag key ev = false.

(** What the task of the instance [instance_id], found in the state
    [state], may do: sleep, read the clock, query the price catalog
    and Cost Explorer, and call EC2 on its own instance, stopping it
    only when it is not stopped already. *)
Definition permitted (instance_id state : string) (ev : event) : bool :=
  match ev with
  | Slept _ | ReadClock => true
  | Called (GetProducts _) | Called (GetSavingsPlansCoverage _ _ _) => true
  | Called (StopInstances target) | Called (WaitInstanceStopped target) =>
      String.eqb target instance_id && negb (String.eqb state "stopped")
  | Called (CreateTags target _)
  | Called (ModifyInstanceAttribute target _)
  | Called (DescribeInstances target)
  | Called (StartInstances target)
  | Called (WaitInstanceRunning target) => String.eqb target instance_id
  end.

(** Steps of the handler, by kind. *)
Definition is_submission (s : Handler.step) : bool :=
  match s with Handler.Submitted _ => true | _ => false end.

Definition is_collection (s : Handler.step) : bool :=
  match s with Handler.Collected _ => true | _ => false end.

Definition is_summary (s : Handler.step) : bool :=
  match s with
  | Handler.SavingsRecorded _ | Handler.ActualSavingsRecorded _ => true
  | _ => false
  end.

(** The instance ids submitted to the pool and those whose result was
    read, in the order of [steps]. *)
Definition submitted_ids (steps : list Handler.step) : list string :=
  flat_map (fun s => match s with Handler.Submitted i => [i] | _ => [] end) steps.

Definition collected_ids (steps : list Handler.step) : list string :=
  flat_map (fun s => match s with Handler.Collected i => [i] | _ => [] end) steps.

(** The number of tasks handed to the pool among [steps]. *)
Definition submissions (steps : list Handler.step) : Z :=
  Z.of_nat (length (List.filter is_submission steps)).

(** Whether the run summary was recorded among [steps]. *)
Definition recorded (steps : list Handler.step) : bool := existsb is_summary steps.

Section WithPool.
Context {py : Builtins} {env : Environment} {pool : Handler.Executor}.

(** The [downsize_type] that the handler passes to its tasks. *)
Definition downsize_type_of (action : string) : option string :=
  if String.eqb action "scaledown" then Some get_downsize_type else None.

Variables (action run_start_timestamp : string) (downsize_type : option string).

(** The task of [data] returns with [processed] true. *)
Definition task_processed (data : Lifecycle.instance_data) : bool :=
  match Handler.future_result data action run_start_timestamp downsize_type with
  | Handler.Returned (true, _, _) => true
  | _ => false
  end.

(** The task of [data] raises. *)
Definition task_failed (data : Lifecycle.instance_data) : bool :=
  match Handler.future_result data action run_start_timestamp downsize_type with
  | Handler.Failed _ => true
  | _ => false
  end.

Definition processed_tasks (instances : list Lifecycle.instance_data) : Z :=
  Z.of_nat (length (List.filter task_processed instances)).

End WithPool.

End Observed.

(** * Properties of the schedule engine *)

Module CronFacts.

Import Cron.

Lemma rbind_ok {A B} (r : result A) (k : A -> result B) b :
  rbind r k = Ok b -> exists a, r = Ok a /\ k a = Ok b.
Proof. destruct r; simpl; intros E; try discriminate. eauto. Qed.

Lemma parse_single_int_field_range value name lo hi x :
  parse_single_int_field value name lo hi = Ok x -> lo <= x <= hi.
Proof.
  unfold parse_single_int_field.
  destruct (_ || _); [discriminate|].
  destruct (PyStr.int _) as [n|]; [|discriminate].
  destruct ((n <? lo) || (hi <? n)) eqn:E; [discriminate|].
  intros [= <-]. apply orb_false_iff in E as [E1 E2].
  apply Z.ltb_ge in E1, E2. lia.
Qed.

Lemma parse_cron_expression_range expr minute hour allowed :
  parse_cron_expression expr = Ok (minute, hour, allowed) ->
  0 <= minute <= 59 /\ 0 <= hour <= 23.
Proof.
  unfold parse_cron_expression.
  destruct (negb _); [discriminate|].
  destruct (cron_parts expr) as [|f1 [|f2 [|f3 [|f4 [|f5 [|f6 [|]]]]]]]; try discriminate.
  intros E.
  apply rbind_ok in E as (m & Em & E).
  apply rbind_ok in E as (h & Eh & E).
  repeat (destruct (negb _); [discriminate|]).
  apply rbind_ok in E as (a & _ & E). injection E as <- <- <-.
  split; eapply parse_single_int_field_range; eauto.
Qed.

Lemma candidate_at_representable hour minute reference_time k :
  0 <= minute <= 59 -> 0 <= hour <= 23 -> representable reference_time k ->
  candidate_at hour minute reference_time k = Ok (candidate reference_time hour minute k).
Proof.
  intros Hm Hh [Hlo Hhi]. unfold candidate_at, date_add_days, combine, candidate.
  cbn [replace_second_micro ordinal rbind].
  cbn [replace_second_micro ordinal].
  repeat match goal with
         | |- context [?a <=? ?b] => destruct (Z.leb_spec a b); try lia
         end.
  reflexivity.
Qed.

Lemma candidate_at_inv hour minute reference_time k c :
  candidate_at hour minute reference_time k = Ok c ->
  c = candidate reference_time hour minute k /\ representable reference_time k.
Proof.
  unfold candidate_at, date_add_days, combine, candidate, representable. simpl.
  destruct ((MINORDINAL <=? _) && (_ <=? MAXORDINAL)) eqn:E; simpl; [|discriminate].
  destruct (negb _); [discriminate|]. destruct (negb _); [discriminate|].
  intros [= <-]. apply andb_true_iff in E as [E1 E2].
  apply Z.leb_le in E1, E2. auto.
Qed.

Lemma candidate_at_no_fuel hour minute reference_time k :
  candidate_at hour minute reference_time k <> OutOfFuel.
Proof.
  unfold candidate_at, date_add_days, combine. simpl.
  destruct (_ && _); simpl; [|discriminate].
  destruct (negb _); [discriminate|]. destruct (negb _); discriminate.
Qed.

(** What a successful scan found: the first offset of the list whose
    candidate is accepted, every earlier one being a date that was
    built and refused. *)
Lemma scan_sound hour minute allowed reference_time offsets c :
  scan hour minute allowed reference_time offsets = Ok c ->
  exists before k after,
    offsets = before ++ k :: after
    /\ c = candidate reference_time hour minute k
    /\ representable reference_time k
    /\ accepts allowed reference_time c = true
    /\ Forall (fun j => representable reference_time j
                        /\ accepts allowed reference_time
                             (candidate reference_time hour minute j) = false) before.
Proof.
  induction offsets as [|k offsets IH]; simpl; [discriminate|].
  intros E. apply rbind_ok in E as (ck & Ek & E).
  apply candidate_at_inv in Ek as [-> Hk]. cbv beta in E.
  destruct (accepts allowed reference_time (candidate reference_time hour minute k))
    eqn:Ea.
  - assert (c = candidate reference_time hour minute k) as -> by congruence.
    exists [], k, offsets. repeat split; auto; apply Hk.
  - destruct (IH E) as (before & k' & after & -> & -> & Hk' & Ha & Hb).
    exists (k :: before), k', after. repeat split; auto; try apply Hk'.
Qed.

(** A scan over refused candidates fails, and with the error of the
    source when every date could be built. *)
Lemma scan_refused hour minute allowed reference_time offsets :
  0 <= minute <= 59 -> 0 <= hour <= 23 ->
  Forall (fun j => accepts allowed reference_time
                     (candidate reference_time hour minute j) = false) offsets ->
  failed (scan hour minute allowed reference_time offsets)
  /\ (Forall (representable reference_time) offsets ->
      scan hour minute allowed reference_time offsets = Raise NoOccurrenceFound).
Proof.
  intros Hm Hh. induction 1 as [|k offsets Hk _ [IH1 IH2]]; simpl.
  - split; [eexists|]; reflexivity.
  - destruct (candidate_at hour minute reference_time k) as [c| e |] eqn:Ec; simpl.
    + apply candidate_at_inv in Ec as [-> Hr]. rewrite Hk. split; [exact IH1|].
      intros Hall. apply IH2. now inversion Hall.
    + split; [eexists; reflexivity|]. intros Hall. inversion Hall as [|? ? Hr _]; subst.
      rewrite candidate_at_representable in Ec by assumption. discriminate.
    + now apply candidate_at_no_fuel in Ec.
Qed.

Lemma scan_complete hour minute allowed reference_time before k after :
  0 <= minute <= 59 -> 0 <= hour <= 23 ->
  Forall (fun j => representable reference_time j
                   /\ accepts allowed reference_time
                        (candidate reference_time hour minute j) = false) before ->
  representable reference_time k ->
  accepts allowed reference_time (candidate reference_time hour minute k) = true ->
  scan hour minute allowed reference_time (before ++ k :: after)
  = Ok (candidate reference_time hour minute k).
Proof.
  intros Hm Hh Hb Hk Ha. induction Hb as [|j before [Hj Hrej] _ IH]; simpl.
  - rewrite candidate_at_representable by assumption. simpl. now rewrite Ha.
  - rewrite candidate_at_representable by assumption. simpl. now rewrite Hrej.
Qed.

Lemma range_0_14 : range 0 14 = [0; 1; 2; 3; 4; 5; 6; 7; 8; 9; 10; 11; 12; 13].
Proof. reflexivity. Qed.

Lemma accepts_strict allowed reference_time c :
  accepts allowed reference_time c = true ->
  dt_leb c reference_time = false
  /\ forall days, allowed = Some days -> weekday c ∈ days.
Proof.
  unfold accepts. intros E. apply andb_true_iff in E as [E1 E2].
  split; [now apply negb_true_iff|].
  intros days ->. now apply bool_decide_eq_true in E2.
Qed.

Lemma range_split n before k after :
  range 0 n = before ++ k :: after ->
  0 <= k < n /\ forall j, 0 <= j < k -> j ∈ before.
Proof.
  unfold range. rewrite Z.sub_0_r. intros E.
  assert (Hk : seqZ 0 n !! length before = Some k).
  { rewrite E. now rewrite list_lookup_middle. }
  apply lookup_seqZ in Hk as [Hk Hlt]. split; [lia|].
  intros j Hj. apply list_elem_of_lookup. exists (Z.to_nat j).
  assert (Hj' : seqZ 0 n !! Z.to_nat j = Some j).
  { apply lookup_seqZ. lia. }
  rewrite E, lookup_app_l in Hj' by lia. exact Hj'.
Qed.

Lemma range_cut n k :
  0 <= k < n -> range 0 n = range 0 k ++ k :: range (k + 1) n.
Proof.
  intros Hk. unfold range. rewrite !Z.sub_0_r.
  replace n with (k + (n - k)) at 1 by lia.
  rewrite seqZ_app by lia. f_equal.
  rewrite seqZ_cons by lia. simpl. f_equal. f_equal; lia.
Qed.

Lemma elem_of_range a b j : j ∈ range a b <-> a <= j < b.
Proof. unfold range. rewrite elem_of_seqZ. lia. Qed.

(** C3.  For an expression accepted by [parse_cron_expression] and
    any reference instant: a value returned by
    [get_next_scheduled_time] is the candidate (date of the reference
    day plus [k], parsed hour and minute, second 0) of the first day
    offset [k] in 0..13 that is strictly later than the reference
    instant and falls on an allowed weekday when weekdays are
    restricted, so it is never at or before the reference instant;
    when no offset in 0..13 qualifies the call fails, with the
    "unable to find" error whenever the fourteen dates exist in the
    calendar; and when an offset qualifies and the dates up to it
    exist, its candidate is returned. *)
Theorem next_occurrence_first_candidate
    (expr : string) (reference_time : datetime)
    (minute hour : Z) (allowed : option (gset Z)) :
  parse_cron_expression expr = Ok (minute, hour, allowed) ->
  (forall c, get_next_scheduled_time expr reference_time = Ok c ->
     exists k, 0 <= k < 14
       /\ c = candidate reference_time hour minute k
       /\ dt_leb c reference_time = false
       /\ (forall days, allowed = Some days -> weekday c ∈ days)
       /\ forall j, 0 <= j < k ->
            accepts allowed reference_time
              (candidate reference_time hour minute j) = false)
  /\ ((forall k, 0 <= k < 14 ->
         accepts allowed reference_time
           (candidate reference_time hour minute k) = false) ->
      failed (get_next_scheduled_time expr reference_time)
      /\ (representable reference_time 0 -> representable reference_time 13 ->
          get_next_scheduled_time expr reference_time = Raise NoOccurrenceFound))
  /\ (forall k, 0 <= k < 14 ->
       representable reference_time 0 -> representable reference_time k ->
       accepts allowed reference_time
         (candidate reference_time hour minute k) = true ->
       (forall j, 0 <= j < k ->
          accepts allowed reference_time
            (candidate reference_time hour minute j) = false) ->
       get_next_scheduled_time expr reference_time
       = Ok (candidate reference_time hour minute k)).
Proof.
  intros Hparse.
  destruct (parse_cron_expression_range _ _ _ _ Hparse) as [Hm Hh].
  unfold get_next_scheduled_time. rewrite Hparse. cbn [rbind].
  split; [|split].
  - intros c Hc.
    apply scan_sound in Hc as (before & k & after & Hsplit & -> & _ & Ha & Hb).
    apply range_split in Hsplit as [Hk Hbefore].
    apply accepts_strict in Ha as [Hlater Hday].
    exists k. repeat split; auto; try lia.
    intros j Hj. rewrite Forall_forall in Hb.
    now apply Hb, Hbefore.
  - intros Hnone.
    assert (Hall : Forall (fun j => accepts allowed reference_time
                             (candidate reference_time hour minute j) = false)
                          (range 0 14)).
    { apply Forall_forall. intros j Hj. apply Hnone. now apply elem_of_range. }
    destruct (scan_refused hour minute allowed reference_time _ Hm Hh Hall)
      as [Hfail Hexact].
    split; [exact Hfail|]. intros H0 H13. apply Hexact.
    apply Forall_forall. intros j Hj. apply elem_of_range in Hj.
    unfold representable in *. lia.
  - intros k Hk H0 Hrk Hacc Hbefore.
    rewrite (range_cut 14 k Hk).
    apply scan_complete; auto.
    apply Forall_forall. intros j Hj. apply elem_of_range in Hj.
    split; [unfold representable in *; lia|]. now apply Hbefore.
Qed.

(** The theorem at ["0 18 * * MON-FRI *"] and Monday 2024-01-01
    19:00:00, after that day's 18:00. *)
Lemma next_occurrence_first_candidate_witness :
  parse_cron_expression "0 18 * * MON-FRI *" = Ok (0, 18, Some {[0; 1; 2; 3; 4]})
  /\ get_next_scheduled_time "0 18 * * MON-FRI *" (mk_datetime 738886 19 0 0 0)
     = Ok (mk_datetime 738887 18 0 0 0).
Proof.
  split; [vm_compute; reflexivity|].
  refine (proj2 (proj2 (next_occurrence_first_candidate
            "0 18 * * MON-FRI *" (mk_datetime 738886 19 0 0 0)
            0 18 (Some {[0; 1; 2; 3; 4]}) _)) 1 _ _ _ _ _).
  - vm_compute; reflexivity.
  - lia.
  - unfold representable, MINORDINAL, MAXORDINAL; simpl; lia.
  - unfold representable, MINORDINAL, MAXORDINAL; simpl; lia.
  - vm_compute; reflexivity.
  - intros j Hj. assert (j = 0) as -> by lia. vm_compute; reflexivity.
Defined.

(** C6 as stated fails: a day-of-month field ["?"], which is not
    ["*"], is accepted. *)
Lemma day_of_month_question_mark_accepted :
  ~ (forall expr minute_field hour_field day_of_month_field month_field
            day_of_week_field year_field,
       cron_parts expr = [minute_field; hour_field; day_of_month_field;
                          month_field; day_of_week_field; year_field] ->
       day_of_month_field <> "*" ->
       failed (parse_cron_expression expr)).
Proof.
  intros Hclaim.
  destruct (Hclaim "0 18 ? * MON-FRI *" "0" "18" "?" "*" "MON-FRI" "*")
    as [e He]; [reflexivity|discriminate|].
  vm_compute in He. discriminate.
Qed.

(** C6, amended.  A 6-field expression is rejected when its
    day-of-month field is neither ["*"] nor ["?"], or its month field
    is not ["*"], or its year field is not ["*"]. *)
Theorem calendar_fields_must_be_wildcards
    (expr minute_field hour_field day_of_month_field month_field
     day_of_week_field year_field : string) :
  cron_parts expr = [minute_field; hour_field; day_of_month_field;
                     month_field; day_of_week_field; year_field] ->
  (day_of_month_field <> "*" /\ day_of_month_field <> "?")
  \/ month_field <> "*" \/ year_field <> "*" ->
  failed (parse_cron_expression expr).
Proof.
  intros Hparts Hbad. unfold parse_cron_expression.
  destruct (negb (PyStr.nonempty expr)); [eexists; reflexivity|].
  rewrite Hparts.
  destruct (parse_single_int_field minute_field "minute" 0 59) as [m|e|] eqn:Em;
    cbn [rbind]; [|eexists; reflexivity|].
  2:{ unfold parse_single_int_field in Em.
      repeat match type of Em with
             | (if ?b then _ else _) = _ => destruct b; try discriminate
             | match ?x with _ => _ end = _ => destruct x; try discriminate
             end. }
  destruct (parse_single_int_field hour_field "hour" 0 23) as [h|e|] eqn:Eh;
    cbn [rbind]; [|eexists; reflexivity|].
  2:{ unfold parse_single_int_field in Eh.
      repeat match type of Eh with
             | (if ?b then _ else _) = _ => destruct b; try discriminate
             | match ?x with _ => _ end = _ => destruct x; try discriminate
             end. }
  destruct (String.eqb_spec day_of_month_field "*") as [Hd1|Hd1];
    destruct (String.eqb_spec day_of_month_field "?") as [Hd2|Hd2];
    destruct (String.eqb_spec month_field "*") as [Hmo|Hmo];
    destruct (String.eqb_spec year_field "*") as [Hy|Hy];
    cbn [orb negb]; try (eexists; reflexivity);
    exfalso; destruct Hbad as [[? ?]|[?|?]]; congruence.
Qed.

(** The amended claim at ["0 18 1 * * *"], whose day-of-month is 1. *)
Lemma calendar_fields_must_be_wildcards_witness :
  failed (parse_cron_expression "0 18 1 * * *").
Proof.
  apply (calendar_fields_must_be_wildcards "0 18 1 * * *" "0" "18" "1" "*" "*" "*").
  - reflexivity.
  - left. split; discriminate.
Defined.

Lemma add_segments_blank allowed segments :
  Forall blank segments -> add_segments allowed segments = Ok allowed.
Proof.
  induction 1 as [|segment rest Hblank _ IH]; simpl; [reflexivity|].
  unfold add_segment. unfold blank in Hblank. rewrite Hblank. simpl. exact IH.
Qed.

(** C9.  A day-of-week field that is not the wildcard and whose
    comma-separated segments are all blank, such as [","] and
    [" , "], parses to the empty set of weekdays, whereas ["*"] and
    ["?"] parse to the unrestricted schedule; and for an expression
    whose weekday set is empty [get_next_scheduled_time] fails at
    every reference instant, with the "unable to find" error whenever
    the fourteen scanned dates exist in the calendar. *)
Theorem empty_weekday_set_never_occurs :
  (forall field,
     let normalized :=
       PyStr.upper (PyStr.strip (if PyStr.nonempty field then field else "*")) in
     normalized <> "*" -> normalized <> "?" ->
     Forall blank (PyStr.split_on "," normalized) ->
     parse_day_of_week_field field = Ok (Some ∅))
  /\ parse_day_of_week_field "," = Ok (Some ∅)
  /\ parse_day_of_week_field " , " = Ok (Some ∅)
  /\ parse_day_of_week_field "*" = Ok None
  /\ parse_day_of_week_field "?" = Ok None
  /\ forall expr minute hour reference_time,
       parse_cron_expression expr = Ok (minute, hour, Some ∅) ->
       failed (get_next_scheduled_time expr reference_time)
       /\ (representable reference_time 0 -> representable reference_time 13 ->
           get_next_scheduled_time expr reference_time = Raise NoOccurrenceFound).
Proof.
  split; [|split; [|split; [|split; [|split]]]].
  2-5: vm_compute; reflexivity.
  - intros field normalized Hstar Hquestion Hblank.
    unfold parse_day_of_week_field. fold normalized.
    destruct (String.eqb_spec normalized "*"); [contradiction|].
    destruct (String.eqb_spec normalized "?"); [contradiction|].
    cbn [orb]. now rewrite add_segments_blank.
  - intros expr minute hour reference_time Hparse.
    destruct (parse_cron_expression_range _ _ _ _ Hparse) as [Hm Hh].
    unfold get_next_scheduled_time. rewrite Hparse. cbn [rbind].
    assert (Hnone : Forall (fun j => accepts (Some ∅) reference_time
                              (candidate reference_time hour minute j) = false)
                           (range 0 14)).
    { apply Forall_forall. intros j _. unfold accepts.
      rewrite bool_decide_eq_false_2 by apply not_elem_of_empty.
      apply andb_false_r. }
    destruct (scan_refused hour minute (Some ∅) reference_time _ Hm Hh Hnone)
      as [Hfail Hexact].
    split; [exact Hfail|]. intros H0 H13. apply Hexact.
    apply Forall_forall. intros j Hj. apply elem_of_range in Hj.
    unfold representable in *. lia.
Qed.

(** The theorem at ["0 18 * * , *"] and Monday 2024-01-01 10:00:00. *)
Lemma empty_weekday_set_never_occurs_witness :
  parse_cron_expression "0 18 * * , *" = Ok (0, 18, Some ∅)
  /\ get_next_scheduled_time "0 18 * * , *" (mk_datetime 738886 10 0 0 0)
     = Raise NoOccurrenceFound.
Proof.
  split; [vm_compute; reflexivity|].
  refine (proj2 (proj2 (proj2 (proj2 (proj2 (proj2
            empty_weekday_set_never_occurs))))
            "0 18 * * , *" 0 18 (mk_datetime 738886 10 0 0 0) _) _ _).
  - vm_compute; reflexivity.
  - unfold representable, MINORDINAL, MAXORDINAL; simpl; lia.
  - unfold representable, MINORDINAL, MAXORDINAL; simpl; lia.
Defined.

End CronFacts.

(** * Properties of the retry wrapper *)

Module RetryFacts.

Import Observed.

Lemma after_nil w : after w [] = w.
Proof. destruct w. unfold after. simpl. now rewrite app_nil_r. Qed.

Lemma after_after w events more :
  after (after w events) more = after w (events ++ more).
Proof. unfold after. simpl. now rewrite app_assoc. Qed.

Section WithRuntime.
Context {py : Builtins} {env : Environment}.

Lemma MAX_RETRIES_positive : 1 <= MAX_RETRIES.
Proof.
  unfold MAX_RETRIES, parse_int_env.
  destruct (environ "MAX_RETRIES") as [raw|]; [|lia].
  destruct (PyStr.int _) as [value|]; [|lia].
  destruct (Z.ltb_spec value 1); lia.
Qed.

Lemma invoke_fails c e w :
  respond (trace w) c = Fails e ->
  invoke c w = (Raise e, after w [Called c]).
Proof. unfold invoke, emit. simpl. now intros ->. Qed.

Lemma invoke_answers c w :
  (forall e, respond (trace w) c <> Fails e) ->
  invoke c w = (Ok (respond (trace w) c), after w [Called c]).
Proof.
  unfold invoke, emit. simpl. intros H.
  destruct (respond (trace w) c) eqn:E; try reflexivity.
  now destruct (H e).
Qed.

(** The backoff read from the environment is never below its floor. *)
Lemma BACKOFF_SECS_floor : Float.ltb BACKOFF_SECS (Finite 0) = false.
Proof.
  unfold BACKOFF_SECS, parse_float_env.
  destruct (environ "BACKOFF_SECS") as [raw|]; [|reflexivity].
  destruct (python_float _) as [value|]; [|reflexivity].
  destruct (Float.ltb value (Finite 0)) eqn:E; [reflexivity|exact E].
Qed.

Lemma finite_backoff_is_not_negative backoff :
  BACKOFF_SECS = Finite backoff -> (0 <= backoff)%Q.
Proof.
  intros E. pose proof BACKOFF_SECS_floor as Hfloor. rewrite E in Hfloor.
  cbn [Float.ltb] in Hfloor. now destruct (Qlt_le_dec backoff 0).
Qed.

Lemma sleep_nanoseconds_nonnegative seconds :
  (0 <= seconds)%Q -> 0 <= sleep_nanoseconds seconds.
Proof.
  intros Hseconds. unfold sleep_nanoseconds.
  destruct (Qlt_le_dec seconds 0) as [Hneg|_]; [lra|].
  change 0 with (Qceiling 0). apply Qceiling_resp_le.
  change (inject_Z (10 ^ 9)) with (1000000000 # 1)%Q. nra.
Qed.

Lemma sleep_nanoseconds_monotone backoff (a b : Z) :
  (0 <= backoff)%Q -> 0 <= a <= b ->
  sleep_nanoseconds (backoff * inject_Z a) <= sleep_nanoseconds (backoff * inject_Z b).
Proof.
  intros Hbackoff [Ha Hab].
  assert (Hqa : (0 <= inject_Z a)%Q) by (rewrite Zle_Qle in Ha; exact Ha).
  assert (Hqab : (inject_Z a <= inject_Z b)%Q) by (rewrite Zle_Qle in Hab; exact Hab).
  unfold sleep_nanoseconds.
  destruct (Qlt_le_dec (backoff * inject_Z a) 0) as [Hneg|_]; [nra|].
  destruct (Qlt_le_dec (backoff * inject_Z b) 0) as [Hneg|_]; [nra|].
  apply Qceiling_resp_le.
  change (inject_Z (10 ^ 9)) with (1000000000 # 1)%Q. nra.
Qed.

Lemma time_sleep_finite backoff attempt w :
  (0 <= backoff)%Q -> 0 <= attempt ->
  sleep_nanoseconds (backoff * inject_Z attempt) < 2 ^ 63 ->
  time_sleep (Float.mul (Finite backoff) (Float.of_Z attempt)) w
  = (Ok tt, after w [Slept (backoff * inject_Z attempt)]).
Proof.
  intros Hbackoff Hattempt Hfits. cbn [Float.mul Float.of_Z time_sleep]. cbv zeta.
  assert (Hseconds : (0 <= backoff * inject_Z attempt)%Q).
  { rewrite Zle_Qle in Hattempt. change (inject_Z 0) with 0%Q in Hattempt. nra. }
  pose proof (sleep_nanoseconds_nonnegative _ Hseconds) as Hnonneg.
  destruct (Z.ltb_spec (sleep_nanoseconds (backoff * inject_Z attempt)) (- 2 ^ 63));
    [lia|].
  destruct (Z.leb_spec (2 ^ 63) (sleep_nanoseconds (backoff * inject_Z attempt)));
    [lia|].
  cbn [orb].
  destruct (Qlt_le_dec (backoff * inject_Z attempt) 0) as [Hneg|]; [lra|reflexivity].
Qed.

Lemma time_sleep_too_long backoff attempt w :
  2 ^ 63 <= sleep_nanoseconds (backoff * inject_Z attempt) ->
  exists msg,
    time_sleep (Float.mul (Finite backoff) (Float.of_Z attempt)) w
    = (Raise (OverflowError msg), w).
Proof.
  intros Hlong. cbn [Float.mul Float.of_Z time_sleep]. cbv zeta.
  destruct (Z.leb_spec (2 ^ 63) (sleep_nanoseconds (backoff * inject_Z attempt)));
    [|lia].
  rewrite orb_true_r. unfold raise. eauto.
Qed.

(** The loop against a call that always fails with [e], the backoff
    being a number and every sleep being short enough: every attempt
    is made and each is followed by its sleep. *)
Lemma retry_loop_exhausted backoff c e attempts last_error w :
  BACKOFF_SECS = Finite backoff ->
  Forall (fun attempt =>
            0 <= attempt /\ sleep_nanoseconds (backoff * inject_Z attempt) < 2 ^ 63)
         attempts ->
  (forall history, respond history c = Fails e) ->
  attempts <> [] \/ last_error = Some e ->
  retry_loop (invoke c) attempts last_error w
  = (Raise e, after w (flat_map (failed_attempt backoff c) attempts)).
Proof.
  intros Hbackoff Hattempts Hfail. revert last_error w.
  induction Hattempts as [|attempt rest [Hattempt Hfits] _ IH]; intros last_error w Hlast.
  - destruct Hlast as [?| ->]; [congruence|]. simpl. now rewrite after_nil.
  - cbn [retry_loop]. rewrite (invoke_fails c e w (Hfail _)).
    unfold bind. rewrite Hbackoff.
    rewrite time_sleep_finite
      by (try assumption; now apply finite_backoff_is_not_negative).
    rewrite IH by now right.
    unfold after, failed_attempt. simpl. now rewrite <- !app_assoc.
Qed.

(** The loop when the sleep after the attempt [too_long] cannot be
    represented: the attempts before it are made and slept after, the
    attempt [too_long] is made, and the error of its sleep ends the
    loop. *)
Lemma retry_loop_refused backoff c e before too_long rest last_error w :
  BACKOFF_SECS = Finite backoff ->
  Forall (fun attempt =>
            0 <= attempt /\ sleep_nanoseconds (backoff * inject_Z attempt) < 2 ^ 63)
         before ->
  2 ^ 63 <= sleep_nanoseconds (backoff * inject_Z too_long) ->
  (forall history, respond history c = Fails e) ->
  exists msg,
    retry_loop (invoke c) (before ++ too_long :: rest) last_error w
    = (Raise (OverflowError msg),
       after w (flat_map (failed_attempt backoff c) before ++ [Called c])).
Proof.
  intros Hbackoff Hbefore Hlong Hfail. revert last_error w.
  induction Hbefore as [|attempt before [Hattempt Hfits] _ IH]; intros last_error w.
  - cbn [app retry_loop flat_map]. rewrite (invoke_fails c e w (Hfail _)).
    unfold bind. rewrite Hbackoff.
    destruct (time_sleep_too_long backoff too_long (after w [Called c]) Hlong)
      as (msg & ->).
    now exists msg.
  - cbn [app retry_loop]. rewrite (invoke_fails c e w (Hfail _)).
    unfold bind. rewrite Hbackoff.
    rewrite time_sleep_finite
      by (try assumption; now apply finite_backoff_is_not_negative).
    destruct (IH (Some e) (after (after w [Called c])
                             [Slept (backoff * inject_Z attempt)]))
      as (msg & ->).
    exists msg. unfold after, failed_attempt. simpl. now rewrite <- !app_assoc.
Qed.

Lemma invocations_failed_attempts backoff c attempts :
  invocations (flat_map (failed_attempt backoff c) attempts)
  = Z.of_nat (length attempts).
Proof.
  unfold invocations. induction attempts as [|attempt rest IH]; [reflexivity|].
  cbn [flat_map failed_attempt app List.filter is_invocation length] in *. lia.
Qed.

Lemma last_failed_attempts backoff c n :
  1 <= n ->
  last (flat_map (failed_attempt backoff c) (Cron.range 1 (n + 1)))
  = Some (Slept (backoff * inject_Z n)).
Proof.
  intros Hn. unfold Cron.range.
  replace (n + 1 - 1) with ((n - 1) + 1) by lia.
  rewrite seqZ_app by lia. rewrite flat_map_app.
  replace (1 + (n - 1)) with n by lia.
  change (seqZ n 1) with [n]. now rewrite last_app.
Qed.

End WithRuntime.

(** C8.  What [retry] does with one provider call [c].  When the
    first attempt is answered, that answer is returned at once, after
    one invocation and no sleep.  When every attempt fails with [e]
    and the configured backoff is a number whose longest sleep
    [time.sleep] can represent, the call is invoked once per attempt
    number 1..MAX_RETRIES and no more, the error [e] is raised at the
    end, and each failed attempt is followed by a sleep of
    [BACKOFF_SECS * attempt] seconds: the last attempt too, so the
    run ends with a sleep of [BACKOFF_SECS * MAX_RETRIES] seconds that
    no attempt follows.  Otherwise a sleep is refused and its error
    leaves [retry] in place of [e]: after the first failed attempt
    when the configured backoff is nan or infinite, and after the
    first attempt whose sleep is too long when it is a number. *)
Theorem retry_sleeps_after_every_failed_attempt
    {py : Builtins} {env : Environment} (c : call) (w : world) :
  ((forall e, respond (trace w) c <> Fails e) ->
   retry (invoke c) w = (Ok (respond (trace w) c), after w [Called c]))
  /\ (forall e backoff,
       (forall history, respond history c = Fails e) ->
       BACKOFF_SECS = Finite backoff ->
       sleep_nanoseconds (backoff * inject_Z MAX_RETRIES) < 2 ^ 63 ->
       retry (invoke c) w
       = (Raise e,
          after w (flat_map (failed_attempt backoff c) (Cron.range 1 (MAX_RETRIES + 1))))
       /\ last (flat_map (failed_attempt backoff c) (Cron.range 1 (MAX_RETRIES + 1)))
          = Some (Slept (backoff * inject_Z MAX_RETRIES))
       /\ invocations (flat_map (failed_attempt backoff c)
                         (Cron.range 1 (MAX_RETRIES + 1)))
          = MAX_RETRIES)
  /\ (forall e, respond (trace w) c = Fails e ->
      (BACKOFF_SECS = NaN ->
       exists msg, retry (invoke c) w = (Raise (ValueError msg), after w [Called c]))
      /\ (forall negative, BACKOFF_SECS = Infinity negative ->
          exists msg,
            retry (invoke c) w = (Raise (OverflowError msg), after w [Called c])))
  /\ (forall e backoff too_long,
       (forall history, respond history c = Fails e) ->
       BACKOFF_SECS = Finite backoff ->
       1 <= too_long <= MAX_RETRIES ->
       sleep_nanoseconds (backoff * inject_Z (too_long - 1)) < 2 ^ 63 ->
       2 ^ 63 <= sleep_nanoseconds (backoff * inject_Z too_long) ->
       exists msg,
         retry (invoke c) w
         = (Raise (OverflowError msg),
            after w (flat_map (failed_attempt backoff c) (Cron.range 1 too_long)
                     ++ [Called c]))).
Proof.
  pose proof MAX_RETRIES_positive as Hpos.
  assert (Hshort : forall backoff longest,
            BACKOFF_SECS = Finite backoff ->
            sleep_nanoseconds (backoff * inject_Z longest) < 2 ^ 63 ->
            Forall (fun attempt =>
                      0 <= attempt
                      /\ sleep_nanoseconds (backoff * inject_Z attempt) < 2 ^ 63)
                   (Cron.range 1 (longest + 1))).
  { intros backoff longest Hbackoff Hfits.
    apply Forall_forall. intros attempt Hattempt.
    apply CronFacts.elem_of_range in Hattempt. split; [lia|].
    pose proof (sleep_nanoseconds_monotone backoff attempt longest
                  (finite_backoff_is_not_negative backoff Hbackoff)
                  ltac:(lia)).
    lia. }
  split; [|split; [|split]].
  - intros Hanswered. unfold retry.
    unfold Cron.range. rewrite seqZ_cons by lia. cbn [retry_loop].
    now rewrite (invoke_answers c w Hanswered).
  - intros e backoff Hfail Hbackoff Hfits.
    split; [|split].
    + unfold retry. apply retry_loop_exhausted; try assumption.
      * now apply Hshort.
      * left. unfold Cron.range. rewrite seqZ_cons by lia. discriminate.
    + now apply last_failed_attempts.
    + rewrite invocations_failed_attempts. unfold Cron.range.
      rewrite length_seqZ. lia.
  - intros e Hfail. split.
    + intros Hnan. unfold retry, Cron.range. rewrite seqZ_cons by lia.
      cbn [retry_loop]. rewrite (invoke_fails c e w Hfail), Hnan.
      unfold bind. cbn [Float.mul Float.of_Z time_sleep]. unfold raise. eauto.
    + intros negative Hinfinite. unfold retry, Cron.range. rewrite seqZ_cons by lia.
      cbn [retry_loop]. rewrite (invoke_fails c e w Hfail), Hinfinite.
      unfold bind. cbn [Float.mul Float.of_Z].
      assert (Hone : Float.is_zero (inject_Z 1) = false) by reflexivity.
      rewrite Hone. cbn [time_sleep]. unfold raise. eauto.
  - intros e backoff too_long Hfail Hbackoff Hrange Hfits Hlong.
    unfold retry.
    assert (Hsplit : Cron.range 1 (MAX_RETRIES + 1)
                     = Cron.range 1 too_long
                       ++ too_long :: Cron.range (too_long + 1) (MAX_RETRIES + 1)).
    { unfold Cron.range.
      replace (MAX_RETRIES + 1 - 1) with ((too_long - 1) + (MAX_RETRIES - too_long + 1))
        by lia.
      rewrite seqZ_app by lia.
      replace (1 + (too_long - 1)) with too_long by lia.
      rewrite (seqZ_cons too_long) by lia.
      replace (Z.succ too_long) with (too_long + 1) by lia.
      replace (Z.pred (MAX_RETRIES - too_long + 1))
        with (MAX_RETRIES + 1 - (too_long + 1)) by lia.
      reflexivity. }
    rewrite Hsplit. apply retry_loop_refused with (e := e); try assumption.
    replace too_long with ((too_long - 1) + 1) at 1 by lia.
    now apply Hshort.
Qed.

(** The default configuration against a provider that throttles
    every call: three attempts, and a sleep after each of them. *)
Lemma retry_sleeps_after_every_failed_attempt_witness :
  trace (snd (retry (py := Samples.builtins)
                (env := Samples.environment [] Samples.always_throttled)
                (invoke (env := Samples.environment [] Samples.always_throttled)
                   (StopInstances "i-1"))
                initial_world))
  = [Called (StopInstances "i-1"); Slept (5 * inject_Z 1);
     Called (StopInstances "i-1"); Slept (5 * inject_Z 2);
     Called (StopInstances "i-1"); Slept (5 * inject_Z 3)].
Proof.
  rewrite (proj1 (proj1 (proj2 (retry_sleeps_after_every_failed_attempt
             (py := Samples.builtins)
             (env := Samples.environment [] Samples.always_throttled)
             (StopInstances "i-1") initial_world))
           (ClientError "RequestLimitExceeded") 5%Q (fun _ => eq_refl) eq_refl
           eq_refl)).
  reflexivity.
Defined.

End RetryFacts.

(** * Properties of the handler *)

Module HandlerFacts.

Import Lifecycle Handler Observed.

Lemma get_set_eq {V} k (v : V) d : Dict.get k (Dict.set k v d) = Some v.
Proof.
  induction d as [|[k' v'] d IH]; simpl.
  - now rewrite String.eqb_refl.
  - destruct (String.eqb_spec k k') as [->|Hne]; simpl.
    + now rewrite String.eqb_refl.
    + destruct (String.eqb_spec k k'); [contradiction|exact IH].
Qed.

Lemma get_set_ne {V} k k' (v : V) d :
  k <> k' -> Dict.get k' (Dict.set k v d) = Dict.get k' d.
Proof.
  intros Hne. induction d as [|[k0 v0] d IH]; simpl.
  - destruct (String.eqb_spec k' k); congruence.
  - destruct (String.eqb_spec k k0) as [->|Hk]; simpl.
    + destruct (String.eqb_spec k' k0); congruence.
    + destruct (String.eqb_spec k' k0); [reflexivity|exact IH].
Qed.

(** C10.  An event without the key ["source"] is handled exactly as
    the same event with ["source"] set to ["manual"]: the handler
    takes no step (no clock read, no enumeration, no task), and when
    the action is a valid one it raises the manual-execution-blocked
    error. *)
Theorem missing_source_is_manual
    {py : Builtins} {env : Environment} {pool : Executor}
    (event : list (string * string)) :
  Dict.get "source" event = None ->
  lambda_handler event = lambda_handler (Dict.set "source" "manual" event)
  /\ snd (lambda_handler event) = []
  /\ (exists e, fst (lambda_handler event) = Failed e)
  /\ forall action, Dict.get "action" event = Some action ->
       mem action VALID_ACTIONS = true ->
       lambda_handler event = (Failed ManualExecutionBlocked, []).
Proof.
  intros Hmissing.
  assert (Hshape : lambda_handler event
                   = match Dict.get "action" event with
                     | None => (Failed InvalidAction, [])
                     | Some action =>
                         if negb (mem action VALID_ACTIONS)
                         then (Failed InvalidAction, [])
                         else (Failed ManualExecutionBlocked, [])
                     end).
  { unfold lambda_handler. rewrite Hmissing. cbn [default from_option].
    destruct (Dict.get "action" event) as [action|]; [|reflexivity].
    destruct (negb (mem action VALID_ACTIONS)); reflexivity. }
  split; [|split; [|split]].
  - rewrite Hshape. unfold lambda_handler.
    rewrite get_set_eq, !get_set_ne by discriminate.
    cbn [default from_option].
    destruct (Dict.get "action" event) as [action|]; [|reflexivity].
    destruct (negb (mem action VALID_ACTIONS)); reflexivity.
  - rewrite Hshape. destruct (Dict.get "action" event) as [action|]; [|reflexivity].
    destruct (negb (mem action VALID_ACTIONS)); reflexivity.
  - rewrite Hshape. destruct (Dict.get "action" event) as [action|]; [|now eexists].
    destruct (negb (mem action VALID_ACTIONS)); now eexists.
  - intros action Haction Hvalid. rewrite Hshape, Haction, Hvalid. reflexivity.
Qed.

(** The theorem at the event [{"action": "scaledown"}]. *)
Lemma missing_source_is_manual_witness :
  lambda_handler (py := Samples.builtins) (env := Samples.quiet_environment)
    (pool := Samples.executor []) [("action", "scaledown")]
  = (Failed ManualExecutionBlocked, []).
Proof.
  apply (proj2 (proj2 (proj2 (missing_source_is_manual
           (py := Samples.builtins) (env := Samples.quiet_environment)
           (pool := Samples.executor []) [("action", "scaledown")] eq_refl)))
         "scaledown"); reflexivity.
Defined.

(** ** The batch loop *)

Lemma submissions_app a b : submissions (a ++ b) = submissions a + submissions b.
Proof. unfold submissions. rewrite List.filter_app, length_app. lia. Qed.

Lemma submissions_submitted (l : list instance_data) :
  submissions (List.map (fun d => Submitted (id_instance_id d)) l) = Z.of_nat (length l).
Proof.
  unfold submissions. induction l as [|d l IH]; [reflexivity|].
  cbn [List.map List.filter is_submission length] in *. lia.
Qed.

Lemma submissions_collections l :
  Forall (fun s => is_collection s = true) l -> submissions l = 0.
Proof.
  unfold submissions. induction 1 as [|s l Hs _ IH]; [reflexivity|].
  destruct s; try discriminate. exact IH.
Qed.

Lemma recorded_app a b : recorded (a ++ b) = recorded a || recorded b.
Proof. apply existsb_app. Qed.

Lemma recorded_submitted (l : list instance_data) :
  recorded (List.map (fun d => Submitted (id_instance_id d)) l) = false.
Proof. unfold recorded. induction l; [reflexivity|exact IHl]. Qed.

Lemma recorded_collections l :
  Forall (fun s => is_collection s = true) l -> recorded l = false.
Proof.
  unfold recorded. induction 1 as [|s l Hs _ IH]; [reflexivity|].
  destruct s; try discriminate. exact IH.
Qed.

Lemma collections_collected (l : list instance_data) :
  Forall (fun s => is_collection s = true)
         (List.map (fun d => Collected (id_instance_id d)) l).
Proof. induction l; constructor; auto. Qed.

Lemma chunks_aux_concat {A} fuel (l : list A) size :
  (1 <= size)%nat -> (length l <= fuel)%nat ->
  List.concat (chunks_aux fuel l size) = l.
Proof.
  intros Hsize. revert l. induction fuel as [|fuel IH]; intros l Hlen.
  - destruct l; [reflexivity|simpl in Hlen; lia].
  - cbn [chunks_aux]. destruct (take size l) as [|x batch] eqn:E.
    + destruct l; [reflexivity|]. destruct size; [lia|discriminate].
    + cbn [List.concat]. rewrite IH.
      * rewrite <- E. apply take_drop.
      * rewrite length_drop. destruct l; [now rewrite take_nil in E|]. simpl in *. lia.
Qed.

Lemma chunks_concat {A} (l : list A) size :
  (1 <= size)%nat -> List.concat (chunks l size) = l.
Proof. intros. now apply chunks_aux_concat. Qed.

Section Batches.
Context {py : Builtins} {env : Environment} {pool : Executor}.
Variables (action run_start_timestamp : string) (downsize_type : option string).

Local Notation "'fails'" := (task_failed action run_start_timestamp downsize_type).
Local Notation "'tally'" := (processed_tasks action run_start_timestamp downsize_type).

Lemma batch_size_positive : (1 <= batch_size)%nat.
Proof. unfold batch_size. destruct (Z.ltb_spec 0 BATCH_SIZE); lia. Qed.

Lemma tally_cons d l :
  tally (d :: l)
  = (if task_processed action run_start_timestamp downsize_type d then 1 else 0)
    + tally l.
Proof.
  unfold processed_tasks. cbn [List.filter].
  destruct (task_processed _ _ _ d); cbn [length]; lia.
Qed.

Lemma tally_app l l' : tally (l ++ l') = tally l + tally l'.
Proof. unfold processed_tasks. rewrite List.filter_app, length_app. lia. Qed.

Lemma tally_permutation l l' : Permutation l l' -> tally l = tally l'.
Proof.
  induction 1 as [|d l l' _ IH|d d' l|l l' l'' _ IH1 _ IH2].
  - reflexivity.
  - now rewrite !tally_cons, IH.
  - rewrite !tally_cons. lia.
  - congruence.
Qed.

(** A batch whose failures are tolerated, or that has none, is read to
    its end; the tasks that returned [processed] are counted. *)
Lemma collect_returns futures c steps :
  FAIL_FAST = false \/ Forall (fun d => fails d = false) futures ->
  exists c',
    collect action run_start_timestamp downsize_type futures c steps
    = (Returned c',
       steps ++ List.map (fun d => Collected (id_instance_id d)) futures)
    /\ processed_count c' = processed_count c + tally futures.
Proof.
  revert c steps. induction futures as [|d rest IH]; intros c steps Hok.
  - exists c. cbn [collect List.map]. rewrite app_nil_r.
    split; [reflexivity|]. unfold processed_tasks. simpl. lia.
  - cbn [collect]. rewrite tally_cons. unfold task_processed.
    assert (Hrest : FAIL_FAST = false \/ Forall (fun d => fails d = false) rest).
    { destruct Hok as [?|Hall]; [now left|right; now inversion Hall]. }
    destruct (future_result d action run_start_timestamp downsize_type)
      as [[[processed savings] actual]|exc] eqn:E.
    + destruct (IH (count_result c (processed, savings, actual))
                  (steps ++ [Collected (id_instance_id d)]) Hrest)
        as (c' & -> & Hcount).
      exists c'. rewrite <- app_assoc. split; [reflexivity|].
      rewrite Hcount. cbn [count_result processed_count].
      destruct processed; lia.
    + destruct Hok as [Hoff|Hall].
      * rewrite Hoff.
        destruct (IH c (steps ++ [Collected (id_instance_id d)]) Hrest)
          as (c' & -> & Hcount).
        exists c'. rewrite <- app_assoc. split; [reflexivity|lia].
      * inversion Hall as [|? ? Hd _]; subst.
        unfold task_failed in Hd. rewrite E in Hd. discriminate.
Qed.

(** With fail-fast on, the first failure that is read ends the loop. *)
Lemma collect_aborts futures c steps :
  FAIL_FAST = true -> Exists (fun d => fails d = true) futures ->
  exists e data extra,
    data ∈ futures
    /\ future_result data action run_start_timestamp downsize_type = Failed e
    /\ collect action run_start_timestamp downsize_type futures c steps
       = (Failed e, steps ++ extra)
    /\ Forall (fun s => is_collection s = true) extra.
Proof.
  intros Hon. revert c steps.
  induction futures as [|d rest IH]; intros c steps Hex; [inversion Hex|].
  cbn [collect].
  destruct (future_result d action run_start_timestamp downsize_type)
    as [r|exc] eqn:E.
  - assert (Hrest : Exists (fun d => fails d = true) rest).
    { inversion Hex as [? ? Hd|]; subst; [|assumption].
      unfold task_failed in Hd. rewrite E in Hd. discriminate. }
    destruct (IH (count_result c r) (steps ++ [Collected (id_instance_id d)]) Hrest)
      as (e & data & extra & Hin & Hfail & -> & Hextra).
    exists e, data, (Collected (id_instance_id d) :: extra).
    rewrite <- app_assoc. repeat split; auto.
    now constructor.
  - rewrite Hon. exists exc, d, [Collected (id_instance_id d)].
    repeat split; auto. constructor.
Qed.

Hypothesis as_completed_permutes : forall batch, Permutation (as_completed batch) batch.

Lemma run_batches_returns batches c steps :
  FAIL_FAST = false \/ Forall (Forall (fun d => fails d = false)) batches ->
  exists c' extra,
    run_batches action run_start_timestamp downsize_type batches c steps
    = (Returned c', steps ++ extra)
    /\ processed_count c' = processed_count c + tally (List.concat batches)
    /\ submissions extra = Z.of_nat (length (List.concat batches))
    /\ recorded extra = false.
Proof.
  revert c steps. induction batches as [|batch rest IH]; intros c steps Hok.
  - exists c, []. rewrite app_nil_r. repeat split; auto.
    unfold processed_tasks. simpl. lia.
  - cbn [run_batches].
    assert (Hbatch : FAIL_FAST = false
                     \/ Forall (fun d => fails d = false) (as_completed batch)).
    { destruct Hok as [?|Hall]; [now left|right].
      rewrite (as_completed_permutes batch). now inversion Hall. }
    assert (Hrest : FAIL_FAST = false
                    \/ Forall (Forall (fun d => fails d = false)) rest).
    { destruct Hok as [?|Hall]; [now left|right; now inversion Hall]. }
    destruct (collect_returns (as_completed batch) c
                (steps ++ List.map (fun d => Submitted (id_instance_id d)) batch)
                Hbatch) as (c1 & -> & Hc1).
    destruct (IH c1 ((steps ++ List.map (fun d => Submitted (id_instance_id d)) batch)
                     ++ List.map (fun d => Collected (id_instance_id d))
                          (as_completed batch)) Hrest)
      as (c' & extra & -> & Hc' & Hsub & Hrec).
    exists c', (List.map (fun d => Submitted (id_instance_id d)) batch
                ++ List.map (fun d => Collected (id_instance_id d)) (as_completed batch)
                ++ extra).
    rewrite <- !app_assoc. split; [reflexivity|]. split; [|split].
    + cbn [List.concat]. rewrite tally_app, Hc', Hc1.
      rewrite (tally_permutation _ _ (as_completed_permutes batch)). lia.
    + rewrite !submissions_app, submissions_submitted, Hsub.
      rewrite (submissions_collections _ (collections_collected _)).
      cbn [List.concat]. rewrite length_app. lia.
    + rewrite !recorded_app, recorded_submitted, Hrec.
      now rewrite (recorded_collections _ (collections_collected _)).
Qed.

Lemma run_batches_aborts pre batch post c steps :
  FAIL_FAST = true ->
  Forall (Forall (fun d => fails d = false)) pre ->
  Exists (fun d => fails d = true) batch ->
  exists e data extra,
    data ∈ batch
    /\ future_result data action run_start_timestamp downsize_type = Failed e
    /\ run_batches action run_start_timestamp downsize_type
         (pre ++ batch :: post) c steps
       = (Failed e, steps ++ extra)
    /\ submissions extra = Z.of_nat (length (List.concat pre) + length batch)
    /\ recorded extra = false.
Proof.
  intros Hon Hpre Hbad. revert c steps.
  induction Hpre as [|earlier pre Hearlier _ IH]; intros c steps.
  - cbn [app run_batches].
    assert (Hbad' : Exists (fun d => fails d = true) (as_completed batch))
      by now rewrite (as_completed_permutes batch).
    destruct (collect_aborts (as_completed batch) c
                (steps ++ List.map (fun d => Submitted (id_instance_id d)) batch)
                Hon Hbad') as (e & data & extra & Hin & Hfail & -> & Hextra).
    exists e, data, (List.map (fun d => Submitted (id_instance_id d)) batch ++ extra).
    rewrite <- app_assoc. split; [|split; [exact Hfail|split; [reflexivity|split]]].
    + now rewrite (as_completed_permutes batch) in Hin.
    + rewrite submissions_app, submissions_submitted.
      rewrite (submissions_collections _ Hextra). simpl. lia.
    + rewrite recorded_app, recorded_submitted.
      now rewrite (recorded_collections _ Hextra).
  - cbn [app run_batches].
    assert (Hok : FAIL_FAST = false
                  \/ Forall (fun d => fails d = false) (as_completed earlier)).
    { right. now rewrite (as_completed_permutes earlier). }
    destruct (collect_returns (as_completed earlier) c
                (steps ++ List.map (fun d => Submitted (id_instance_id d)) earlier)
                Hok) as (c1 & -> & _).
    destruct (IH c1 ((steps ++ List.map (fun d => Submitted (id_instance_id d)) earlier)
                     ++ List.map (fun d => Collected (id_instance_id d))
                          (as_completed earlier)))
      as (e & data & extra & Hin & Hfail & -> & Hsub & Hrec).
    exists e, data,
      (List.map (fun d => Submitted (id_instance_id d)) earlier
       ++ List.map (fun d => Collected (id_instance_id d)) (as_completed earlier)
       ++ extra).
    rewrite <- !app_assoc. split; [exact Hin|split; [exact Hfail|split; [reflexivity|split]]].
    + rewrite !submissions_app, submissions_submitted, Hsub.
      rewrite (submissions_collections _ (collections_collected _)).
      cbn [List.concat]. rewrite length_app. lia.
    + rewrite !recorded_app, recorded_submitted, Hrec.
      now rewrite (recorded_collections _ (collections_collected _)).
Qed.

End Batches.

Lemma tally_all_processed {py : Builtins} {env : Environment} {pool : Executor}
    action run_start_timestamp downsize_type l :
  Forall (fun d => task_processed action run_start_timestamp downsize_type d = true) l ->
  processed_tasks action run_start_timestamp downsize_type l = Z.of_nat (length l).
Proof.
  induction 1 as [|d l Hd _ IH]; [reflexivity|].
  rewrite tally_cons, Hd, IH. cbn [length]. lia.
Qed.

(** C4.  The batch loop of the handler, the tasks of a batch finishing
    in any order.  With fail-fast off, failed tasks are only left out
    of the count: the run reaches the recording of its summary, and
    when it returns, it returns the number of tasks that came back
    processed, which is N - 1 when one task of N fails and the others
    are processed.  With fail-fast on, a failure in a batch that
    follows batches without failure is raised out of the handler: the
    tasks of that batch and of the earlier ones were submitted and no
    others, and no run summary is recorded. *)
Theorem fail_fast_policy
    {py : Builtins} {env : Environment} {pool : Executor}
    (action schedule_name run_start_timestamp : string)
    (instances_to_process : list instance_data) (skipped_due_to_schedule : Z)
    (steps : list step) :
  (forall batch, Permutation (as_completed batch) batch) ->
  let downsize_type := downsize_type_of action in
  let outcome :=
    orchestrate action schedule_name run_start_timestamp instances_to_process
      skipped_due_to_schedule steps in
  let processed :=
    processed_tasks action run_start_timestamp downsize_type instances_to_process in
  (FAIL_FAST = false ->
     recorded (snd outcome) = true
     /\ (forall returned, fst outcome = Returned returned ->
          returned = mk_summary processed action schedule_name
                       skipped_due_to_schedule None)
     /\ ((forall records, record_savings records = Returned tt) ->
         (forall records, record_actual_savings records = Returned tt) ->
         fst outcome = Returned (mk_summary processed action schedule_name
                                   skipped_due_to_schedule None))
     /\ (forall before failing after,
          instances_to_process = before ++ failing :: after ->
          task_failed action run_start_timestamp downsize_type failing = true ->
          Forall (fun d => task_processed action run_start_timestamp
                             downsize_type d = true) (before ++ after) ->
          processed = Z.of_nat (length instances_to_process) - 1))
  /\ (FAIL_FAST = true ->
      forall pre batch post,
        chunks instances_to_process batch_size = pre ++ batch :: post ->
        Forall (Forall (fun d => task_failed action run_start_timestamp
                                   downsize_type d = false)) pre ->
        Exists (fun d => task_failed action run_start_timestamp
                           downsize_type d = true) batch ->
        exists e data extra,
          data ∈ batch
          /\ future_result data action run_start_timestamp downsize_type = Failed e
          /\ outcome = (Failed e, steps ++ extra)
          /\ submissions extra = Z.of_nat (length (List.concat pre) + length batch)
          /\ recorded extra = false).
Proof.
  intros Hperm downsize_type outcome processed. split.
  - intros Hoff.
    destruct (run_batches_returns action run_start_timestamp downsize_type Hperm
                (chunks instances_to_process batch_size) (mk_counters 0 [] []) steps
                (or_introl Hoff)) as (c & extra & Hrun & Hcount & _ & _).
    rewrite (chunks_concat _ _ batch_size_positive) in Hcount.
    cbn [processed_count] in Hcount. fold processed in Hcount.
    assert (Hc : processed_count c = processed) by lia. clear Hcount.
    assert (Hshape :
      exists recording last_step,
        outcome = match recording with
                  | Returned _ =>
                      (Returned (mk_summary processed action schedule_name
                                   skipped_due_to_schedule None),
                       (steps ++ extra) ++ [last_step])
                  | Failed e => (Failed e, (steps ++ extra) ++ [last_step])
                  end
        /\ is_summary last_step = true
        /\ (recording = record_savings (savings_records c)
            \/ recording = record_actual_savings (actual_savings_records c))).
    { unfold outcome, orchestrate. cbv zeta.
      change (if String.eqb action "scaledown" then Some get_downsize_type else None)
        with downsize_type.
      rewrite Hrun, Hc.
      destruct (String.eqb action "scaledown").
      - exists (record_savings (savings_records c)),
               (SavingsRecorded (savings_records c)).
        split; [|split; [reflexivity|now left]].
        destruct (record_savings (savings_records c)); reflexivity.
      - exists (record_actual_savings (actual_savings_records c)),
               (ActualSavingsRecorded (actual_savings_records c)).
        split; [|split; [reflexivity|now right]].
        destruct (record_actual_savings (actual_savings_records c)); reflexivity. }
    destruct Hshape as (recording & last_step & Hout & Hlast & Hrecording).
    split; [|split; [|split]].
    + rewrite Hout. destruct recording; cbn [snd];
        rewrite recorded_app; unfold recorded at 2; cbn [existsb];
        rewrite Hlast; now rewrite orb_true_r.
    + intros returned. rewrite Hout.
      destruct recording; cbn [fst]; congruence.
    + intros Hsavings Hactual. rewrite Hout.
      destruct Hrecording as [-> | ->];
        [rewrite Hsavings|rewrite Hactual]; reflexivity.
    + intros before failing after -> Hfailing Hothers.
      unfold processed. rewrite tally_app, tally_cons.
      apply Forall_app in Hothers as [Hbefore Hafter].
      rewrite (tally_all_processed _ _ _ _ Hbefore).
      rewrite (tally_all_processed _ _ _ _ Hafter).
      unfold task_failed in Hfailing. unfold task_processed.
      destruct (future_result failing action run_start_timestamp downsize_type);
        [discriminate|].
      rewrite length_app. cbn [length]. lia.
  - intros Hon pre batch post Hchunks Hpre Hbad.
    destruct (run_batches_aborts action run_start_timestamp downsize_type Hperm
                pre batch post (mk_counters 0 [] []) steps Hon Hpre Hbad)
      as (e & data & extra & Hin & Hfail & Hrun & Hsub & Hrec).
    exists e, data, extra. repeat split; auto.
    unfold outcome, orchestrate. cbv zeta.
    change (if String.eqb action "scaledown" then Some get_downsize_type else None)
      with downsize_type.
    now rewrite Hchunks, Hrun.
Qed.

Lemma rev_permutes {A} (l : list A) : Permutation (List.rev l) l.
Proof. symmetry. apply Permutation_rev. Qed.

(** The theorem on two runs of a pool whose task for [i-2] fails:
    three instances with the default configuration, where the run
    returns 2 processed instances; and four instances in batches of
    two with fail-fast on, where the run fails after the two
    submissions of the first batch. *)
Lemma fail_fast_policy_witness :
  fst (orchestrate (env := Samples.quiet_environment)
         (pool := Samples.executor ["i-2"])
         "scaledown" "default" "2024-01-02T06:00:00Z"
         (Samples.fleet ["i-1"; "i-2"; "i-3"]) 0 [RunStarted; Enumerated])
  = Returned (mk_summary 2 "scaledown" "default" 0 None)
  /\ exists e extra,
       orchestrate
         (env := Samples.environment [("FAIL_FAST", "true"); ("BATCH_SIZE", "2")]
                   (Samples.cooperative "t3.medium"))
         (pool := Samples.executor ["i-2"])
         "scaledown" "default" "2024-01-02T06:00:00Z"
         (Samples.fleet ["i-1"; "i-2"; "i-3"; "i-4"]) 0 [RunStarted; Enumerated]
       = (Failed e, [RunStarted; Enumerated] ++ extra)
       /\ submissions extra = 2
       /\ recorded extra = false.
Proof.
  split.
  - apply (proj1 (fail_fast_policy (py := Samples.builtins)
                    (env := Samples.quiet_environment)
                    (pool := Samples.executor ["i-2"])
                    "scaledown" "default" "2024-01-02T06:00:00Z"
                    (Samples.fleet ["i-1"; "i-2"; "i-3"]) 0 [RunStarted; Enumerated]
                    rev_permutes) eq_refl); reflexivity.
  - destruct (proj2 (fail_fast_policy (py := Samples.builtins)
                       (env := Samples.environment
                                 [("FAIL_FAST", "true"); ("BATCH_SIZE", "2")]
                                 (Samples.cooperative "t3.medium"))
                       (pool := Samples.executor ["i-2"])
                       "scaledown" "default" "2024-01-02T06:00:00Z"
                       (Samples.fleet ["i-1"; "i-2"; "i-3"; "i-4"]) 0
                       [RunStarted; Enumerated] rev_permutes) eq_refl
                [] (Samples.fleet ["i-1"; "i-2"]) [Samples.fleet ["i-3"; "i-4"]]
                eq_refl)
      as (e & data & extra & _ & _ & Hout & Hsub & Hrec).
    + constructor.
    + apply Exists_cons_tl, Exists_cons_hd. reflexivity.
    + exists e, extra. repeat split; assumption.
Defined.

End HandlerFacts.

(** * Properties of the savings-plan factor *)

Module SavingsPlanFacts.

Import SavingsPlan.

Lemma bind_ok {A B} (m : M A) (k : A -> M B) w b w' :
  bind m k w = (Ok b, w') ->
  exists a w1, m w = (Ok a, w1) /\ k a w1 = (Ok b, w').
Proof.
  unfold bind. destruct (m w) as [[a|e|] w1]; intros E; try discriminate. eauto.
Qed.

Import Observed.


Section WithRuntime.
Context {py : Builtins} {env : Environment}.




Lemma manual_branch w factor w' :
  (let* factor := lift get_manual_discount_factor in
   set_factor factor "manual" ;;; ret factor) w = (Ok factor, w') ->
  get_manual_discount_factor = Ok factor
  /\ w' = mk_world (trace w) (PRICE_CACHE w) (Some factor) (Some "manual").
Proof.
  unfold bind, lift, set_factor, ret.
  destruct get_manual_discount_factor; intros [= <- <-]; auto.
Qed.

End WithRuntime.




End SavingsPlanFacts.

(** * Properties of the pricing resolution *)

Module PricingFacts.

Import Pricing Observed.

Section WithRuntime.
Context {py : Builtins} {env : Environment}.

(** One catalog query is one provider call, whatever it answers; it
    touches neither the cache nor the savings-plan factor. *)
Lemma try_filters_world filters_to_use w :
  snd (try_filters filters_to_use w) = after w [Called (GetProducts filters_to_use)].
Proof.
  unfold try_filters, bind, invoke, emit. cbn [fst snd].
  destruct (respond (trace w) (GetProducts filters_to_use))
    as [e| |types|[|[|[terms|]] entries]|rows token]; reflexivity.
Qed.

(** The loop over the variants: the price of the first variant that
    has one is stored under [key], after one query for each variant up
    to that one. *)
Lemma try_variants_caches key variants w rate w' :
  try_variants key variants w = (Ok rate, w') ->
  exists before filters_to_use rest,
    variants = before ++ filters_to_use :: rest
    /\ w' = mk_world
              (trace w ++ List.map (fun f => Called (GetProducts f))
                            (before ++ [filters_to_use]))
              (<[key := rate]> (PRICE_CACHE w))
              (SAVINGS_PLAN_FACTOR w) (SAVINGS_PLAN_FACTOR_SOURCE w).
Proof.
  revert w. induction variants as [|filters_to_use rest IH]; intros w.
  - discriminate.
  - cbn [try_variants]. unfold bind at 1.
    pose proof (try_filters_world filters_to_use w) as Hworld.
    destruct (try_filters filters_to_use w) as [[[price|]|e|] w1];
      cbn [snd] in Hworld; subst w1; try discriminate.
    + unfold bind, cache_price, ret, after. cbn [trace PRICE_CACHE
        SAVINGS_PLAN_FACTOR SAVINGS_PLAN_FACTOR_SOURCE].
      intros [= <- <-]. exists [], filters_to_use, rest. split; reflexivity.
    + intros E. apply IH in E as (before & found & rest' & -> & ->).
      exists (filters_to_use :: before), found, rest'.
      split; [reflexivity|]. unfold after. cbn [trace PRICE_CACHE
        SAVINGS_PLAN_FACTOR SAVINGS_PLAN_FACTOR_SOURCE List.map app].
      now rewrite <- app_assoc.
Qed.

End WithRuntime.

(** C1.  A call of [get_hourly_rate] that finds nothing in the cache
    for the requested profile, in a known region, and returns a rate:
    the rate came from one of the filter variants, after one catalog
    query for each variant tried, and it is stored in the price cache
    under the key built from the instance type and the requested
    profile; every other key, the key of a relaxed profile among
    them, is left as it was. *)
Theorem price_cached_under_requested_key
    {py : Builtins} {env : Environment}
    (instance_type : string) (pricing_filters : gmap string string)
    (w w' : world) (rate : pyfloat) :
  PRICE_CACHE w !! build_pricing_cache_key instance_type pricing_filters = None ->
  get_region <> "unknown" ->
  get_location get_region <> "Unknown" ->
  get_hourly_rate instance_type pricing_filters w = (Ok rate, w') ->
  PRICE_CACHE w'
  = <[build_pricing_cache_key instance_type pricing_filters := rate]> (PRICE_CACHE w)
  /\ (forall other,
       other <> build_pricing_cache_key instance_type pricing_filters ->
       PRICE_CACHE w' !! other = PRICE_CACHE w !! other)
  /\ exists before filters_to_use rest,
       unique_variants instance_type (get_location get_region) pricing_filters
       = before ++ filters_to_use :: rest
       /\ trace w'
          = trace w ++ List.map (fun f => Called (GetProducts f))
                         (before ++ [filters_to_use]).
Proof.
  intros Hmiss Hregion Hlocation. unfold get_hourly_rate. rewrite Hmiss.
  destruct (String.eqb_spec get_region "unknown"); [contradiction|].
  destruct (String.eqb_spec (get_location get_region) "Unknown"); [contradiction|].
  cbn [orb]. intros E.
  apply try_variants_caches in E as (before & filters_to_use & rest & Hsplit & ->).
  cbn [PRICE_CACHE trace]. split; [reflexivity|]. split.
  - intros other Hother. now apply lookup_insert_ne.
  - now exists before, filters_to_use, rest.
Qed.

(** The theorem for the profile Windows / NA / License Included in a
    region whose catalog only has a price for products that need no
    license: the price of the license-relaxed variant is stored under
    the License Included key, and nothing under the relaxed key. *)
Lemma price_cached_under_requested_key_witness :
  let w' := snd (get_hourly_rate (py := Samples.builtins)
                   (env := Samples.quiet_environment)
                   "m5.large" (profile "Windows" "NA" "License Included")
                   initial_world) in
  PRICE_CACHE w'
  = <[("m5.large", Some "Windows", Some "NA", Some "License Included")
      := Finite (24 # 125)]> ∅
  /\ PRICE_CACHE w'
     !! ("m5.large", Some "Windows", Some "NA", Some "No License required") = None.
Proof.
  intros w'.
  destruct (price_cached_under_requested_key (py := Samples.builtins)
              (env := Samples.quiet_environment)
              "m5.large" (profile "Windows" "NA" "License Included")
              initial_world w' (Finite (24 # 125))) as (Hcache & Hother & _).
  - vm_compute. reflexivity.
  - vm_compute. discriminate.
  - vm_compute. discriminate.
  - vm_compute. reflexivity.
  - split.
    + exact Hcache.
    + rewrite Hother; [reflexivity|]. vm_compute. discriminate.
Defined.

End PricingFacts.

(** * What the monadic code adds to the trace *)

Module TraceFacts.

Import Observed.

Create HintDb only discriminated.

Lemma only_events_of {A} P (m : M A) w :
  only P m -> Forall P (events_of m w).
Proof.
  intros Hm. destruct (Hm w) as (extra & Htrace & Hextra).
  unfold events_of. rewrite Htrace, drop_app_length. exact Hextra.
Qed.

Lemma only_ret {A} P (a : A) : only P (ret a).
Proof. intros w. exists []. cbn. now rewrite app_nil_r. Qed.

Lemma only_raise {A} P e : only P (@raise A e).
Proof. intros w. exists []. cbn. now rewrite app_nil_r. Qed.

Lemma only_lift {A} P (r : result A) : only P (lift r).
Proof. intros w. exists []. cbn. now rewrite app_nil_r. Qed.

Lemma only_emit P ev : P ev -> only P (emit ev).
Proof. intros Hev w. exists [ev]. cbn. split; [reflexivity|now constructor]. Qed.

Lemma only_bind {A B} P (m : M A) (k : A -> M B) :
  only P m -> (forall a, only P (k a)) -> only P (bind m k).
Proof.
  intros Hm Hk w. destruct (Hm w) as (e1 & Ht1 & He1). unfold bind.
  destruct (m w) as [[a|e|] w1]; cbn [snd] in *.
  - destruct (Hk a w1) as (e2 & Ht2 & He2). exists (e1 ++ e2).
    rewrite Ht2, Ht1, app_assoc. split; [reflexivity|]. now apply Forall_app.
  - now exists e1.
  - now exists e1.
Qed.

Lemma only_try_except {A} P (m : M A) (handler : exn -> M A) :
  only P m -> (forall e, only P (handler e)) -> only P (try_except m handler).
Proof.
  intros Hm Hh w. destruct (Hm w) as (e1 & Ht1 & He1). unfold try_except.
  destruct (m w) as [[a|e|] w1]; cbn [snd] in *.
  - now exists e1.
  - destruct (Hh e w1) as (e2 & Ht2 & He2). exists (e1 ++ e2).
    rewrite Ht2, Ht1, app_assoc. split; [reflexivity|]. now apply Forall_app.
  - now exists e1.
Qed.

(** A computation that is a function of the world, by cases. *)
Lemma only_ext {A} P (m m' : M A) :
  (forall w, m w = m' w) -> only P m' -> only P m.
Proof. intros Heq Hm w. rewrite Heq. apply Hm. Qed.

Section WithRuntime.
Context {py : Builtins} {env : Environment}.

Lemma only_invoke P c : P (Called c) -> only P (invoke c).
Proof.
  intros Hc w. exists [Called c]. unfold invoke, emit.
  destruct (respond (trace w) c); cbn; (split; [reflexivity|now constructor]).
Qed.

Lemma only_sleep P seconds : P (Slept seconds) -> only P (sleep seconds).
Proof. apply only_emit. Qed.

Lemma only_time_sleep P seconds :
  (forall q, P (Slept q)) -> only P (time_sleep seconds).
Proof.
  intros Hsleep. unfold time_sleep. destruct seconds as [q| |negative].
  - cbv zeta. destruct (_ || _); [apply only_raise|].
    destruct (Qlt_le_dec q 0); [apply only_raise|apply only_sleep, Hsleep].
  - apply only_raise.
  - apply only_raise.
Qed.

Lemma only_clock P : P ReadClock -> only P clock.
Proof. intros H w. exists [ReadClock]. cbn. split; [reflexivity|now constructor]. Qed.

Lemma only_now P : P ReadClock -> only P now.
Proof. intros H w. exists [ReadClock]. cbn. split; [reflexivity|now constructor]. Qed.

Lemma only_date_today P : P ReadClock -> only P date_today.
Proof. intros H w. exists [ReadClock]. cbn. split; [reflexivity|now constructor]. Qed.

Lemma only_retry_loop {A} P (api_call : M A) attempts last_error :
  (forall seconds, P (Slept seconds)) -> only P api_call ->
  only P (retry_loop api_call attempts last_error).
Proof.
  intros Hsleep Hcall. revert last_error.
  induction attempts as [|attempt rest IH]; intros last_error.
  - cbn [retry_loop]. destruct last_error; apply only_raise.
  - intros w. cbn [retry_loop]. destruct (Hcall w) as (e1 & Ht1 & He1).
    destruct (api_call w) as [[a|exc|] w1]; cbn [snd] in *.
    + now exists e1.
    + destruct (only_bind P
                  (time_sleep (Float.mul BACKOFF_SECS (Float.of_Z attempt)))
                  (fun _ => retry_loop api_call rest (Some exc))
                  (only_time_sleep P _ Hsleep) (fun _ => IH (Some exc)) w1)
        as (e2 & Ht2 & He2).
      exists (e1 ++ e2). rewrite Ht2, Ht1, app_assoc.
      split; [reflexivity|]. now apply Forall_app.
    + now exists e1.
Qed.

Lemma only_retry {A} P (api_call : M A) :
  (forall seconds, P (Slept seconds)) -> only P api_call -> only P (retry api_call).
Proof. apply only_retry_loop. Qed.

End WithRuntime.

(** One step of a proof that a computation only adds events of a
    kind: the head construct of the computation decides. *)
Ltac only_step :=
  lazymatch goal with
  | |- only _ (bind _ _) => apply only_bind; [|intros ?]
  | |- only _ (ret _) => apply only_ret
  | |- only _ (raise _) => apply only_raise
  | |- only _ (lift _) => apply only_lift
  | |- only _ (try_except _ _) => apply only_try_except; [|intros ?]
  | |- only _ (retry _) => apply only_retry; [intros ?; reflexivity|]
  | |- only _ (invoke _) => apply only_invoke; reflexivity
  | |- only _ (sleep _) => apply only_sleep; reflexivity
  | |- only _ clock => apply only_clock; reflexivity
  | |- only _ now => apply only_now; reflexivity
  | |- only _ date_today => apply only_date_today; reflexivity
  | |- only _ (if ?b then _ else _) => destruct b
  | |- only _ (match ?x with _ => _ end) => destruct x
  end.

Ltac only_steps := repeat (first [solve [eauto with only] | only_step]).

Lemma only_unchanged {A} P (m : M A) :
  (forall w, trace (snd (m w)) = trace w) -> only P m.
Proof. intros H w. exists []. now rewrite H, app_nil_r. Qed.

Section Quiet.
Context {py : Builtins} {env : Environment}.
Variable key : string.

Lemma only_try_filters filters_to_use :
  only (quiet key) (Pricing.try_filters filters_to_use).
Proof. unfold Pricing.try_filters. only_steps. Qed.

Lemma only_cache_price cache_key price :
  only (quiet key) (Pricing.cache_price cache_key price).
Proof. now apply only_unchanged. Qed.

Lemma only_try_variants cache_key variants :
  only (quiet key) (Pricing.try_variants cache_key variants).
Proof.
  induction variants as [|filters_to_use rest IH]; cbn [Pricing.try_variants].
  - apply only_raise.
  - apply only_bind; [apply only_try_filters|]. intros [price|]; [|exact IH].
    apply only_bind; [apply only_cache_price|]. intros _. apply only_ret.
Qed.

Lemma only_get_hourly_rate instance_type pricing_filters :
  only (quiet key) (Pricing.get_hourly_rate instance_type pricing_filters).
Proof.
  intros w. unfold Pricing.get_hourly_rate.
  destruct (PRICE_CACHE w !! _); [exists []; cbn; now rewrite app_nil_r|].
  destruct (_ || _); [exists []; cbn; now rewrite app_nil_r|].
  apply only_try_variants.
Qed.

Lemma only_coverage_pages fuel start_date end_date next_token totals :
  only (quiet key) (SavingsPlan.coverage_pages fuel start_date end_date next_token totals).
Proof.
  revert next_token totals.
  induction fuel as [|fuel IH]; intros next_token totals; cbn [SavingsPlan.coverage_pages].
  - apply only_lift.
  - apply only_bind; [apply only_invoke; reflexivity|]. intros answer.
    destruct answer; try destruct (Pricing.truthy _); try apply IH; apply only_ret.
Qed.

Lemma only_get_coverage_discount_factor fuel :
  only (quiet key) (SavingsPlan.get_coverage_discount_factor fuel).
Proof.
  unfold SavingsPlan.get_coverage_discount_factor.
  destruct (PyStr.int _); [|apply only_raise].
  destruct (_ || _); [apply only_raise|].
  apply only_bind; [apply only_date_today; reflexivity|]. intros end_date.
  apply only_bind; [apply only_lift|]. intros start_date.
  apply only_bind; [apply only_coverage_pages|]. intros [total_savings total_cost].
  destruct (Float.leb _ _); [apply only_raise|].
  apply only_bind; [apply only_lift|]. intros ratio.
  apply only_bind; [apply only_lift|]. intros fraction. apply only_ret.
Qed.

Lemma only_set_factor factor source :
  only (quiet key) (SavingsPlan.set_factor factor source).
Proof. now apply only_unchanged. Qed.

Lemma only_get_savings_plan_factor fuel :
  only (quiet key) (SavingsPlan.get_savings_plan_factor fuel).
Proof.
  assert (Hmanual : only (quiet key)
            (let* factor := lift SavingsPlan.get_manual_discount_factor in
             SavingsPlan.set_factor factor "manual" ;;; ret factor)).
  { apply only_bind; [apply only_lift|]. intros factor.
    apply only_bind; [apply only_set_factor|]. intros _. apply only_ret. }
  intros w. unfold SavingsPlan.get_savings_plan_factor.
  destruct (SAVINGS_PLAN_FACTOR w); [exists []; cbn; now rewrite app_nil_r|].
  destruct (String.eqb _ "coverage"); [|apply Hmanual].
  apply only_try_except; [|intros _; exact Hmanual].
  apply only_bind; [apply only_get_coverage_discount_factor|]. intros factor.
  apply only_bind; [apply only_set_factor|]. intros _. apply only_ret.
Qed.

Lemma only_poll_instance_type fuel instance_id desired_type deadline poll_interval :
  only (quiet key)
       (Lifecycle.poll_instance_type fuel instance_id desired_type deadline poll_interval).
Proof.
  induction fuel as [|fuel IH]; cbn [Lifecycle.poll_instance_type].
  - apply only_lift.
  - apply only_bind; [apply only_clock; reflexivity|]. intros t.
    destruct (Qlt_le_dec t deadline); [|apply only_raise].
    apply only_bind; [apply only_retry; [reflexivity|apply only_invoke; reflexivity]|].
    intros answer. destruct (existsb _ _); [apply only_ret|].
    apply only_bind; [apply only_clock; reflexivity|]. intros t'.
    destruct (Qlt_le_dec _ _); [|apply only_raise].
    apply only_bind; [apply only_sleep; reflexivity|]. intros _. exact IH.
Qed.

Lemma only_wait_for_instance_type fuel instance_id desired_type :
  only (quiet key) (Lifecycle.wait_for_instance_type fuel instance_id desired_type).
Proof.
  unfold Lifecycle.wait_for_instance_type.
  apply only_bind; [apply only_clock; reflexivity|]. intros t.
  apply only_poll_instance_type.
Qed.

Lemma only_resize fuel instance_id state desired_type_value :
  only (quiet key) (Lifecycle.resize fuel instance_id state desired_type_value).
Proof.
  unfold Lifecycle.resize.
  apply only_bind.
  { destruct (negb _); [|apply only_ret]. only_steps. }
  intros _. apply only_bind; [only_steps|]. intros _.
  apply only_bind; [apply only_wait_for_instance_type|]. intros _.
  only_steps.
Qed.

Lemma only_create_tags instance_id tags :
  existsb (fun kv => String.eqb (fst kv) key) tags = false ->
  only (quiet key) (Lifecycle.create_tags instance_id tags).
Proof.
  intros Hkey. unfold Lifecycle.create_tags.
  apply only_retry; [reflexivity|]. now apply only_invoke.
Qed.

Lemma only_savings_block fuel inst instance_id current_type desired_type
    run_start_timestamp :
  String.eqb Lifecycle.LAST_SCALE_DOWN_TIMESTAMP_TAG key = false ->
  String.eqb Lifecycle.LAST_SCALE_DOWN_HOURLY_TAG key = false ->
  only (quiet key)
       (Lifecycle.savings_block fuel inst instance_id current_type desired_type
          run_start_timestamp).
Proof.
  intros Htimestamp Hhourly. unfold Lifecycle.savings_block.
  apply only_try_except; [|intros _; apply only_ret].
  destruct (Pricing.get_instance_pricing_profile inst) as [pricing_filters pricing_source].
  apply only_bind; [apply only_get_hourly_rate|]. intros original_rate.
  apply only_bind; [apply only_get_hourly_rate|]. intros downsized_rate.
  apply only_bind; [apply only_get_savings_plan_factor|]. intros factor.
  destruct (pricing_filters !! "operatingSystem"); [|apply only_raise].
  destruct (pricing_filters !! "preInstalledSw"); [|apply only_raise].
  destruct (pricing_filters !! "licenseModel"); [|apply only_raise].
  apply only_try_except; [|intros _; apply only_ret].
  apply only_bind; [|intros _; apply only_ret].
  apply only_create_tags. cbn [existsb fst]. now rewrite Htimestamp, Hhourly.
Qed.

End Quiet.

End TraceFacts.

(** * Properties of the instance lifecycle *)

Module LifecycleFacts.

Import Lifecycle Observed TraceFacts.

Section WithRuntime.
Context {py : Builtins} {env : Environment}.

Lemma events_of_grows {A} (m : M A) w extra :
  trace (snd (m w)) = trace w ++ extra -> events_of m w = extra.
Proof. intros H. unfold events_of. now rewrite H, drop_app_length. Qed.

(** The first attempt of a retried call is always made. *)
Lemma retry_invoke_first c w :
  exists rest, trace (snd (retry (invoke c) w)) = trace w ++ Called c :: rest.
Proof.
  unfold retry. pose proof RetryFacts.MAX_RETRIES_positive as Hpos.
  unfold Cron.range. rewrite seqZ_cons by lia. cbn [retry_loop].
  destruct (respond (trace w) c) as [e| | | |] eqn:E;
    try (rewrite (RetryFacts.invoke_answers c w) by (rewrite E; discriminate);
         exists []; reflexivity).
  rewrite (RetryFacts.invoke_fails c e w E).
  destruct (only_bind (fun _ => True)
              (time_sleep (Float.mul BACKOFF_SECS (Float.of_Z 1)))
              (fun _ => retry_loop (invoke c) (seqZ (Z.succ 1) (Z.pred (MAX_RETRIES + 1 - 1)))
                          (Some e))
              (only_time_sleep _ _ (fun _ => I))
              (fun _ => only_retry_loop _ _ _ _ (fun _ => I)
                          (only_invoke (fun _ => True) c I))
              (after w [Called c])) as (rest & Htrace & _).
  exists rest. rewrite Htrace. cbn [after trace]. now rewrite <- app_assoc.
Qed.

Lemma bind_first {A B} (m : M A) (k : A -> M B) P w ev rest :
  trace (snd (m w)) = trace w ++ ev :: rest ->
  (forall a, only P (k a)) ->
  exists rest', trace (snd (bind m k w)) = trace w ++ ev :: rest'.
Proof.
  intros Hm Hk. unfold bind. destruct (m w) as [[a|e|] w1]; cbn [snd] in *.
  - destruct (Hk a w1) as (more & Hmore & _). exists (rest ++ more).
    rewrite Hmore, Hm, <- app_assoc. reflexivity.
  - now exists rest.
  - now exists rest.
Qed.

Lemma parse_timestamp_no_fuel value : parse_timestamp value <> OutOfFuel.
Proof.
  unfold parse_timestamp. destruct value as [value|]; [|discriminate].
  destruct (negb _); [discriminate|]. destruct (negb _); [discriminate|].
  destruct (fromisoformat _) as [[parsed [offset|]]|]; try discriminate.
  unfold to_utc_naive, of_total_us. destruct (_ && _); discriminate.
Qed.

(** Without usable scale-down metadata the snapshot is [None], or the
    error of a timestamp that cannot be brought to UTC; nothing is
    read, not even the clock. *)
Lemma snapshot_without_metadata instance_id tags desired_type current_type w :
  scale_down_metadata_unusable tags ->
  build_actual_savings_snapshot instance_id tags desired_type current_type w
  = (Ok None, w)
  \/ exists e,
       build_actual_savings_snapshot instance_id tags desired_type current_type w
       = (Raise e, w)
       /\ (parse_timestamp (Dict.get LAST_SCALE_DOWN_TIMESTAMP_TAG tags) = Raise e
           \/ parse_timestamp (Dict.get LAST_SCALE_UP_TIMESTAMP_TAG tags) = Raise e).
Proof.
  intros Hunusable. unfold build_actual_savings_snapshot.
  destruct (Pricing.truthy (Dict.get LAST_SCALE_DOWN_TIMESTAMP_TAG tags)) eqn:Hdown;
    [|now left].
  destruct (Pricing.truthy (Dict.get LAST_SCALE_DOWN_HOURLY_TAG tags)) eqn:Hhourly;
    [|now left].
  cbn [negb orb]. unfold bind at 1, lift at 1.
  destruct (parse_timestamp (Dict.get LAST_SCALE_DOWN_TIMESTAMP_TAG tags))
    as [[scale_down_time|]|e|] eqn:Edown.
  - unfold bind at 1, lift at 1.
    destruct (parse_timestamp (Dict.get LAST_SCALE_UP_TIMESTAMP_TAG tags))
      as [last_scale_up_time|e|] eqn:Eup.
    + destruct (match last_scale_up_time with
                | Some last => dt_leb scale_down_time last
                | None => false
                end) eqn:Eguard; [now left|].
      destruct (python_float _) eqn:Efloat; [|now left].
      exfalso.
      destruct Hunusable as [H|[H|[H|[H|(sd & su & Hsd & Hsu & Hle)]]]];
        try congruence.
      rewrite Hsd in Edown. rewrite Hsu in Eup.
      injection Edown as <-. injection Eup as <-. congruence.
    + right. exists e. auto.
    + now apply parse_timestamp_no_fuel in Eup.
  - now left.
  - right. exists e. auto.
  - now apply parse_timestamp_no_fuel in Edown.
Qed.

Lemma only_bind_none {A B} P (m : M (option A)) (k : option A -> M B) :
  (forall w, m w = (Ok None, w) \/ exists e, m w = (Raise e, w)) ->
  only P (k None) -> only P (bind m k).
Proof.
  intros Hm Hk w. unfold bind. destruct (Hm w) as [-> | (e & ->)].
  - apply Hk.
  - exists []. cbn. now rewrite app_nil_r.
Qed.

End WithRuntime.

(** C2 as stated fails: a tag ["PreferredInstanceType"] whose value
    is one space is present and not empty, and the scale-down path
    writes the current type over it. *)
Lemma blank_preferred_tag_is_overwritten :
  ~ (forall (py : Builtins) (env : Environment) fuel data run_start_timestamp
            downsize_type w value,
       Dict.get "PreferredInstanceType" (id_tags data) = Some value ->
       value <> "" ->
       Forall (quiet "PreferredInstanceType")
         (events_of (process_instance fuel data "scaledown" run_start_timestamp
                       downsize_type) w)).
Proof.
  intros Hclaim.
  pose proof (Hclaim Samples.builtins Samples.quiet_environment 0%nat
                (Samples.data "m5.large" [("PreferredInstanceType", " ")])
                "2024-01-02T06:00:00Z" None initial_world " " eq_refl
                ltac:(discriminate)) as Hquiet.
  vm_compute in Hquiet.
  inversion Hquiet as [|ev rest Hhead _]. discriminate Hhead.
Qed.

(** C2, amended.  On the scale-down path: when the tag
    ["PreferredInstanceType"] has a value that is not blank (not empty
    once surrounding whitespace is removed), no [create_tags] call of
    the run writes that tag; when the tag is missing or blank and the
    instance is not at the downsize type yet, the first call of the
    run writes the current type into it; and when the instance is
    already at the downsize type the call returns not-processed with
    no record and leaves the world as it was: no call, no sleep, no
    clock read. *)
Theorem preferred_type_tag_is_preserved
    {py : Builtins} {env : Environment}
    (fuel : nat) (data : instance_data) (run_start_timestamp : string)
    (downsize_type : option string) (w : world) :
  (PyStr.nonempty (preferred_of (id_tags data)) = true ->
   Forall (quiet "PreferredInstanceType")
     (events_of (process_instance fuel data "scaledown" run_start_timestamp
                   downsize_type) w))
  /\ (PyStr.nonempty (preferred_of (id_tags data)) = false ->
      id_current_type data <> desired_downsize_type downsize_type ->
      exists rest,
        events_of (process_instance fuel data "scaledown" run_start_timestamp
                     downsize_type) w
        = Called (CreateTags (id_instance_id data)
                    [("PreferredInstanceType", id_current_type data)]) :: rest)
  /\ (id_current_type data = desired_downsize_type downsize_type ->
      process_instance fuel data "scaledown" run_start_timestamp downsize_type w
      = (Ok (false, None, None), w)).
Proof.
  unfold desired_downsize_type. split; [|split].
  - intros Hset. apply only_events_of.
    unfold process_instance. cbv zeta.
    change (String.eqb "scaledown" "scaledown") with true. cbv iota.
    destruct (String.eqb (id_current_type data) _); [apply only_ret|].
    rewrite Hset.
    apply only_bind; [apply only_ret|intros _].
    apply only_bind; [apply only_savings_block; reflexivity|intros savings].
    apply only_bind; [apply only_resize|intros _; apply only_ret].
  - intros Hblank Hdiffers.
    cut (exists rest,
           trace (snd (process_instance fuel data "scaledown" run_start_timestamp
                         downsize_type w))
           = trace w ++ Called (CreateTags (id_instance_id data)
                                  [("PreferredInstanceType", id_current_type data)])
                        :: rest).
    { intros (rest & Hrest). exists rest. now apply events_of_grows. }
    unfold process_instance. cbv zeta.
    change (String.eqb "scaledown" "scaledown") with true. cbv iota.
    destruct (String.eqb_spec (id_current_type data)
                (if Pricing.truthy downsize_type then default "" downsize_type
                 else get_downsize_type)); [contradiction|].
    rewrite Hblank.
    destruct (retry_invoke_first
                (CreateTags (id_instance_id data)
                   [("PreferredInstanceType", id_current_type data)]) w)
      as (rest0 & Hfirst).
    destruct (bind_first _ (fun _ => ret tt) (quiet "") w _ _ Hfirst
                (fun _ => only_ret _ _)) as (rest1 & Hsecond).
    eapply (bind_first _ _ (quiet "") w _ _ Hsecond).
    intros _.
    apply only_bind; [apply only_savings_block; reflexivity|intros savings].
    apply only_bind; [apply only_resize|intros _; apply only_ret].
  - intros Hsame. unfold process_instance. cbv zeta.
    change (String.eqb "scaledown" "scaledown") with true. cbv iota.
    rewrite Hsame, String.eqb_refl. reflexivity.
Qed.

(** The amended claim on an instance tagged
    [PreferredInstanceType = m5.xlarge]: the run calls the provider
    and writes no such tag. *)
Lemma preferred_type_tag_is_preserved_witness :
  Forall (quiet "PreferredInstanceType")
    (events_of (process_instance (py := Samples.builtins)
                  (env := Samples.quiet_environment) 3%nat
                  (Samples.data "m5.large" [("PreferredInstanceType", "m5.xlarge")])
                  "scaledown" "2024-01-02T06:00:00Z" None) initial_world).
Proof.
  apply (proj1 (preferred_type_tag_is_preserved (py := Samples.builtins)
                  (env := Samples.quiet_environment) 3%nat
                  (Samples.data "m5.large" [("PreferredInstanceType", "m5.xlarge")])
                  "2024-01-02T06:00:00Z" None initial_world)).
  reflexivity.
Defined.

(** C5.  When the scale-down metadata of an instance is unusable (the
    scale-down timestamp tag or the hourly-savings tag is missing,
    empty or unparsable, or the last scale-up timestamp recorded is at
    or after the scale-down timestamp), [build_actual_savings_snapshot]
    makes no record: it returns nothing, or fails on a timestamp that
    cannot be brought to UTC, and reads and writes nothing.  A
    scale-up of such an instance then writes no last-scale-up tag and
    returns no actual-savings record. *)
Theorem no_snapshot_without_usable_metadata
    {py : Builtins} {env : Environment}
    (fuel : nat) (data : instance_data) (run_start_timestamp : string)
    (downsize_type : option string) (w : world) :
  scale_down_metadata_unusable (id_tags data) ->
  (forall instance_id desired_type current_type w0,
     build_actual_savings_snapshot instance_id (id_tags data) desired_type
       current_type w0 = (Ok None, w0)
     \/ exists e,
          build_actual_savings_snapshot instance_id (id_tags data) desired_type
            current_type w0 = (Raise e, w0)
          /\ (parse_timestamp (Dict.get LAST_SCALE_DOWN_TIMESTAMP_TAG (id_tags data))
              = Raise e
              \/ parse_timestamp (Dict.get LAST_SCALE_UP_TIMESTAMP_TAG (id_tags data))
                 = Raise e))
  /\ Forall (quiet LAST_SCALE_UP_TIMESTAMP_TAG)
       (events_of (process_instance fuel data "scaleup" run_start_timestamp
                     downsize_type) w)
  /\ forall processed savings actual w',
       process_instance fuel data "scaleup" run_start_timestamp downsize_type w
       = (Ok (processed, savings, actual), w') ->
       actual = None.
Proof.
  intros Hunusable.
  assert (Hsnapshot : forall instance_id desired_type current_type w0,
            build_actual_savings_snapshot instance_id (id_tags data) desired_type
              current_type w0 = (Ok None, w0)
            \/ exists e,
                 build_actual_savings_snapshot instance_id (id_tags data)
                   desired_type current_type w0 = (Raise e, w0)).
  { intros instance_id desired_type current_type w0.
    destruct (snapshot_without_metadata instance_id (id_tags data) desired_type
                current_type w0 Hunusable) as [H|(e & H & _)]; eauto. }
  split; [|split].
  - intros. now apply snapshot_without_metadata.
  - apply only_events_of. unfold process_instance. cbv zeta.
    change (String.eqb "scaleup" "scaledown") with false.
    change (String.eqb "scaleup" "scaleup") with true. cbv iota.
    destruct (negb _); [apply only_ret|].
    destruct (String.eqb (id_current_type data) _); [apply only_ret|].
    apply only_bind; [apply only_resize|intros _].
    apply only_bind_none; [apply Hsnapshot|apply only_ret].
  - intros processed savings actual w'. unfold process_instance. cbv zeta.
    change (String.eqb "scaleup" "scaledown") with false.
    change (String.eqb "scaleup" "scaleup") with true. cbv iota.
    destruct (negb _); [now intros [= _ _ <- _]|].
    destruct (String.eqb (id_current_type data) _); [now intros [= _ _ <- _]|].
    intros E. apply SavingsPlanFacts.bind_ok in E as (u & w1 & _ & E).
    unfold bind in E.
    destruct (Hsnapshot (id_instance_id data) (preferred_of (id_tags data))
                (id_current_type data) w1) as [H|(e & H)];
      rewrite H in E; [|discriminate].
    unfold ret in E. now injection E as _ _ <- _.
Qed.

(** The theorem on a scale-up of an instance whose last scale-up
    (2024-01-02 06:00) is after its last scale-down (2024-01-01
    18:00): the instance is resized and no last-scale-up tag is
    written. *)
Lemma no_snapshot_without_usable_metadata_witness :
  Forall (quiet LAST_SCALE_UP_TIMESTAMP_TAG)
    (events_of (process_instance (py := Samples.builtins)
                  (env := Samples.environment [] (Samples.cooperative "m5.large"))
                  3%nat
                  (Samples.data "t3.medium"
                     [("PreferredInstanceType", "m5.large");
                      (LAST_SCALE_DOWN_TIMESTAMP_TAG, "2024-01-01T18:00:00+00:00");
                      (LAST_SCALE_DOWN_HOURLY_TAG, "0.1");
                      (LAST_SCALE_UP_TIMESTAMP_TAG, "2024-01-02T06:00:00+00:00")])
                  "scaleup" "2024-01-03T06:00:00Z" None) initial_world).
Proof.
  apply (no_snapshot_without_usable_metadata (py := Samples.builtins)
           (env := Samples.environment [] (Samples.cooperative "m5.large"))).
  right. right. right. right.
  exists (mk_datetime 738886 18 0 0 0), (mk_datetime 738887 6 0 0 0).
  repeat split; vm_compute; reflexivity.
Defined.

End LifecycleFacts.

(** * Properties of the configuration and of the batches *)

Module ConfigFacts.

Import Handler.

Lemma chunks_aux_step {A} fuel (x : A) (l : list A) size :
  (1 <= size)%nat ->
  chunks_aux (S fuel) (x :: l) size
  = take size (x :: l) :: chunks_aux fuel (drop size (x :: l)) size.
Proof. intros Hsize. destruct size; [lia|reflexivity]. Qed.

Lemma chunks_aux_shape {A} fuel (l : list A) size :
  (1 <= size)%nat -> (length l <= fuel)%nat ->
  Forall (fun batch => (1 <= length batch <= size)%nat) (chunks_aux fuel l size)
  /\ Forall (fun batch => length batch = size) (removelast (chunks_aux fuel l size)).
Proof.
  intros Hsize. revert l. induction fuel as [|fuel IH]; intros l Hlen.
  - split; constructor.
  - destruct l as [|x l]; [destruct size; [lia|split; constructor]|].
    rewrite chunks_aux_step by assumption.
    assert (Hrest : (length (drop size (x :: l)) <= fuel)%nat).
    { rewrite length_drop. simpl in *. lia. }
    destruct (IH _ Hrest) as [Hall Hfull]. split.
    + constructor; [|exact Hall]. rewrite length_take. simpl. lia.
    + destruct (chunks_aux fuel (drop size (x :: l)) size) as [|next rest] eqn:E;
        [constructor|].
      cbn [removelast]. constructor; [|exact Hfull].
      rewrite length_take. apply Nat.min_l.
      destruct (Nat.le_gt_cases size (length (x :: l))) as [|Hshort]; [assumption|].
      rewrite drop_ge in E by lia. destruct fuel; [discriminate|].
      cbn [chunks_aux] in E. now rewrite take_nil in E.
Qed.

(** X1.  [chunks] cuts a list into batches that put back together
    give the list: every batch has between 1 and [size] elements, and
    every batch but the last has exactly [size]. *)
Theorem chunks_partition {A} (l : list A) (size : nat) :
  (1 <= size)%nat ->
  List.concat (chunks l size) = l
  /\ Forall (fun batch => (1 <= length batch <= size)%nat) (chunks l size)
  /\ Forall (fun batch => length batch = size) (removelast (chunks l size)).
Proof.
  intros Hsize. split; [now apply HandlerFacts.chunks_concat|].
  now apply chunks_aux_shape.
Qed.

Lemma chunks_partition_witness :
  List.concat (chunks [1; 2; 3; 4; 5] 2) = [1; 2; 3; 4; 5]
  /\ Forall (fun batch => (1 <= length batch <= 2)%nat) (chunks [1; 2; 3; 4; 5] 2)
  /\ Forall (fun batch => length batch = 2%nat) (removelast (chunks [1; 2; 3; 4; 5] 2)).
Proof. apply (chunks_partition [1; 2; 3; 4; 5] 2). lia. Defined.

Section WithRuntime.
Context {py : Builtins} {env : Environment}.

Lemma parse_int_env_bounds var_name default lo hi :
  lo <= hi -> lo <= default <= hi ->
  lo <= parse_int_env var_name default (Some lo) (Some hi) <= hi.
Proof.
  intros Hbounds Hdefault. unfold parse_int_env.
  destruct (environ var_name) as [raw|]; [|lia].
  destruct (PyStr.int _) as [value|]; [|lia].
  destruct (Z.ltb_spec value lo); [destruct (Z.ltb_spec hi lo)|destruct (Z.ltb_spec hi value)]; lia.
Qed.

End WithRuntime.

(** X2.  Whatever the environment holds, the configuration read
    from it stays within its floors and ceilings: at least one
    instance per batch, at least one attempt per call, between 1 and
    20 concurrent operations, and a backoff that is never below 0.
    The backoff is a number that is at least 0, or positive infinity,
    or nan: [value < minimum] is false of nan, so the floor leaves a
    configured nan as it is. *)
Theorem configuration_within_bounds {py : Builtins} {env : Environment} :
  1 <= BATCH_SIZE
  /\ (1 <= batch_size)%nat
  /\ 1 <= MAX_RETRIES
  /\ Float.ltb BACKOFF_SECS (Finite 0) = false
  /\ match BACKOFF_SECS with
     | Finite seconds => (0 <= seconds)%Q
     | NaN => True
     | Infinity negative => negative = false
     end
  /\ match environ "BACKOFF_SECS" with
     | Some raw_value =>
         match python_float (PyStr.strip raw_value) with
         | Some NaN => BACKOFF_SECS = NaN
         | Some (Infinity true) => BACKOFF_SECS = Finite 0
         | Some (Infinity false) => BACKOFF_SECS = Infinity false
         | Some (Finite seconds) =>
             BACKOFF_SECS = Finite (if Qlt_le_dec seconds 0 then 0 else seconds)
         | None => BACKOFF_SECS = Finite 5
         end
     | None => BACKOFF_SECS = Finite 5
     end
  /\ 1 <= get_concurrency_limit <= 20.
Proof.
  split; [|split; [|split; [|split; [|split; [|split]]]]].
  - unfold BATCH_SIZE, parse_int_env.
    destruct (environ "BATCH_SIZE") as [raw|]; [|lia].
    destruct (PyStr.int _) as [value|]; [|lia].
    destruct (Z.ltb_spec value 1); lia.
  - apply HandlerFacts.batch_size_positive.
  - apply RetryFacts.MAX_RETRIES_positive.
  - apply RetryFacts.BACKOFF_SECS_floor.
  - pose proof RetryFacts.BACKOFF_SECS_floor as Hfloor.
    destruct BACKOFF_SECS as [seconds| |negative]; cbn [Float.ltb] in Hfloor.
    + now destruct (Qlt_le_dec seconds 0).
    + exact I.
    + exact Hfloor.
  - unfold BACKOFF_SECS, parse_float_env.
    destruct (environ "BACKOFF_SECS") as [raw_value|]; [|reflexivity].
    destruct (python_float _) as [[seconds| |[|]]|]; cbn [Float.ltb negb];
      try reflexivity.
    now destruct (Qlt_le_dec seconds 0).
  - unfold get_concurrency_limit.
    destruct (environ "MAX_CONCURRENT_OPERATIONS") as [raw|]; [|lia].
    destruct (PyStr.int _) as [value|]; [|lia].
    destruct (Z.ltb_spec value 1); [lia|]. destruct (Z.ltb_spec 20 value); lia.
Qed.

End ConfigFacts.

(** * Further properties of the schedule engine *)

Module ScheduleFacts.

Import Cron CronFacts.

Lemma cron_value_to_weekday_range token d :
  cron_value_to_weekday token = Ok d -> 0 <= d <= 6.
Proof.
  unfold cron_value_to_weekday. destruct (negb _); [discriminate|].
  destruct (Dict.get _ CRON_WEEKDAY_MAP) as [known|] eqn:E.
  - intros [= <-]. unfold CRON_WEEKDAY_MAP in E. cbn [Dict.get] in E.
    repeat match type of E with
           | (if ?b then _ else _) = _ => destruct b; [injection E as <-; lia|]
           end.
    discriminate.
  - destruct (PyStr.int token) as [numeric|]; [|discriminate].
    destruct (_ || _); [intros [= <-]; lia|].
    destruct (_ && _) eqn:Hrange; [|discriminate].
    intros [= <-]. apply andb_true_iff in Hrange as [H1 H2].
    apply Z.leb_le in H1, H2. lia.
Qed.

Lemma elem_of_add_all x values allowed :
  x ∈ add_all values allowed <-> x ∈ values \/ x ∈ allowed.
Proof.
  unfold add_all. revert allowed.
  induction values as [|v values IH]; intros allowed; cbn [foldl].
  - rewrite elem_of_nil. tauto.
  - rewrite IH, elem_of_cons, elem_of_union, elem_of_singleton. tauto.
Qed.

Lemma add_segment_weekdays allowed segment allowed' :
  weekdays allowed -> add_segment allowed segment = Ok allowed' -> weekdays allowed'.
Proof.
  intros Hallowed. unfold add_segment.
  destruct (negb _); [now intros [= <-]|].
  destruct (PyStr.contains_char _ _).
  - destruct (PyStr.split_once _ _) as [|start_token [|end_token [|]]]; try discriminate.
    intros E. apply rbind_ok in E as (start & Hstart & E).
    apply rbind_ok in E as (end_ & Hend & E).
    apply cron_value_to_weekday_range in Hstart, Hend.
    destruct (start <=? end_); injection E as <-; intros d Hd;
      apply elem_of_add_all in Hd as [Hd|Hd]; auto.
    + apply elem_of_range in Hd. lia.
    + apply elem_of_app in Hd as [Hd|Hd]; apply elem_of_range in Hd; lia.
  - intros E. apply rbind_ok in E as (v & Hv & E). injection E as <-.
    apply cron_value_to_weekday_range in Hv.
    intros d Hd. apply elem_of_union in Hd as [Hd|Hd]; auto.
    apply elem_of_singleton in Hd. lia.
Qed.

Lemma add_segments_weekdays segments allowed allowed' :
  weekdays allowed -> add_segments allowed segments = Ok allowed' -> weekdays allowed'.
Proof.
  revert allowed. induction segments as [|segment rest IH]; intros allowed Hallowed.
  - now intros [= <-].
  - cbn [add_segments]. intros E. apply rbind_ok in E as (mid & Hmid & E).
    eapply IH; [|exact E]. eapply add_segment_weekdays; eauto.
Qed.

Lemma parse_day_of_week_field_weekdays field days :
  parse_day_of_week_field field = Ok (Some days) -> weekdays days.
Proof.
  unfold parse_day_of_week_field. destruct (_ || _); [discriminate|].
  intros E. apply rbind_ok in E as (allowed & Hallowed & E). injection E as <-.
  eapply add_segments_weekdays; [|exact Hallowed]. intros d Hd. set_solver.
Qed.

Lemma parse_cron_expression_weekdays expr minute hour days :
  parse_cron_expression expr = Ok (minute, hour, Some days) -> weekdays days.
Proof.
  intros Hparse. unfold parse_cron_expression in Hparse.
  destruct (negb _); [discriminate|].
  destruct (cron_parts expr) as [|f1 [|f2 [|f3 [|f4 [|f5 [|f6 [|]]]]]]];
    try discriminate.
  apply rbind_ok in Hparse as (m & _ & Hparse).
  apply rbind_ok in Hparse as (h & _ & Hparse).
  repeat (destruct (negb _); [discriminate|]).
  apply rbind_ok in Hparse as (a & Ha & Hparse). injection Hparse as _ _ ->.
  now apply parse_day_of_week_field_weekdays in Ha.
Qed.

(** X3.  A schedule that [parse_cron_expression] accepts is well
    formed: the minute is in 0..59, the hour in 0..23 and every
    allowed weekday in 0..6 (Monday to Sunday), also for ranges that
    wrap around the week such as FRI-MON. *)
Theorem accepted_schedule_is_well_formed expr minute hour allowed :
  parse_cron_expression expr = Ok (minute, hour, allowed) ->
  0 <= minute <= 59 /\ 0 <= hour <= 23
  /\ forall days, allowed = Some days -> weekdays days.
Proof.
  intros Hparse.
  destruct (parse_cron_expression_range _ _ _ _ Hparse) as [Hm Hh].
  split; [exact Hm|]. split; [exact Hh|]. intros days ->.
  now apply parse_cron_expression_weekdays in Hparse.
Qed.

Lemma accepted_schedule_is_well_formed_witness :
  weekdays {[4; 5; 6; 0]}.
Proof.
  apply (accepted_schedule_is_well_formed "30 7 * * FRI-MON *" 30 7
           (Some {[4; 5; 6; 0]})); [vm_compute|]; reflexivity.
Defined.

Lemma tomorrow_is_later reference_time hour minute k :
  1 <= k -> dt_leb (candidate reference_time hour minute k) reference_time = false.
Proof.
  intros Hk. unfold dt_leb, dt_compare, candidate. cbn [ordinal].
  destruct (Z.compare_spec (ordinal reference_time + k) (ordinal reference_time));
    try lia; reflexivity.
Qed.

(** X4.  A schedule without weekday restriction always has a next
    occurrence, today at the scheduled time when that is still ahead
    of the reference instant and tomorrow otherwise (the two dates
    existing in the calendar). *)
Theorem unrestricted_schedule_runs_today_or_tomorrow
    expr minute hour reference_time :
  parse_cron_expression expr = Ok (minute, hour, None) ->
  representable reference_time 0 -> representable reference_time 1 ->
  get_next_scheduled_time expr reference_time
  = Ok (candidate reference_time hour minute
          (if dt_leb (candidate reference_time hour minute 0) reference_time
           then 1 else 0)).
Proof.
  intros Hparse H0 H1.
  destruct (parse_cron_expression_range _ _ _ _ Hparse) as [Hm Hh].
  unfold get_next_scheduled_time. rewrite Hparse. cbn [rbind].
  destruct (dt_leb (candidate reference_time hour minute 0) reference_time) eqn:E.
  - rewrite (range_cut 14 1) by lia. change (range 0 1) with [0].
    apply scan_complete; auto.
    + constructor; [|constructor]. split; [exact H0|]. unfold accepts. now rewrite E.
    + unfold accepts. now rewrite tomorrow_is_later by lia.
  - rewrite (range_cut 14 0) by lia. change (range 0 0) with (@nil Z).
    apply scan_complete; auto. unfold accepts. now rewrite E.
Qed.

Lemma unrestricted_schedule_runs_today_or_tomorrow_witness :
  get_next_scheduled_time "15 6 * * * *" (mk_datetime 738886 19 0 0 0)
  = Ok (mk_datetime 738887 6 15 0 0).
Proof.
  apply (unrestricted_schedule_runs_today_or_tomorrow "15 6 * * * *" 15 6
           (mk_datetime 738886 19 0 0 0)).
  - vm_compute. reflexivity.
  - unfold representable, MINORDINAL, MAXORDINAL. simpl. lia.
  - unfold representable, MINORDINAL, MAXORDINAL. simpl. lia.
Defined.

Lemma scan_succeeds hour minute allowed reference_time offsets :
  0 <= minute <= 59 -> 0 <= hour <= 23 ->
  Forall (representable reference_time) offsets ->
  Exists (fun k => accepts allowed reference_time
                     (candidate reference_time hour minute k) = true) offsets ->
  exists c, scan hour minute allowed reference_time offsets = Ok c.
Proof.
  intros Hm Hh Hall. induction Hall as [|k offsets Hk _ IH]; intros Hex.
  - inversion Hex.
  - cbn [scan]. rewrite candidate_at_representable by assumption. cbn [rbind].
    destruct (accepts allowed reference_time (candidate reference_time hour minute k))
      eqn:E; [eauto|].
    apply IH. inversion Hex; subst; [congruence|assumption].
Qed.

(** X5.  A schedule restricted to a set of weekdays that is not
    empty has its next occurrence within the coming week: the call
    returns the candidate of a day offset between 0 and 7, so the 14
    days scanned are never exhausted (the dates existing in the
    calendar). *)
Theorem restricted_schedule_runs_within_a_week
    expr minute hour days reference_time :
  parse_cron_expression expr = Ok (minute, hour, Some days) ->
  days <> ∅ ->
  (forall k, 0 <= k < 14 -> representable reference_time k) ->
  exists k, 0 <= k <= 7
    /\ get_next_scheduled_time expr reference_time
       = Ok (candidate reference_time hour minute k).
Proof.
  intros Hparse Hnonempty Hdates.
  destruct (parse_cron_expression_range _ _ _ _ Hparse) as [Hm Hh].
  pose proof (parse_cron_expression_weekdays _ _ _ _ Hparse) as Hdays.
  apply set_choose_L in Hnonempty as [d Hd]. pose proof (Hdays d Hd) as Hrange.
  set (today := weekday reference_time).
  assert (Htoday : 0 <= today <= 6).
  { unfold today, weekday. pose proof (Z.mod_pos_bound (ordinal reference_time + 6) 7). lia. }
  set (k0 := if d <=? today then d - today + 7 else d - today).
  assert (Hk0 : 1 <= k0 <= 7).
  { unfold k0. destruct (Z.leb_spec d today); lia. }
  assert (Hweekday : weekday (candidate reference_time hour minute k0) = d).
  { unfold weekday, candidate. cbn [ordinal].
    pose proof (Z.div_mod (ordinal reference_time + 6) 7 ltac:(lia)) as Hsplit.
    fold (weekday reference_time) in Hsplit. fold today in Hsplit.
    symmetry. unfold k0. destruct (Z.leb_spec d today).
    - apply (Z.mod_unique_pos _ 7 ((ordinal reference_time + 6) / 7 + 1)); lia.
    - apply (Z.mod_unique_pos _ 7 ((ordinal reference_time + 6) / 7)); lia. }
  assert (Haccepted : accepts (Some days) reference_time
                        (candidate reference_time hour minute k0) = true).
  { unfold accepts. rewrite tomorrow_is_later by lia. rewrite Hweekday.
    now rewrite bool_decide_eq_true_2. }
  assert (Hall : Forall (representable reference_time) (range 0 14)).
  { apply Forall_forall. intros j Hj. apply elem_of_range in Hj. now apply Hdates. }
  assert (Hex : Exists (fun k => accepts (Some days) reference_time
                                   (candidate reference_time hour minute k) = true)
                       (range 0 14)).
  { apply Exists_exists. exists k0. split; [apply elem_of_range; lia|exact Haccepted]. }
  destruct (scan_succeeds hour minute (Some days) reference_time _ Hm Hh Hall Hex)
    as [c Hscan].
  destruct (scan_sound _ _ _ _ _ _ Hscan)
    as (before & k & after & Hcut & -> & _ & _ & Hrefused).
  apply range_split in Hcut as [Hk Hbefore].
  exists k. split.
  - destruct (Z.le_gt_cases k k0) as [|Hlate]; [lia|].
    rewrite Forall_forall in Hrefused.
    destruct (Hrefused k0 (Hbefore k0 ltac:(lia))) as [_ Hno]. congruence.
  - unfold get_next_scheduled_time. rewrite Hparse. exact Hscan.
Qed.

Lemma restricted_schedule_runs_within_a_week_witness :
  exists k, 0 <= k <= 7
    /\ get_next_scheduled_time "0 18 * * SAT *" (mk_datetime 738886 19 0 0 0)
       = Ok (candidate (mk_datetime 738886 19 0 0 0) 18 0 k).
Proof.
  apply (restricted_schedule_runs_within_a_week "0 18 * * SAT *" 0 18 {[5]}).
  - vm_compute. reflexivity.
  - apply non_empty_singleton_L.
  - intros k Hk. unfold representable, MINORDINAL, MAXORDINAL. simpl. lia.
Defined.

End ScheduleFacts.

(** * Properties of the selection of instances *)

Module FleetFacts.

Import Lifecycle Handler.

Lemma mem_true x l : mem x l = true <-> x ∈ l.
Proof.
  unfold mem. induction l as [|y l IH]; cbn [existsb].
  - rewrite elem_of_nil. split; [discriminate|tauto].
  - rewrite orb_true_iff, IH, elem_of_cons.
    destruct (String.eqb_spec x y); split; intros [?|?]; auto; congruence.
Qed.

Lemma mem_false x l : mem x l = false <-> x ∉ l.
Proof.
  rewrite <- mem_true. destruct (mem x l); split; congruence.
Qed.

Lemma elem_of_map {A B} (f : A -> B) l y :
  y ∈ List.map f l <-> exists x, y = f x /\ x ∈ l.
Proof.
  rewrite list_elem_of_In, in_map_iff. split; intros (x & H1 & H2); exists x.
  - now rewrite list_elem_of_In.
  - now rewrite <- list_elem_of_In.
Qed.

Section WithRuntime.
Context {py : Builtins} {env : Environment} {pool : Executor}.

Lemma select_instances_invariant schedule_name instances :
  forall seen selected skipped selected' skipped',
    select_instances schedule_name instances seen selected skipped
    = (selected', skipped') ->
    (forall d, d ∈ selected -> id_instance_id d ∈ seen) ->
    NoDup (List.map id_instance_id selected) ->
    Forall (fun d => instance_matches_schedule (id_tags d) schedule_name = true)
           selected ->
    NoDup (List.map id_instance_id selected')
    /\ Forall (fun d => instance_matches_schedule (id_tags d) schedule_name = true)
              selected'
    /\ Forall (fun d => id_instance_id d ∈ seen
                        \/ id_instance_id d ∈ List.map di_InstanceId instances)
              selected'
    /\ skipped <= skipped'
    /\ Z.of_nat (length selected') + skipped'
       <= Z.of_nat (length selected) + skipped + Z.of_nat (length instances).
Proof.
  induction instances as [|inst rest IH];
    intros seen selected skipped selected' skipped' E Hseen Hnodup Hmatch.
  - injection E as <- <-. repeat split; auto; try lia.
    apply Forall_forall. intros d Hd. left. now apply Hseen.
  - cbn [select_instances] in E. cbv zeta in E.
    destruct (mem (di_InstanceId inst) seen) eqn:Hmem.
    + destruct (IH _ _ _ _ _ E Hseen Hnodup Hmatch) as (H1 & H2 & H3 & H4 & H5).
      repeat split; auto; [|cbn [length]; lia].
      eapply Forall_impl; [exact H3|]. cbn beta. intros d [?|?]; [now left|].
      right. cbn [List.map]. apply elem_of_cons; now right.
    + apply mem_false in Hmem.
      destruct (negb (instance_matches_schedule _ schedule_name)) eqn:Hsched.
      * assert (Hseen' : forall d, d ∈ selected ->
                           id_instance_id d ∈ di_InstanceId inst :: seen).
        { intros d Hd. apply elem_of_cons. right. now apply Hseen. }
        destruct (IH _ _ _ _ _ E Hseen' Hnodup Hmatch) as (H1 & H2 & H3 & H4 & H5).
        repeat split; auto; [|lia|cbn [length]; lia].
        eapply Forall_impl; [exact H3|]. cbn beta. cbn [List.map].
        intros d [Hd|Hd].
        -- apply elem_of_cons in Hd as [->|Hd]; [right; apply elem_of_cons; now left|now left].
        -- right. apply elem_of_cons; now right.
      * apply negb_false_iff in Hsched.
        match type of E with
        | select_instances _ _ _ (selected ++ [?d]) _ = _ => set (new := d) in *
        end.
        assert (Hseen' : forall d, d ∈ selected ++ [new] ->
                           id_instance_id d ∈ di_InstanceId inst :: seen).
        { intros d Hd. apply elem_of_app in Hd as [Hd|Hd].
          - apply elem_of_cons. right. now apply Hseen.
          - apply list_elem_of_singleton in Hd as ->. apply elem_of_cons. now left. }
        assert (Hnodup' : NoDup (List.map id_instance_id (selected ++ [new]))).
        { rewrite List.map_app. apply NoDup_app. split; [exact Hnodup|]. split.
          - intros x Hx Hnew. cbn in Hnew. apply list_elem_of_singleton in Hnew as ->.
            apply elem_of_map in Hx as (d & Hid & Hd).
            apply Hmem. rewrite Hid. now apply Hseen.
          - cbn. apply NoDup_singleton. }
        assert (Hmatch' : Forall (fun d => instance_matches_schedule (id_tags d)
                                             schedule_name = true)
                                 (selected ++ [new])).
        { apply Forall_app. split; [exact Hmatch|]. constructor; [exact Hsched|constructor]. }
        destruct (IH _ _ _ _ _ E Hseen' Hnodup' Hmatch') as (H1 & H2 & H3 & H4 & H5).
        repeat split; auto.
        -- eapply Forall_impl; [exact H3|]. cbn beta. cbn [List.map].
           intros d [Hd|Hd].
           ++ apply elem_of_cons in Hd as [->|Hd];
                [right; apply elem_of_cons; now left|now left].
           ++ right. apply elem_of_cons; now right.
        -- rewrite length_app in H5. cbn [length] in *. lia.
Qed.

End WithRuntime.

(** X6.  The instances that the handler queues for a schedule: no
    instance id is queued twice, every queued instance belongs to the
    requested schedule and comes from the enumeration, and the queued
    and the skipped together are never more than the instances
    enumerated. *)
Theorem queued_instances_are_distinct
    {py : Builtins} {env : Environment}
    (schedule_name : string) (instances : list described_instance) :
  let queued := fst (select_instances schedule_name instances [] [] 0) in
  let skipped := snd (select_instances schedule_name instances [] [] 0) in
  NoDup (List.map id_instance_id queued)
  /\ Forall (fun d => instance_matches_schedule (id_tags d) schedule_name = true
                      /\ id_instance_id d ∈ List.map di_InstanceId instances)
            queued
  /\ 0 <= skipped
  /\ Z.of_nat (length queued) + skipped <= Z.of_nat (length instances).
Proof.
  intros queued skipped.
  destruct (select_instances_invariant schedule_name instances [] [] 0
              queued skipped) as (H1 & H2 & H3 & H4 & H5).
  - unfold queued, skipped. now destruct (select_instances _ _ _ _ _).
  - intros d Hd. now apply elem_of_nil in Hd.
  - constructor.
  - constructor.
  - split; [exact H1|]. split; [|split; [exact H4|cbn [length] in H5; lia]].
    rewrite Forall_forall in H2, H3. apply Forall_forall. intros d Hd. split; [auto|].
    destruct (H3 d Hd) as [Hnil|?]; [now apply elem_of_nil in Hnil|assumption].
Qed.

Lemma schedule_entries (raw_value name : string) :
  name ∈ parse_schedule_tag_value raw_value
  <-> name <> ""
      /\ exists segment,
           segment ∈ PyStr.split_on "," raw_value
           /\ PyStr.lower (PyStr.strip segment) = name.
Proof.
  unfold parse_schedule_tag_value. destruct raw_value as [|c rest]; cbn [PyStr.nonempty negb].
  - rewrite elem_of_nil. split; [tauto|]. intros (Hname & segment & Hin & Hentry).
    cbn [PyStr.split_on] in Hin. apply list_elem_of_singleton in Hin as ->.
    apply Hname. rewrite <- Hentry. reflexivity.
  - rewrite list_elem_of_In, filter_In, in_map_iff. split.
    + intros [(segment & Hentry & Hin) Hname]. split; [now destruct name|].
      exists segment. now rewrite list_elem_of_In.
    + intros (Hname & segment & Hin & Hentry). split; [|now destruct name].
      exists segment. now rewrite <- list_elem_of_In.
Qed.

Lemma no_schedule_entries (raw_value : string) :
  parse_schedule_tag_value raw_value = []
  <-> forall segment,
        segment ∈ PyStr.split_on "," raw_value ->
        PyStr.lower (PyStr.strip segment) = "".
Proof.
  split.
  - intros Hnil segment Hin.
    destruct (string_dec (PyStr.lower (PyStr.strip segment)) "") as [|Hentry];
      [assumption|].
    assert (Hmember : PyStr.lower (PyStr.strip segment)
                      ∈ parse_schedule_tag_value raw_value)
      by (apply schedule_entries; eauto).
    rewrite Hnil in Hmember. now apply elem_of_nil in Hmember.
  - intros Hblank. destruct (parse_schedule_tag_value raw_value) as [|name rest] eqn:E;
      [reflexivity|].
    assert (Hmember : name ∈ parse_schedule_tag_value raw_value)
      by (rewrite E; apply elem_of_cons; now left).
    apply schedule_entries in Hmember as (Hname & segment & Hin & Hentry).
    rewrite (Hblank segment Hin) in Hentry. congruence.
Qed.

Section WithRuntime.
Context {py : Builtins} {env : Environment}.

Lemma matches_by_tokens (tags : list (string * string)) (schedule_name : string) :
  let tokens :=
    parse_schedule_tag_value (default "" (get_tag_value tags get_schedule_tag_key)) in
  instance_matches_schedule tags schedule_name = true
  <-> schedule_name = "all"
      \/ (tokens = [] /\ schedule_name = "default")
      \/ (tokens <> [] /\ ("all" ∈ tokens \/ schedule_name ∈ tokens)).
Proof.
  intros tokens. unfold instance_matches_schedule.
  unfold SCHEDULE_ALL_TOKEN, DEFAULT_SCHEDULE_NAME.
  destruct (String.eqb_spec schedule_name "all") as [->|Hall]; [tauto|].
  assert (Hblank : Pricing.truthy (get_tag_value tags get_schedule_tag_key) = false ->
                   tokens = []).
  { unfold tokens. destruct (get_tag_value tags get_schedule_tag_key) as [v|];
      [|reflexivity].
    change (default "" (Some v)) with v. cbn [Pricing.truthy].
    unfold parse_schedule_tag_value. now intros ->. }
  destruct (Pricing.truthy (get_tag_value tags get_schedule_tag_key)) eqn:Htruthy;
    cbn [negb].
  - fold tokens. destruct tokens as [|token rest] eqn:Etokens.
    + rewrite String.eqb_eq. split; [intros ->; right; left; auto|].
      intros [?|[[_ ?]|[? _]]]; congruence.
    + rewrite <- Etokens.
      assert (Hne : tokens <> []) by (unfold tokens in *; congruence).
      clear Etokens. unfold tokens in *.
      destruct (mem "all" _) eqn:Hmem.
      * apply mem_true in Hmem. split; [intros _|reflexivity]. right. right. auto.
      * apply mem_false in Hmem. rewrite mem_true. split.
        -- intros Hin. right. right. auto.
        -- intros [?|[[? _]|[_ [?|?]]]]; try contradiction; auto.
  - specialize (Hblank eq_refl).
    rewrite String.eqb_eq, Hblank. split; [intros ->; right; left; auto|].
    intros [?|[[_ ?]|[? _]]]; congruence.
Qed.

End WithRuntime.

(** X7.  Which schedules an instance belongs to.  The schedule tag
    of the instance (looked up under the configured key, empty when
    missing) is cut at its commas, and each segment, stripped of
    surrounding blanks and lower-cased, is an entry unless it is
    empty.  The schedule ["all"] takes every instance; an instance
    whose segments are all blank belongs to ["default"] and to no
    other named schedule; an instance with an entry belongs to the
    schedules its entries name, and to every schedule when an entry
    is ["all"]. *)
Theorem schedule_membership {env : Environment}
    (tags : list (string * string)) (schedule_name : string) :
  let raw_value := default "" (get_tag_value tags get_schedule_tag_key) in
  let segments := PyStr.split_on "," raw_value in
  let entry := fun segment => PyStr.lower (PyStr.strip segment) in
  (forall name,
     name ∈ parse_schedule_tag_value raw_value
     <-> name <> "" /\ exists segment, segment ∈ segments /\ entry segment = name)
  /\ (instance_matches_schedule tags schedule_name = true
      <-> schedule_name = "all"
          \/ (schedule_name = "default"
              /\ forall segment, segment ∈ segments -> entry segment = "")
          \/ (exists segment,
                segment ∈ segments
                /\ entry segment <> ""
                /\ (entry segment = "all" \/ entry segment = schedule_name))).
Proof.
  intros raw_value segments entry. split; [apply schedule_entries|].
  rewrite matches_by_tokens. fold raw_value.
  rewrite (no_schedule_entries raw_value). fold segments.
  split; (intros [Hall|[Hdefault|Hnamed]]; [now left| |]).
  - right. left. tauto.
  - destruct Hnamed as [_ [Hin|Hin]];
      apply schedule_entries in Hin as (Hname & segment & Hin & Hentry);
      right; right; exists segment; fold segments in Hin; unfold entry;
      rewrite Hentry; auto.
  - right. left. tauto.
  - destruct Hnamed as (segment & Hin & Hentry & Hnames). right. right.
    assert (Hmember : entry segment ∈ parse_schedule_tag_value raw_value)
      by (apply schedule_entries; eauto).
    split.
    + intros Hblank. apply Hentry. now apply Hblank.
    + destruct Hnames as [Heq|Heq]; rewrite Heq in Hmember; auto.
Qed.

(** An instance tagged [" Night , Weekend ,"] under a key that
    differs from the configured one in case belongs to the schedule
    ["weekend"]. *)
Lemma schedule_membership_witness :
  instance_matches_schedule
    (env := Samples.environment [] (Samples.cooperative "t3.medium"))
    [("Name", "db-1"); ("dynamicscalingschedule", " Night , Weekend ,")] "weekend"
  = true.
Proof.
  apply (proj2 (proj2 (schedule_membership
                  (env := Samples.environment [] (Samples.cooperative "t3.medium"))
                  [("Name", "db-1"); ("dynamicscalingschedule", " Night , Weekend ,")]
                  "weekend"))).
  right. right. exists " Weekend ". split; [|split].
  - vm_compute. apply elem_of_cons. right. apply elem_of_cons. now left.
  - vm_compute. discriminate.
  - right. reflexivity.
Defined.

End FleetFacts.

(** * Further properties of the pricing resolution *)

Module CatalogFacts.

Import Pricing Observed.

Lemma remove_filter_keeps filters field_name f :
  f ∈ filters -> Field f <> field_name -> f ∈ remove_filter filters field_name.
Proof.
  intros Hin Hfield. unfold remove_filter.
  rewrite list_elem_of_In. apply filter_In. split; [now rewrite <- list_elem_of_In|].
  now destruct (String.eqb_spec (Field f) field_name).
Qed.

Lemma update_filter_keeps filters field_name value f :
  f ∈ filters -> Field f <> field_name -> f ∈ update_filter filters field_name value.
Proof.
  intros Hin Hfield. unfold update_filter.
  rewrite list_elem_of_In. apply in_map_iff. exists f.
  split; [|now rewrite <- list_elem_of_In].
  now destruct (String.eqb_spec (Field f) field_name).
Qed.

Lemma unique_from_subset seen variants v :
  v ∈ unique_from seen variants -> v ∈ variants.
Proof.
  revert seen. induction variants as [|candidate rest IH]; intros seen; cbn [unique_from].
  - auto.
  - cbv zeta. destruct (existsb _ seen).
    + intros Hv. apply elem_of_cons. right. eauto.
    + intros Hv. apply elem_of_cons in Hv as [->|Hv]; apply elem_of_cons; eauto.
Qed.

Lemma remove_filter_subset filters field_name f :
  f ∈ remove_filter filters field_name -> f ∈ filters.
Proof.
  unfold remove_filter. rewrite !list_elem_of_In, filter_In. tauto.
Qed.

Lemma update_filter_origin filters field_name value f :
  f ∈ update_filter filters field_name value ->
  f ∈ filters \/ f = mk_filter field_name value.
Proof.
  unfold update_filter. rewrite !list_elem_of_In, in_map_iff.
  intros (f0 & Heq & Hin). destruct (String.eqb_spec (Field f0) field_name) as [Hfield|_].
  - right. now rewrite <- Heq, Hfield.
  - left. now rewrite <- Heq.
Qed.

(** Every variant keeps the filters of the full set that are neither
    on the license model nor on the pre-installed software. *)
Lemma variant_keeps instance_type location pricing_filters filters_to_use f :
  filters_to_use ∈ filter_variants instance_type location pricing_filters ->
  f ∈ build_filters instance_type location pricing_filters ->
  Field f <> "licenseModel" -> Field f <> "preInstalledSw" ->
  f ∈ filters_to_use.
Proof.
  intros Hin Hbase Hlicense Hsoftware.
  unfold filter_variants in Hin. cbv zeta in Hin.
  repeat (apply elem_of_app in Hin as [Hin|Hin]);
    repeat match type of Hin with
           | _ ∈ (if ?b then _ else _) => destruct b
           | _ ∈ _ ++ _ => apply elem_of_app in Hin as [Hin|Hin]
           | _ ∈ [_] => apply list_elem_of_singleton in Hin as ->
           | _ ∈ [] => now apply elem_of_nil in Hin
           end;
    auto using remove_filter_keeps, update_filter_keeps.
Qed.

(** A variant holds no filter of its own, but for the license model
    that replaces ["License Included"]. *)
Lemma variant_origin instance_type location pricing_filters filters_to_use f :
  filters_to_use ∈ filter_variants instance_type location pricing_filters ->
  f ∈ filters_to_use ->
  f ∈ build_filters instance_type location pricing_filters
  \/ (f = mk_filter "licenseModel" "No License required"
      /\ pricing_filters !! "licenseModel" = Some "License Included").
Proof.
  intros Hin Hf.
  unfold filter_variants in Hin. cbv zeta in Hin.
  repeat (apply elem_of_app in Hin as [Hin|Hin]);
    repeat match type of Hin with
           | _ ∈ (if bool_decide ?P then _ else _) => destruct (bool_decide_reflect P)
           | _ ∈ (if ?b then _ else _) => destruct b
           | _ ∈ _ ++ _ => apply elem_of_app in Hin as [Hin|Hin]
           | _ ∈ [_] => apply list_elem_of_singleton in Hin as ->
           | _ ∈ [] => now apply elem_of_nil in Hin
           end;
    repeat match type of Hf with
           | _ ∈ remove_filter _ _ => apply remove_filter_subset in Hf
           end;
    auto.
  apply update_filter_origin in Hf as [?|?]; auto.
Qed.

Lemma base_filters_fixed instance_type location pricing_filters f :
  f ∈ [mk_filter "instanceType" instance_type; mk_filter "location" location;
       mk_filter "tenancy" "Shared"; mk_filter "capacitystatus" "Used"] ->
  f ∈ build_filters instance_type location pricing_filters
  /\ Field f <> "licenseModel" /\ Field f <> "preInstalledSw".
Proof.
  intros Hf. unfold build_filters.
  repeat (apply elem_of_cons in Hf as [->|Hf]);
    try (now apply elem_of_nil in Hf);
    (split; [|split; discriminate]).
  - apply elem_of_app. left. apply elem_of_cons. now left.
  - apply elem_of_app. left. apply elem_of_cons. right. apply elem_of_cons. now left.
  - apply elem_of_app. right. apply elem_of_app. right. apply elem_of_cons. now left.
  - apply elem_of_app. right. apply elem_of_app. right.
    apply elem_of_cons. right. apply elem_of_cons. now left.
Qed.

Lemma base_filters_operating_system instance_type location pricing_filters os :
  pricing_filters !! "operatingSystem" = Some os -> os <> "" ->
  mk_filter "operatingSystem" os ∈ build_filters instance_type location pricing_filters.
Proof.
  intros Hos Hnonempty. unfold build_filters.
  apply elem_of_app. right. apply elem_of_app. left. apply elem_of_app. left.
  unfold attribute_filter. rewrite Hos.
  destruct os; [congruence|]. cbn [PyStr.nonempty]. apply elem_of_cons. now left.
Qed.

(** X8.  The filter variants that a price lookup tries, in order.
    The first one is the full filter set of the requested profile,
    and every variant still selects the requested instance type and
    location with shared tenancy and used capacity.  Only the license
    model and the pre-installed software are ever relaxed: a variant
    keeps every filter of the full set on another field, the
    operating system among them, and holds no filter that the full
    set has not, except the license model ["No License required"]
    that stands in for ["License Included"]. *)
Theorem variants_keep_instance_and_location
    (instance_type location : string) (pricing_filters : gmap string string) :
  (exists rest,
     unique_variants instance_type location pricing_filters
     = build_filters instance_type location pricing_filters :: rest)
  /\ forall filters_to_use,
       filters_to_use ∈ unique_variants instance_type location pricing_filters ->
       (mk_filter "instanceType" instance_type ∈ filters_to_use
        /\ mk_filter "location" location ∈ filters_to_use
        /\ mk_filter "tenancy" "Shared" ∈ filters_to_use
        /\ mk_filter "capacitystatus" "Used" ∈ filters_to_use)
       /\ (forall os,
             pricing_filters !! "operatingSystem" = Some os -> os <> "" ->
             mk_filter "operatingSystem" os ∈ filters_to_use)
       /\ (forall f,
             f ∈ build_filters instance_type location pricing_filters ->
             Field f <> "licenseModel" -> Field f <> "preInstalledSw" ->
             f ∈ filters_to_use)
       /\ (forall f,
             f ∈ filters_to_use ->
             f ∈ build_filters instance_type location pricing_filters
             \/ (f = mk_filter "licenseModel" "No License required"
                 /\ pricing_filters !! "licenseModel" = Some "License Included")).
Proof.
  split.
  - unfold unique_variants, filter_variants. cbv zeta. cbn [app unique_from existsb].
    eauto.
  - intros filters_to_use Hin. apply unique_from_subset in Hin.
    assert (Hall : forall f,
              f ∈ [mk_filter "instanceType" instance_type; mk_filter "location" location;
                   mk_filter "tenancy" "Shared"; mk_filter "capacitystatus" "Used"] ->
              f ∈ filters_to_use).
    { intros f Hf.
      destruct (base_filters_fixed instance_type location pricing_filters f Hf)
        as (Hbase & Hlicense & Hsoftware).
      eauto using variant_keeps. }
    split; [|split; [|split]].
    + repeat split; apply Hall; repeat first [apply elem_of_cons; now left
                                             | apply elem_of_cons; right].
    + intros os Hos Hnonempty.
      eapply variant_keeps; [exact Hin| |discriminate|discriminate].
      now apply base_filters_operating_system.
    + intros f. now apply variant_keeps.
    + intros f. now apply variant_origin.
Qed.

(** A Windows profile with the license included: the variant without
    the license model still selects the instance type and the
    operating system. *)
Lemma variants_keep_instance_and_location_witness :
  let relaxed :=
    remove_filter (build_filters "m5.large" "US East (N. Virginia)"
                     (profile "Windows" "NA" "License Included")) "licenseModel" in
  mk_filter "instanceType" "m5.large" ∈ relaxed
  /\ mk_filter "operatingSystem" "Windows" ∈ relaxed.
Proof.
  intros relaxed.
  assert (Hvariant : relaxed ∈ unique_variants "m5.large" "US East (N. Virginia)"
                                 (profile "Windows" "NA" "License Included")).
  { vm_compute. apply elem_of_cons. right. apply elem_of_cons. right.
    apply elem_of_cons. now left. }
  destruct (proj2 (variants_keep_instance_and_location "m5.large"
                     "US East (N. Virginia)"
                     (profile "Windows" "NA" "License Included")) relaxed Hvariant)
    as ((Htype & _) & Hos & _).
  split; [exact Htype|]. apply (Hos "Windows"); [reflexivity|discriminate].
Defined.

(** X9.  Price lookups are memoised.  After a lookup has returned a
    rate, the same lookup returns the same rate again and leaves the
    world as it is: no further catalog query is made. *)
Theorem hourly_rate_is_memoised
    {py : Builtins} {env : Environment}
    (instance_type : string) (pricing_filters : gmap string string)
    (w w' : world) (rate : pyfloat) :
  get_hourly_rate instance_type pricing_filters w = (Ok rate, w') ->
  get_hourly_rate instance_type pricing_filters w' = (Ok rate, w')
  /\ events_of (get_hourly_rate instance_type pricing_filters) w' = [].
Proof.
  intros E.
  assert (Hagain : get_hourly_rate instance_type pricing_filters w' = (Ok rate, w')).
  { revert E. unfold get_hourly_rate.
    destruct (PRICE_CACHE w !! _) as [cached|] eqn:Hcache.
    - intros [= <- <-]. now rewrite Hcache.
    - destruct (_ || _) eqn:Hknown.
      + intros [= <- <-]. now rewrite Hcache.
      + intros E.
        apply PricingFacts.try_variants_caches in E as (before & found & rest & _ & ->).
        cbn [PRICE_CACHE]. now rewrite lookup_insert_eq. }
  split; [exact Hagain|].
  unfold events_of. rewrite Hagain. cbn [snd]. now rewrite drop_all.
Qed.

Lemma hourly_rate_is_memoised_witness :
  let w' := snd (get_hourly_rate (py := Samples.builtins)
                   (env := Samples.quiet_environment)
                   "m5.large" (profile "Windows" "NA" "License Included")
                   initial_world) in
  events_of (get_hourly_rate (py := Samples.builtins)
               (env := Samples.quiet_environment)
               "m5.large" (profile "Windows" "NA" "License Included")) w' = [].
Proof.
  intros w'.
  apply (proj2 (hourly_rate_is_memoised (py := Samples.builtins)
                  (env := Samples.quiet_environment)
                  "m5.large" (profile "Windows" "NA" "License Included")
                  initial_world w' (Finite (24 # 125)) ltac:(vm_compute; reflexivity))).
Defined.

(** X10.  When the region cannot be determined, or has no entry in
    the table of locations, a price lookup that finds nothing in the
    cache returns the rate 0 without querying the catalog and without
    caching anything. *)
Theorem unknown_region_is_priced_at_zero
    {py : Builtins} {env : Environment}
    (instance_type : string) (pricing_filters : gmap string string) (w : world) :
  PRICE_CACHE w !! build_pricing_cache_key instance_type pricing_filters = None ->
  get_region = "unknown" \/ get_location get_region = "Unknown" ->
  get_hourly_rate instance_type pricing_filters w = (Ok (Finite 0), w).
Proof.
  intros Hmiss Hunknown. unfold get_hourly_rate. rewrite Hmiss.
  destruct Hunknown as [-> | ->]; [reflexivity|].
  now rewrite String.eqb_refl, orb_true_r.
Qed.

Lemma unknown_region_is_priced_at_zero_witness :
  get_hourly_rate (py := Samples.builtins)
    (env := {| environ := fun _ => None; session_region_name := Some "mars-north-1";
               respond := fun _ _ => Done; time_time := fun _ => 0%Q;
               utcnow := fun _ => mk_datetime 738887 6 0 0 0;
               today := fun _ => 738887 |})
    "m5.large" (profile "Linux" "NA" "No License required") initial_world
  = (Ok (Finite 0), initial_world).
Proof.
  apply unknown_region_is_priced_at_zero; [reflexivity|right; reflexivity].
Defined.

Lemma profile_fields os sw license :
  profile os sw license !! "operatingSystem" = Some os
  /\ profile os sw license !! "preInstalledSw" = Some sw
  /\ profile os sw license !! "licenseModel" = Some license.
Proof.
  unfold profile. split; [|split]; reflexivity.
Qed.

(** X11.  The pricing profile of an instance, whether taken from a
    platform rule or from the defaults, always has an operating
    system, a pre-installed software and a license model, so the
    savings record of a scale-down can always be filled in. *)
Theorem pricing_profile_is_complete
    {py : Builtins} {env : Environment} (inst : instance) :
  let pricing_filters := fst (get_instance_pricing_profile inst) in
  is_Some (pricing_filters !! "operatingSystem")
  /\ is_Some (pricing_filters !! "preInstalledSw")
  /\ is_Some (pricing_filters !! "licenseModel").
Proof.
  cbv zeta. unfold get_instance_pricing_profile.
  assert (Hrule : forall normalized filters,
            match_rule normalized PLATFORM_FILTER_RULES = Some filters ->
            exists os sw license, filters = profile os sw license).
  { intros normalized filters. unfold PLATFORM_FILTER_RULES. cbn [match_rule].
    repeat (destruct (PyStr.contains _ normalized); [intros [= <-]; eauto|]).
    discriminate. }
  generalize [PlatformDetails inst; Platform inst; UsageOperation inst].
  intros candidates. induction candidates as [|platform_text rest IH]; cbn [profile_from].
  - cbn [fst]. unfold DEFAULT_PRICING_FILTERS.
    destruct (profile_fields
                (default "Linux" (environ "DEFAULT_PRICING_OPERATING_SYSTEM"))
                (default "NA" (environ "DEFAULT_PRICING_PREINSTALLED_SOFTWARE"))
                (default "No License required" (environ "DEFAULT_PRICING_LICENSE_MODEL")))
      as (-> & -> & ->). eauto.
  - cbv zeta. destruct (negb _); [exact IH|].
    destruct (match_rule _ PLATFORM_FILTER_RULES) as [filters|] eqn:E; [|exact IH].
    apply Hrule in E as (os & sw & license & ->). cbn [fst].
    destruct (profile_fields os sw license) as (-> & -> & ->). eauto.
Qed.

End CatalogFacts.

(** * Further properties of the savings-plan factor *)

Module DiscountFacts.

Import SavingsPlan SavingsPlanFacts Observed.

(** X12.  The savings-plan factor is computed once.  After a call
    has returned a factor, every later call returns that factor and
    leaves the world as it is: the configuration is not read again
    and Cost Explorer is not queried again. *)
Theorem savings_plan_factor_is_computed_once
    {py : Builtins} {env : Environment} (fuel fuel' : nat) (w w' : world) (factor : pyfloat) :
  get_savings_plan_factor fuel w = (Ok factor, w') ->
  get_savings_plan_factor fuel' w' = (Ok factor, w')
  /\ events_of (get_savings_plan_factor fuel') w' = [].
Proof.
  intros E.
  assert (Hstored : SAVINGS_PLAN_FACTOR w' = Some factor).
  { revert E. unfold get_savings_plan_factor.
    destruct (SAVINGS_PLAN_FACTOR w) as [known|] eqn:Hknown.
    - now intros [= <- <-].
    - destruct (String.eqb _ "coverage").
      + unfold try_except.
        match goal with
        | |- context [bind ?m ?k w] => destruct (bind m k w) as [[f|e|] w1] eqn:E
        end.
        * intros [= <- <-]. apply bind_ok in E as (f0 & w0 & _ & E).
          unfold bind, set_factor, ret in E. now injection E as <- <-.
        * intros E'. now apply manual_branch in E' as [_ ->].
        * discriminate.
      + intros E'. now apply manual_branch in E' as [_ ->]. }
  assert (Hagain : get_savings_plan_factor fuel' w' = (Ok factor, w')).
  { unfold get_savings_plan_factor. now rewrite Hstored. }
  split; [exact Hagain|].
  unfold events_of. rewrite Hagain. cbn [snd]. now rewrite drop_all.
Qed.

Lemma savings_plan_factor_is_computed_once_witness :
  let w' := snd (get_savings_plan_factor (py := Samples.builtins)
                   (env := Samples.environment
                             [("SAVINGS_PLAN_DISCOUNT_PERCENT", "25")]
                             (Samples.cooperative "t3.medium"))
                   0%nat initial_world) in
  get_savings_plan_factor (py := Samples.builtins)
    (env := Samples.environment [("SAVINGS_PLAN_DISCOUNT_PERCENT", "25")]
              (Samples.cooperative "t3.medium"))
    1%nat w'
  = (Ok (Finite (1 - 25 / 100)), w').
Proof.
  intros w'.
  apply (proj1 (savings_plan_factor_is_computed_once (py := Samples.builtins)
                  (env := Samples.environment
                            [("SAVINGS_PLAN_DISCOUNT_PERCENT", "25")]
                            (Samples.cooperative "t3.medium"))
                  0%nat 1%nat initial_world w' (Finite (1 - 25 / 100)) eq_refl)).
Defined.

(** X13.  In coverage mode, a failure while the coverage data is
    retrieved or evaluated is not raised: the factor is then the
    manual one, computed from the configured percentage and labelled
    ["manual"], and only a bad manual percentage makes the call
    fail. *)
Theorem coverage_failure_falls_back_to_manual
    {py : Builtins} {env : Environment} (fuel : nat) (w w1 : world) (e : exn) :
  SAVINGS_PLAN_FACTOR w = None ->
  PyStr.lower (PyStr.strip (default "Manual" (environ "SAVINGS_PLAN_DISCOUNT_MODE")))
  = "coverage" ->
  get_coverage_discount_factor fuel w = (Raise e, w1) ->
  get_savings_plan_factor fuel w
  = match get_manual_discount_factor with
    | Ok factor =>
        (Ok factor,
         mk_world (trace w1) (PRICE_CACHE w1) (Some factor) (Some "manual"))
    | Raise e' => (Raise e', w1)
    | OutOfFuel => (OutOfFuel, w1)
    end.
Proof.
  intros Hnone Hmode Hcoverage. unfold get_savings_plan_factor.
  rewrite Hnone, Hmode. change (String.eqb "coverage" "coverage") with true. cbv iota.
  unfold try_except, bind at 1. rewrite Hcoverage.
  unfold bind, lift, set_factor, ret.
  destruct get_manual_discount_factor; reflexivity.
Qed.

Lemma coverage_failure_falls_back_to_manual_witness :
  fst (get_savings_plan_factor (py := Samples.builtins)
         (env := Samples.environment
                   [("SAVINGS_PLAN_DISCOUNT_MODE", "Coverage");
                    ("SAVINGS_PLAN_DISCOUNT_PERCENT", "25")]
                   Samples.always_throttled)
         1%nat initial_world)
  = Ok (Finite (1 - 25 / 100)).
Proof.
  rewrite (coverage_failure_falls_back_to_manual (py := Samples.builtins)
             (env := Samples.environment
                       [("SAVINGS_PLAN_DISCOUNT_MODE", "Coverage");
                        ("SAVINGS_PLAN_DISCOUNT_PERCENT", "25")]
                       Samples.always_throttled)
             1%nat initial_world
             (after initial_world
                [ReadClock;
                 Called (GetSavingsPlansCoverage 738857 738887 None)])
             (ClientError "RequestLimitExceeded") eq_refl eq_refl eq_refl).
  reflexivity.
Defined.

End DiscountFacts.

(** * Properties of the savings figures *)

Module SavingsFacts.

Import Lifecycle Observed.









End SavingsFacts.

(** * What a task may do *)

Module TaskFacts.

Import Lifecycle Observed TraceFacts.

Section Safe.
Context {py : Builtins} {env : Environment}.
Variable P : event -> Prop.
Hypothesis P_sleep : forall seconds, P (Slept seconds).
Hypothesis P_clock : P ReadClock.
Hypothesis P_products : forall filters, P (Called (GetProducts filters)).
Hypothesis P_coverage :
  forall start_date end_date token,
    P (Called (GetSavingsPlansCoverage start_date end_date token)).

Lemma safe_try_variants cache_key variants :
  only P (Pricing.try_variants cache_key variants).
Proof.
  induction variants as [|filters_to_use rest IH]; cbn [Pricing.try_variants].
  - apply only_raise.
  - apply only_bind.
    + unfold Pricing.try_filters. apply only_bind; [now apply only_invoke|].
      intros answer. destruct answer as [| | |[|[|[|]] ?]|]; 
        first [apply only_ret | apply only_raise | apply only_lift].
    + intros [price|]; [|exact IH].
      apply only_bind; [now apply only_unchanged|]. intros _. apply only_ret.
Qed.

Lemma safe_get_hourly_rate instance_type pricing_filters :
  only P (Pricing.get_hourly_rate instance_type pricing_filters).
Proof.
  intros w. unfold Pricing.get_hourly_rate.
  destruct (PRICE_CACHE w !! _); [exists []; cbn; now rewrite app_nil_r|].
  destruct (_ || _); [exists []; cbn; now rewrite app_nil_r|].
  apply safe_try_variants.
Qed.

Lemma safe_coverage_pages fuel start_date end_date next_token totals :
  only P (SavingsPlan.coverage_pages fuel start_date end_date next_token totals).
Proof.
  revert next_token totals.
  induction fuel as [|fuel IH]; intros next_token totals; cbn [SavingsPlan.coverage_pages].
  - apply only_lift.
  - apply only_bind; [now apply only_invoke|]. intros answer.
    destruct answer; try destruct (Pricing.truthy _); try apply IH; apply only_ret.
Qed.

Lemma safe_get_savings_plan_factor fuel :
  only P (SavingsPlan.get_savings_plan_factor fuel).
Proof.
  assert (Hmanual : only P
            (let* factor := lift SavingsPlan.get_manual_discount_factor in
             SavingsPlan.set_factor factor "manual" ;;; ret factor)).
  { apply only_bind; [apply only_lift|]. intros factor.
    apply only_bind; [now apply only_unchanged|]. intros _. apply only_ret. }
  intros w. unfold SavingsPlan.get_savings_plan_factor.
  destruct (SAVINGS_PLAN_FACTOR w); [exists []; cbn; now rewrite app_nil_r|].
  destruct (String.eqb _ "coverage"); [|apply Hmanual].
  apply only_try_except; [|intros _; exact Hmanual].
  apply only_bind.
  - unfold SavingsPlan.get_coverage_discount_factor.
    destruct (PyStr.int _); [|apply only_raise].
    destruct (_ || _); [apply only_raise|].
    apply only_bind; [now apply only_date_today|]. intros end_date.
    apply only_bind; [apply only_lift|]. intros start_date.
    apply only_bind; [apply safe_coverage_pages|]. intros [total_savings total_cost].
    destruct (Float.leb _ _); [apply only_raise|].
    apply only_bind; [apply only_lift|]. intros ratio.
    apply only_bind; [apply only_lift|]. intros fraction. apply only_ret.
  - intros factor. apply only_bind; [now apply only_unchanged|]. intros _. apply only_ret.
Qed.

Variables instance_id state : string.
Hypothesis P_tags : forall tags, P (Called (CreateTags instance_id tags)).
Hypothesis P_stop :
  String.eqb state "stopped" = false ->
  P (Called (StopInstances instance_id)) /\ P (Called (WaitInstanceStopped instance_id)).
Hypothesis P_modify :
  forall instance_type, P (Called (ModifyInstanceAttribute instance_id instance_type)).
Hypothesis P_describe : P (Called (DescribeInstances instance_id)).
Hypothesis P_start : P (Called (StartInstances instance_id)).
Hypothesis P_running : P (Called (WaitInstanceRunning instance_id)).

Lemma safe_poll_instance_type fuel desired_type deadline poll_interval :
  only P (poll_instance_type fuel instance_id desired_type deadline poll_interval).
Proof.
  induction fuel as [|fuel IH]; cbn [poll_instance_type].
  - apply only_lift.
  - apply only_bind; [now apply only_clock|]. intros t.
    destruct (Qlt_le_dec t deadline); [|apply only_raise].
    apply only_bind; [apply only_retry; [assumption|now apply only_invoke]|].
    intros answer. destruct (existsb _ _); [apply only_ret|].
    apply only_bind; [now apply only_clock|]. intros t'.
    destruct (Qlt_le_dec _ _); [|apply only_raise].
    apply only_bind; [now apply only_sleep|]. intros _. exact IH.
Qed.

Lemma safe_resize fuel desired_type_value :
  only P (resize fuel instance_id state desired_type_value).
Proof.
  unfold resize. apply only_bind.
  { destruct (String.eqb state "stopped") eqn:Hstate; cbn [negb]; [apply only_ret|].
    destruct (P_stop eq_refl) as [Hstop Hwait].
    apply only_bind; [apply only_retry; [assumption|now apply only_invoke]|]. intros _.
    apply only_bind; [apply only_retry; [assumption|now apply only_invoke]|]. intros _.
    apply only_ret. }
  intros _.
  apply only_bind; [apply only_retry; [assumption|now apply only_invoke]|]. intros _.
  apply only_bind.
  { unfold wait_for_instance_type. apply only_bind; [now apply only_clock|].
    intros t. apply safe_poll_instance_type. }
  intros _.
  apply only_bind; [apply only_retry; [assumption|now apply only_invoke]|]. intros _.
  apply only_bind; [apply only_retry; [assumption|now apply only_invoke]|]. intros _.
  apply only_ret.
Qed.

Lemma safe_create_tags tags : only P (create_tags instance_id tags).
Proof. unfold create_tags. apply only_retry; [assumption|now apply only_invoke]. Qed.

Lemma safe_process_instance fuel data action run_start_timestamp downsize_type :
  id_instance_id data = instance_id -> id_state data = state ->
  only P (process_instance fuel data action run_start_timestamp downsize_type).
Proof.
  intros Hid Hstate. unfold process_instance. cbv zeta. rewrite Hid, Hstate.
  destruct (String.eqb action "scaledown").
  - destruct (String.eqb (id_current_type data) _); [apply only_ret|].
    apply only_bind.
    { destruct (PyStr.nonempty _); [apply only_ret|].
      apply only_bind; [apply safe_create_tags|intros _; apply only_ret]. }
    intros _. apply only_bind.
    { unfold savings_block. apply only_try_except; [|intros _; apply only_ret].
      destruct (Pricing.get_instance_pricing_profile _) as [pricing_filters source].
      apply only_bind; [apply safe_get_hourly_rate|]. intros original_rate.
      apply only_bind; [apply safe_get_hourly_rate|]. intros downsized_rate.
      apply only_bind; [apply safe_get_savings_plan_factor|]. intros factor.
      destruct (pricing_filters !! "operatingSystem"); [|apply only_raise].
      destruct (pricing_filters !! "preInstalledSw"); [|apply only_raise].
      destruct (pricing_filters !! "licenseModel"); [|apply only_raise].
      apply only_try_except; [|intros _; apply only_ret].
      apply only_bind; [apply safe_create_tags|intros _; apply only_ret]. }
    intros savings. apply only_bind; [apply safe_resize|intros _; apply only_ret].
  - destruct (negb _); [apply only_ret|].
    destruct (String.eqb (id_current_type data) _); [apply only_ret|].
    apply only_bind; [apply safe_resize|]. intros _.
    destruct (String.eqb action "scaleup"); [|apply only_ret].
    apply only_bind.
    { unfold build_actual_savings_snapshot.
      destruct (_ || _); [apply only_ret|].
      apply only_bind; [apply only_lift|]. intros [scale_down_time|]; [|apply only_ret].
      apply only_bind; [apply only_lift|]. intros last_scale_up_time.
      destruct (match last_scale_up_time with
                | Some last => dt_leb scale_down_time last
                | None => false
                end); [apply only_ret|].
      destruct (python_float _); [|apply only_ret].
      apply only_bind; [now apply only_now|]. intros current. apply only_ret. }
    intros [[record snapshot_time]|]; [|apply only_ret].
    apply only_bind; [apply safe_create_tags|intros _; apply only_ret].
Qed.

End Safe.

(** X16.  What a task does to the outside.  Whatever the action and
    whatever the provider answers, every provider call of
    [process_instance] is either a price-catalog or Cost Explorer
    query or an EC2 call on the instance of the task, never on
    another instance; and an instance found stopped is never stopped
    again, nor waited for to stop. *)
Theorem task_acts_on_its_own_instance
    {py : Builtins} {env : Environment}
    (fuel : nat) (data : instance_data) (action run_start_timestamp : string)
    (downsize_type : option string) (w : world) :
  Forall (fun ev => permitted (id_instance_id data) (id_state data) ev = true)
    (events_of (process_instance fuel data action run_start_timestamp downsize_type) w).
Proof.
  apply only_events_of.
  apply (safe_process_instance
           (fun ev => permitted (id_instance_id data) (id_state data) ev = true)
           (fun _ => eq_refl) eq_refl (fun _ => eq_refl) (fun _ _ _ => eq_refl)
           (id_instance_id data) (id_state data));
    try (intros; reflexivity);
    try (intros; cbn [permitted]; now rewrite String.eqb_refl).
  intros Hstate. cbn [permitted]. now rewrite String.eqb_refl, Hstate.
Qed.

End TaskFacts.

(** * Properties of the scale-up path *)

Module ScaleUpFacts.

Import Lifecycle Observed TraceFacts.

Section WithRuntime.
Context {py : Builtins} {env : Environment}.

Lemma snapshot_shape instance_id tags desired_type current_type w record
    snapshot_time w' :
  build_actual_savings_snapshot instance_id tags desired_type current_type w
  = (Ok (Some (record, snapshot_time)), w') ->
  trace w' = trace w ++ [ReadClock]
  /\ ar_scale_up_timestamp record = format_utc snapshot_time.
Proof.
  unfold build_actual_savings_snapshot.
  destruct (_ || _); [discriminate|].
  unfold bind at 1, lift at 1.
  destruct (parse_timestamp (Dict.get LAST_SCALE_DOWN_TIMESTAMP_TAG tags))
    as [[scale_down_time|]|e|]; try discriminate.
  unfold bind at 1, lift at 1.
  destruct (parse_timestamp (Dict.get LAST_SCALE_UP_TIMESTAMP_TAG tags))
    as [last_scale_up_time|e|]; try discriminate.
  destruct (match last_scale_up_time with
            | Some last => dt_leb scale_down_time last
            | None => false
            end); [discriminate|].
  destruct (python_float _) as [hourly_savings|]; [|discriminate].
  unfold bind, now, emit, ret. cbn [fst snd]. intros [= <- <- <-].
  split; reflexivity.
Qed.

End WithRuntime.

(** X17.  A scale-up that returns an actual-savings record has
    resized the instance and has then written the last-scale-up tag
    of the instance with the scale-up timestamp of that record, which
    is what keeps a repeated scale-up from counting the same off-hours
    window twice; such a call reports the instance as processed and
    returns no scale-down record. *)
Theorem scale_up_record_is_tagged
    {py : Builtins} {env : Environment}
    (fuel : nat) (data : instance_data) (run_start_timestamp : string)
    (downsize_type : option string) (w w' : world)
    (processed : bool) (savings : option savings_record) (record : actual_record) :
  process_instance fuel data "scaleup" run_start_timestamp downsize_type w
  = (Ok (processed, savings, Some record), w') ->
  processed = true /\ savings = None
  /\ Called (CreateTags (id_instance_id data)
               [(LAST_SCALE_UP_TIMESTAMP_TAG, ar_scale_up_timestamp record)])
     ∈ events_of (process_instance fuel data "scaleup" run_start_timestamp
                    downsize_type) w.
Proof.
  intros E. pose proof E as Hrun. revert E.
  remember (events_of (process_instance fuel data "scaleup" run_start_timestamp
                         downsize_type) w) as events eqn:Hevents.
  unfold process_instance. cbv zeta.
  change (String.eqb "scaleup" "scaledown") with false.
  change (String.eqb "scaleup" "scaleup") with true. cbv iota.
  destruct (negb _); [discriminate|].
  destruct (String.eqb (id_current_type data) _); [discriminate|].
  intros E. apply SavingsPlanFacts.bind_ok in E as (u & w1 & Hresize & E).
  apply SavingsPlanFacts.bind_ok in E as (snapshot & w2 & Hsnapshot & E).
  destruct snapshot as [[made snapshot_time]|]; [|discriminate].
  apply SavingsPlanFacts.bind_ok in E as (answer & w3 & Htags & E).
  unfold ret in E. injection E as <- <- <- <-.
  split; [reflexivity|]. split; [reflexivity|].
  destruct (only_resize "" fuel (id_instance_id data) (id_state data)
              (preferred_of (id_tags data)) w) as (e1 & Ht1 & _).
  rewrite Hresize in Ht1. cbn [snd] in Ht1.
  apply snapshot_shape in Hsnapshot as [Ht2 Hstamp].
  destruct (LifecycleFacts.retry_invoke_first
              (CreateTags (id_instance_id data)
                 [(LAST_SCALE_UP_TIMESTAMP_TAG, format_utc snapshot_time)]) w2)
    as (rest & Ht3).
  unfold create_tags in Htags. rewrite Htags in Ht3. cbn [snd] in Ht3.
  subst events. unfold events_of. rewrite Hrun. cbn [snd].
  rewrite Ht3, Ht2, Ht1, <- !app_assoc, drop_app_length, Hstamp.
  apply elem_of_app. right. apply elem_of_app. right. apply elem_of_cons. now left.
Qed.

Lemma scale_up_record_is_tagged_witness :
  exists record w',
    process_instance (py := Samples.builtins)
      (env := Samples.environment [] (Samples.cooperative "m5.large")) 3%nat
      (Samples.data "t3.medium"
         [("PreferredInstanceType", "m5.large");
          (LAST_SCALE_DOWN_TIMESTAMP_TAG, "2024-01-01T18:00:00+00:00");
          (LAST_SCALE_DOWN_HOURLY_TAG, "0.1")])
      "scaleup" "2024-01-02T06:00:00Z" None initial_world
    = (Ok (true, None, Some record), w')
    /\ Called (CreateTags "i-0abc"
                 [(LAST_SCALE_UP_TIMESTAMP_TAG, ar_scale_up_timestamp record)])
       ∈ events_of
           (process_instance (py := Samples.builtins)
              (env := Samples.environment [] (Samples.cooperative "m5.large")) 3%nat
              (Samples.data "t3.medium"
                 [("PreferredInstanceType", "m5.large");
                  (LAST_SCALE_DOWN_TIMESTAMP_TAG, "2024-01-01T18:00:00+00:00");
                  (LAST_SCALE_DOWN_HOURLY_TAG, "0.1")])
              "scaleup" "2024-01-02T06:00:00Z" None) initial_world.
Proof.
  eexists _, _. split; [vm_compute; reflexivity|].
  refine (proj2 (proj2 (scale_up_record_is_tagged (py := Samples.builtins)
            (env := Samples.environment [] (Samples.cooperative "m5.large")) 3%nat
            (Samples.data "t3.medium"
               [("PreferredInstanceType", "m5.large");
                (LAST_SCALE_DOWN_TIMESTAMP_TAG, "2024-01-01T18:00:00+00:00");
                (LAST_SCALE_DOWN_HOURLY_TAG, "0.1")])
            "2024-01-02T06:00:00Z" None initial_world _ true None _ _))).
  vm_compute. reflexivity.
Defined.

End ScaleUpFacts.

(** * Further properties of the run *)

Module RunFacts.

Import Lifecycle Handler Observed.

Lemma submitted_ids_app a b : submitted_ids (a ++ b) = submitted_ids a ++ submitted_ids b.
Proof. apply flat_map_app. Qed.

Lemma collected_ids_app a b : collected_ids (a ++ b) = collected_ids a ++ collected_ids b.
Proof. apply flat_map_app. Qed.

Lemma submitted_ids_submitted (l : list instance_data) :
  submitted_ids (List.map (fun d => Submitted (id_instance_id d)) l)
  = List.map id_instance_id l.
Proof. induction l as [|d l IH]; [reflexivity|]. cbn. now f_equal. Qed.

Lemma submitted_ids_collected (l : list instance_data) :
  submitted_ids (List.map (fun d => Collected (id_instance_id d)) l) = [].
Proof. induction l as [|d l IH]; [reflexivity|exact IH]. Qed.

Lemma collected_ids_collected (l : list instance_data) :
  collected_ids (List.map (fun d => Collected (id_instance_id d)) l)
  = List.map id_instance_id l.
Proof. induction l as [|d l IH]; [reflexivity|]. cbn. now f_equal. Qed.

Lemma collected_ids_submitted (l : list instance_data) :
  collected_ids (List.map (fun d => Submitted (id_instance_id d)) l) = [].
Proof. induction l as [|d l IH]; [reflexivity|exact IH]. Qed.

Section WithRuntime.
Context {py : Builtins} {env : Environment} {pool : Executor}.
Variables (action run_start_timestamp : string) (downsize_type : option string).
Hypothesis as_completed_permutes : forall batch, Permutation (as_completed batch) batch.

Lemma run_batches_steps batches c steps :
  FAIL_FAST = false ->
  exists c' extra,
    run_batches action run_start_timestamp downsize_type batches c steps
    = (Returned c', steps ++ extra)
    /\ submitted_ids extra = List.map id_instance_id (List.concat batches)
    /\ Permutation (collected_ids extra) (List.map id_instance_id (List.concat batches)).
Proof.
  intros Hoff. revert c steps. induction batches as [|batch rest IH]; intros c steps.
  - exists c, []. rewrite app_nil_r. repeat split. constructor.
  - cbn [run_batches].
    destruct (HandlerFacts.collect_returns action run_start_timestamp downsize_type
                (as_completed batch) c
                (steps ++ List.map (fun d => Submitted (id_instance_id d)) batch)
                (or_introl Hoff)) as (c1 & -> & _).
    destruct (IH c1 ((steps ++ List.map (fun d => Submitted (id_instance_id d)) batch)
                     ++ List.map (fun d => Collected (id_instance_id d))
                          (as_completed batch)))
      as (c' & extra & -> & Hsub & Hcol).
    exists c', (List.map (fun d => Submitted (id_instance_id d)) batch
                ++ List.map (fun d => Collected (id_instance_id d)) (as_completed batch)
                ++ extra).
    rewrite <- !app_assoc. split; [reflexivity|]. split.
    + rewrite !submitted_ids_app, submitted_ids_submitted, submitted_ids_collected, Hsub.
      cbn [List.concat app]. now rewrite List.map_app.
    + rewrite !collected_ids_app, collected_ids_submitted, collected_ids_collected.
      cbn [List.concat app]. rewrite List.map_app.
      apply Permutation_app; [|exact Hcol].
      apply Permutation_map, as_completed_permutes.
Qed.

End WithRuntime.

(** X18.  With fail-fast off, the batch loop handles every queued
    instance exactly once: the tasks are submitted in the order of
    the queue, one per queued instance, and the results read back are
    those of the same instances, in the order in which the tasks of
    each batch finish, whether the tasks fail or not. *)
Theorem every_queued_instance_is_handled_once
    {py : Builtins} {env : Environment} {pool : Executor}
    (action schedule_name run_start_timestamp : string)
    (instances_to_process : list instance_data) (skipped_due_to_schedule : Z)
    (steps : list step) :
  (forall batch, Permutation (as_completed batch) batch) ->
  FAIL_FAST = false ->
  exists extra,
    snd (orchestrate action schedule_name run_start_timestamp instances_to_process
           skipped_due_to_schedule steps) = steps ++ extra
    /\ submitted_ids extra = List.map id_instance_id instances_to_process
    /\ Permutation (collected_ids extra)
                   (List.map id_instance_id instances_to_process).
Proof.
  intros Hperm Hoff. unfold orchestrate. cbv zeta.
  destruct (run_batches_steps action run_start_timestamp
              (if String.eqb action "scaledown" then Some get_downsize_type else None)
              Hperm (chunks instances_to_process batch_size) (mk_counters 0 [] [])
              steps Hoff) as (c & extra & -> & Hsub & Hcol).
  rewrite (HandlerFacts.chunks_concat _ _ HandlerFacts.batch_size_positive) in Hsub, Hcol.
  destruct (String.eqb action "scaledown").
  - exists (extra ++ [SavingsRecorded (savings_records c)]).
    split; [destruct (record_savings _); cbn [snd]; now rewrite app_assoc|].
    rewrite submitted_ids_app, collected_ids_app. cbn. now rewrite !app_nil_r.
  - exists (extra ++ [ActualSavingsRecorded (actual_savings_records c)]).
    split; [destruct (record_actual_savings _); cbn [snd]; now rewrite app_assoc|].
    rewrite submitted_ids_app, collected_ids_app. cbn. now rewrite !app_nil_r.
Qed.

Lemma every_queued_instance_is_handled_once_witness :
  exists extra,
    snd (orchestrate (env := Samples.quiet_environment)
           (pool := Samples.executor ["i-2"])
           "scaledown" "default" "2024-01-02T06:00:00Z"
           (Samples.fleet ["i-1"; "i-2"; "i-3"]) 0 [RunStarted; Enumerated])
    = [RunStarted; Enumerated] ++ extra
    /\ submitted_ids extra = ["i-1"; "i-2"; "i-3"].
Proof.
  destruct (every_queued_instance_is_handled_once (py := Samples.builtins)
              (env := Samples.quiet_environment) (pool := Samples.executor ["i-2"])
              "scaledown" "default" "2024-01-02T06:00:00Z"
              (Samples.fleet ["i-1"; "i-2"; "i-3"]) 0 [RunStarted; Enumerated]
              HandlerFacts.rev_permutes eq_refl) as (extra & Hsteps & Hsub & _).
  exists extra. split; assumption.
Defined.

Lemma first_ci_none key tags :
  first_ci key tags = None
  <-> Forall (fun kv => PyStr.lower (fst kv) <> PyStr.lower key) tags.
Proof.
  induction tags as [|[tag_key value] tags IH]; cbn [first_ci].
  - split; [constructor|reflexivity].
  - destruct (String.eqb_spec (PyStr.lower tag_key) (PyStr.lower key)) as [Heq|Hne].
    + split; [discriminate|]. intros H. inversion H as [|? ? Hhead _]. contradiction.
    + rewrite IH. split; [now constructor|]. intros H. now inversion H.
Qed.

Lemma get_some_matches {V} key (tags : list (string * V)) value :
  Dict.get key tags = Some value -> Exists (fun kv => fst kv = key) tags.
Proof.
  induction tags as [|[tag_key v] tags IH]; cbn [Dict.get]; [discriminate|].
  destruct (String.eqb_spec key tag_key) as [->|Hne].
  - intros _. now constructor.
  - intros H. apply Exists_cons_tl. now apply IH.
Qed.

Lemma first_ci_some key tags value :
  first_ci key tags = Some value
  <-> exists before tag_key after,
        tags = before ++ (tag_key, value) :: after
        /\ PyStr.lower tag_key = PyStr.lower key
        /\ Forall (fun kv => PyStr.lower (fst kv) <> PyStr.lower key) before.
Proof.
  induction tags as [|[k v] tags IH]; cbn [first_ci].
  - split; [discriminate|]. intros (before & tag_key & after & Htags & _).
    now destruct before.
  - destruct (String.eqb_spec (PyStr.lower k) (PyStr.lower key)) as [Heq|Hne].
    + split.
      * intros [= <-]. exists [], k, tags. repeat split; [assumption|constructor].
      * intros (before & tag_key & after & Htags & _ & Hbefore).
        destruct before as [|[k0 v0] before]; cbn [app] in Htags.
        -- now injection Htags as _ <- _.
        -- injection Htags as -> -> _. inversion Hbefore as [|? ? Hhead _].
           now destruct Hhead.
    + rewrite IH. split.
      * intros (before & tag_key & after & -> & Hkey & Hbefore).
        exists ((k, v) :: before), tag_key, after.
        repeat split; [assumption|now constructor].
      * intros (before & tag_key & after & Htags & Hkey & Hbefore).
        destruct before as [|[k0 v0] before]; cbn [app] in Htags.
        -- injection Htags as -> _ _. contradiction.
        -- injection Htags as _ _ ->. inversion Hbefore. eauto 6.
Qed.

Lemma get_of_unique_key {V} key (tags : list (string * V)) value :
  (key, value) ∈ tags -> NoDup (List.map fst tags) -> Dict.get key tags = Some value.
Proof.
  induction tags as [|[k v] tags IH]; cbn [Dict.get List.map fst].
  - intros H. now apply elem_of_nil in H.
  - intros Hin Hnodup. apply NoDup_cons in Hnodup as [Hfresh Hnodup].
    apply elem_of_cons in Hin as [[= <- <-]|Hin].
    + now rewrite String.eqb_refl.
    + destruct (String.eqb_spec key k) as [<-|_]; [|now apply IH].
      destruct Hfresh. apply FleetFacts.elem_of_map. now exists (key, value).
Qed.

(** X19.  Looking up a tag.  A tag with exactly the requested key
    gives its value (tag keys being distinct, as in a dictionary).
    When there is none, the value found is that of the first tag, in
    the order of the tags, whose key equals the requested key when
    case is ignored: the tags before it do not match, the tags after
    it do not matter.  Nothing is found exactly when no tag key
    equals the requested key ignoring case. *)
Theorem tag_lookup_ignores_case (tags : list (string * string)) (key : string) :
  (forall value, Dict.get key tags = Some value -> get_tag_value tags key = Some value)
  /\ (forall value,
        (key, value) ∈ tags -> NoDup (List.map fst tags) ->
        get_tag_value tags key = Some value)
  /\ (Dict.get key tags = None ->
      forall value,
        get_tag_value tags key = Some value
        <-> exists before tag_key after,
              tags = before ++ (tag_key, value) :: after
              /\ PyStr.lower tag_key = PyStr.lower key
              /\ Forall (fun kv => PyStr.lower (fst kv) <> PyStr.lower key) before)
  /\ (get_tag_value tags key = None
      <-> Forall (fun kv => PyStr.lower (fst kv) <> PyStr.lower key) tags).
Proof.
  unfold get_tag_value. split; [|split; [|split]].
  - now intros value ->.
  - intros value Hin Hnodup. now rewrite (get_of_unique_key key tags value).
  - intros -> value. apply first_ci_some.
  - destruct (Dict.get key tags) as [value|] eqn:E.
    + split; [discriminate|]. intros Hnone.
      apply get_some_matches in E. apply Exists_exists in E as ([k v] & Hin & Hk).
      rewrite Forall_forall in Hnone. cbn in Hk. subst k.
      now destruct (Hnone _ Hin).
    + apply first_ci_none.
Qed.

(** Of two tags that match when case is ignored, the first one is
    found. *)
Lemma tag_lookup_ignores_case_witness :
  get_tag_value
    [("Name", "db-1"); ("dynamicscalingschedule", "Nightly");
     ("DYNAMICSCALINGSCHEDULE", "Weekend")]
    "DynamicScalingSchedule"
  = Some "Nightly".
Proof.
  apply (proj1 (proj2 (proj2 (tag_lookup_ignores_case
           [("Name", "db-1"); ("dynamicscalingschedule", "Nightly");
            ("DYNAMICSCALINGSCHEDULE", "Weekend")]
           "DynamicScalingSchedule"))) eq_refl "Nightly").
  exists [("Name", "db-1")], "dynamicscalingschedule",
         [("DYNAMICSCALINGSCHEDULE", "Weekend")].
  split; [reflexivity|]. split; [reflexivity|].
  constructor; [discriminate|constructor].
Defined.

End RunFacts.
